(** * Masar: employee record keeper (masar.py)

    A shallow embedding of the data layer of [masar.py] -- the text
    normalizer, form validation, the statements the program sends to its
    SQLite connection, attachment upload and the export document -- and the
    properties of it that the specification states.

    Conventions of the embedding.
    - A Python [str] is the list of its Unicode code points ([N]); the
      character tables ([str.isspace], [str.isdigit], the decimal digits)
      are those of Unicode 14, of CPython 3.11.  Text is taken without
      U+0000.
    - The two tables of [masar.db] are lists of rows in rowid order, every
      column holding text; a statement is a function on the database value
      (every statement of the program is followed by [commit] on the one
      shared connection).  The identifier kept in [selected_emp_id] is the
      text of a rowid, which the engine compares as the number it spells:
      it is modelled as that number.
    - The widgets the data layer reads (the line edits of the form, the
      selected row, the pending attachment list, the photo path, the rows
      of the table) are the fields of the record [EmployeeTab]; each slot
      is a function from the state to the new state and the message box it
      shows.
    - What comes from outside the program is an argument: the answer of a
      file dialog or of a confirmation box, today's date, the clock, the
      MIME table and the outcome of WeasyPrint.
    - The file system is the operating system's: the program's calls to
      it are the fields of [file_system], and what the program relies on is
      stated in [lawful]; paths are put together by [posixpath]. *)

From Stdlib Require Import List NArith Arith String Ascii Bool Lia.
Import ListNotations.

Open Scope N_scope.

(* ================================================================= *)
(** ** Text *)

(** A Python string: its code points in order. *)
Definition str := list N.

Definition str_eqb (a b : str) : bool :=
  if list_eq_dec N.eq_dec a b then true else false.

(** Literals are written as Rocq byte strings in UTF-8 and decoded to code
    points: [pending] continuation bytes are still to be read into [acc]. *)
Fixpoint utf8_decode (pending : nat) (acc : N) (bs : list N) : str :=
  match bs with
  | [] => []
  | b :: bs' =>
      match pending with
      | S k =>
          let acc' := acc * 64 + b mod 64 in
          match k with
          | O => acc' :: utf8_decode O 0 bs'
          | S _ => utf8_decode k acc' bs'
          end
      | O =>
          if b <? 128 then b :: utf8_decode O 0 bs'
          else if b <? 224 then utf8_decode 1 (b mod 32) bs'
          else if b <? 240 then utf8_decode 2 (b mod 16) bs'
          else utf8_decode 3 (b mod 8) bs'
      end
  end.

Definition u (s : string) : str :=
  utf8_decode O 0 (map N_of_ascii (list_ascii_of_string s)).

(** The double quote, which a literal cannot hold. *)
Definition dq : str := [34].

(** Number of bytes of the UTF-8 encoding of a string (SQLite's
    [sqlite3_value_bytes] of a bound text). *)
Definition utf8_len (s : str) : N :=
  fold_right
    (fun c n =>
       (if c <? 0x80 then 1 else if c <? 0x800 then 2
        else if c <? 0x10000 then 3 else 4) + n)
    0 s.

(** [s] starts with [p]. *)
Fixpoint starts_with (p s : str) : bool :=
  match p, s with
  | [], _ => true
  | _ :: _, [] => false
  | a :: p', b :: s' => (a =? b) && starts_with p' s'
  end.

(* ================================================================= *)
(** ** The Python runtime the program calls *)

Module Py.

Definition in_range (c : N) (r : N * N) : bool :=
  (fst r <=? c) && (c <=? snd r).

(** [str.isspace] of one character (CPython's [_PyUnicode_IsWhitespace]). *)
Definition space_ranges : list (N * N) :=
  [ (0x09, 0x0D); (0x1C, 0x20); (0x85, 0x85); (0xA0, 0xA0);
    (0x1680, 0x1680); (0x2000, 0x200A); (0x2028, 0x2029);
    (0x202F, 0x202F); (0x205F, 0x205F); (0x3000, 0x3000) ].

Definition isspace_char (c : N) : bool := existsb (in_range c) space_ranges.

(** The decimal digits of Unicode 14 (category Nd) come in runs of ten,
    zero first; these are the code points of the zeros. *)
Definition decimal_zeros : list N :=
  [ 48; 1632; 1776; 1984; 2406; 2534; 2662; 2790; 2918; 3046; 3174; 3302;
    3430; 3558; 3664; 3792; 3872; 4160; 4240; 6112; 6160; 6470; 6608; 6784;
    6800; 6992; 7088; 7232; 7248; 42528; 43216; 43264; 43472; 43504; 43600;
    44016; 65296; 66720; 68912; 69734; 69872; 69942; 70096; 70384; 70736;
    70864; 71248; 71360; 71472; 71904; 72016; 72784; 73040; 73120; 92768;
    92864; 93008; 120782; 120792; 120802; 120812; 120822; 123200; 123632;
    125264; 130032 ].

(** [Py_UNICODE_TODECIMAL]: the value of a decimal digit. *)
Definition decimal_value (c : N) : option N :=
  match find (fun z => (z <=? c) && (c <? z + 10)) decimal_zeros with
  | Some z => Some (c - z)
  | None => None
  end.

Definition isdecimal_char (c : N) : bool :=
  match decimal_value c with Some _ => true | None => false end.

(** Characters of numeric type Digit that are not decimal (superscripts,
    circled digits and the like). *)
Definition other_digit_ranges : list (N * N) :=
  [ (178, 179); (185, 185); (4969, 4977); (6618, 6618); (8304, 8304);
    (8308, 8313); (8320, 8329); (9312, 9320); (9332, 9340); (9352, 9360);
    (9450, 9450); (9461, 9469); (9471, 9471); (10102, 10110);
    (10112, 10120); (10122, 10130); (68160, 68163); (69216, 69224);
    (69714, 69722); (127232, 127242) ].

Definition isdigit_char (c : N) : bool :=
  isdecimal_char c || existsb (in_range c) other_digit_ranges.

(** [str.isdigit()]: every character is a digit and there is at least
    one. *)
Definition isdigit (s : str) : bool :=
  match s with
  | [] => false
  | _ :: _ => forallb isdigit_char s
  end.

(** [str.lstrip()], [str.rstrip()] and [str.strip()] without argument. *)
Fixpoint lstrip (s : str) : str :=
  match s with
  | [] => []
  | c :: s' => if isspace_char c then lstrip s' else s
  end.

Fixpoint rstrip (s : str) : str :=
  match s with
  | [] => []
  | c :: s' =>
      match rstrip s' with
      | [] => if isspace_char c then [] else [c]
      | t => c :: t
      end
  end.

Definition strip (s : str) : str := rstrip (lstrip s).

(** [s.replace(old, new)]: the occurrences of [old] are found from the
    left and do not overlap; [skip] characters of the occurrence just
    replaced are still to be passed over. *)
Fixpoint replace_from (skip : nat) (old new s : str) : str :=
  match s with
  | [] => []
  | c :: s' =>
      match skip with
      | S k => replace_from k old new s'
      | O =>
          if starts_with old s
          then new ++ replace_from (List.length old - 1) old new s'
          else c :: replace_from O old new s'
      end
  end.

Definition replace (s old new : str) : str :=
  match old with
  | [] => new ++ flat_map (fun c => c :: new) s
  | _ :: _ => replace_from O old new s
  end.

(** [int(s)] on a run of decimal digits. *)
Definition int_of_digits (s : str) : option N :=
  fold_left
    (fun acc c =>
       match acc, decimal_value c with
       | Some n, Some d => Some (10 * n + d)
       | _, _ => None
       end)
    s (Some 0).

(** *** Dates *)

(** A [datetime.date]: year, month, day. *)
Definition date := (N * N * N)%type.

Definition is_leap (y : N) : bool :=
  (y mod 4 =? 0) && (negb (y mod 100 =? 0) || (y mod 400 =? 0)).

Definition days_in_month (y m : N) : N :=
  if m =? 2 then (if is_leap y then 29 else 28)
  else if (m =? 4) || (m =? 6) || (m =? 9) || (m =? 11) then 30
  else 31.

(** The constructor of [datetime.date] raises [ValueError] out of these
    bounds ([MINYEAR] is 1, [MAXYEAR] is 9999). *)
Definition valid_date (d : date) : bool :=
  let '(y, m, dd) := d in
  (1 <=? y) && (y <=? 9999) && (1 <=? m) && (m <=? 12)
  && (1 <=? dd) && (dd <=? days_in_month y m).

(** [a > b] on dates. *)
Definition date_gt (a b : date) : bool :=
  let '(y1, m1, d1) := a in
  let '(y2, m2, d2) := b in
  (y2 <? y1) || ((y1 =? y2) && ((m2 <? m1) || ((m1 =? m2) && (d2 <? d1)))).

Definition ascii_between (lo hi c : N) : bool := (lo <=? c) && (c <=? hi).

(** The month group of [_strptime]'s pattern, [1[0-2]|0[1-9]|[1-9]],
    followed by the literal [-]: the alternatives are tried in this order
    and the next one is taken when the [-] does not follow.  Returns the
    text of the group and what follows the [-]. *)
Definition match_month_dash (s : str) : option (str * str) :=
  let alt3 :=
    match s with
    | c1 :: c2 :: rest =>
        if ascii_between 49 57 c1 && (c2 =? 45) then Some ([c1], rest)
        else None
    | _ => None
    end in
  match s with
  | c1 :: c2 :: c3 :: rest =>
      if (c1 =? 49) && ascii_between 48 50 c2 && (c3 =? 45)
      then Some ([c1; c2], rest)
      else if (c1 =? 48) && ascii_between 49 57 c2 && (c3 =? 45)
      then Some ([c1; c2], rest)
      else alt3
  | _ => alt3
  end.

(** The day group, [3[0-1]|[1-2]\d|0[1-9]|[1-9]| [1-9]], the last of the
    pattern: the first alternative that matches is taken.  Returns the
    text of the group and the unconverted rest. *)
Definition match_day (s : str) : option (str * str) :=
  let alt5 :=
    match s with
    | c1 :: c2 :: rest =>
        if (c1 =? 32) && ascii_between 49 57 c2 then Some ([c1; c2], rest)
        else None
    | _ => None
    end in
  let alt4 :=
    match s with
    | c1 :: rest =>
        if ascii_between 49 57 c1 then Some ([c1], rest) else alt5
    | [] => None
    end in
  match s with
  | c1 :: c2 :: rest =>
      if (c1 =? 51) && ascii_between 48 49 c2 then Some ([c1; c2], rest)
      else if ascii_between 49 50 c1 && isdecimal_char c2
      then Some ([c1; c2], rest)
      else if (c1 =? 48) && ascii_between 49 57 c2
      then Some ([c1; c2], rest)
      else alt4
  | _ => alt4
  end.

(** [datetime.datetime.strptime(s, "%Y-%m-%d").date()]; [None] stands
    for the [ValueError] it raises.  The pattern is
    [(?P<Y>\d\d\d\d)-(?P<m>...)-(?P<d>...)], matched at the start of [s];
    text left over after the match is an error; [int] of the day group
    skips its leading blank. *)
Definition strptime_ymd (s : str) : option date :=
  match s with
  | y1 :: y2 :: y3 :: y4 :: dash :: s1 =>
      if dash =? 45 then
        match int_of_digits [y1; y2; y3; y4], match_month_dash s1 with
        | Some y, Some (mt, s2) =>
            match int_of_digits mt, match_day s2 with
            | Some m, Some (dt, []) =>
                match int_of_digits (lstrip dt) with
                | Some d =>
                    if valid_date (y, m, d) then Some (y, m, d) else None
                | None => None
                end
            | _, _ => None
            end
        | _, _ => None
        end
      else None
  | _ => None
  end.

(** *** Paths ([posixpath]) *)

Definition sep : N := 47.

(** [os.path.basename]: what follows the last [/]. *)
Fixpoint basename (p : str) : str :=
  match p with
  | [] => []
  | c :: p' =>
      if existsb (N.eqb sep) p' then basename p'
      else if c =? sep then p' else p
  end.

(** [os.path.join(a, b)]. *)
Definition join (a b : str) : str :=
  if starts_with [sep] b then b
  else
    match a with
    | [] => b
    | _ :: _ => if N.eqb (last a 0) sep then a ++ b else a ++ [sep] ++ b
    end.

(** [str.rstrip("/")]. *)
Fixpoint lstrip_sep (s : str) : str :=
  match s with
  | [] => []
  | c :: s' => if c =? sep then lstrip_sep s' else s
  end.

Definition rstrip_sep (s : str) : str := rev (lstrip_sep (rev s)).

(** [os.path.split]: the text up to the last [/], without the slashes that
    end it unless it is made of slashes only, and the text after the last
    [/]. *)
Definition split (p : str) : str * str :=
  let tail := basename p in
  let head := firstn (List.length p - List.length tail) p in
  (if forallb (N.eqb sep) head then head else rstrip_sep head, tail).

End Py.

(* ================================================================= *)
(** ** The SQLite engine, as far as the program's statements use it *)

Module Sqlite.

(** *** The LIKE operator *)

(** [SQLITE_MAX_LIKE_PATTERN_LENGTH]: a longer pattern (in bytes) makes the
    statement fail with "LIKE or GLOB pattern too complex". *)
Definition like_pattern_limit : N := 50000.

Definition tolower (c : N) : N :=
  if (65 <=? c) && (c <=? 90) then c + 32 else c.

(** Two characters match when they are equal, or when both are ASCII and
    equal up to case: the built-in LIKE folds the case of ASCII only. *)
Definition like_char_eq (c d : N) : bool :=
  (c =? d) || ((c <? 128) && (d <? 128) && (tolower c =? tolower d)).

Definition percent : N := 37.
Definition underscore : N := 95.

(** [s LIKE p] without ESCAPE: [%] stands for any run of characters, [_]
    for any one character. *)
Fixpoint like (p s : str) : bool :=
  match p with
  | [] => match s with [] => true | _ :: _ => false end
  | c :: p' =>
      if c =? percent then
        (fix any_run (s : str) : bool :=
           like p' s
           || match s with [] => false | _ :: s' => any_run s' end) s
      else
        match s with
        | [] => false
        | d :: s' => ((c =? underscore) || like_char_eq c d) && like p' s'
        end
  end.

(** *** The two tables *)

(** A row of [employee]: the rowid and the seventeen TEXT columns in the
    order of [EMPLOYEE_FIELDS]. *)
Record employee_row := {
  emp_id : N;
  emp_vals : list str
}.

(** A row of [attachment]; a column the INSERT does not name is NULL. *)
Record attachment_row := {
  att_id : N;
  employee_id : N;
  filename : str;
  filepath : str;
  filetype : option str;
  upload_date : option str;
  is_photo : N
}.

(** The database: the rows of each table in rowid order and, for
    AUTOINCREMENT, the largest rowid each table ever held
    ([sqlite_sequence]). *)
Record database := {
  employee : list employee_row;
  attachment : list attachment_row;
  employee_seq : N;
  attachment_seq : N
}.

(** What [init_db] leaves when [masar.db] did not exist. *)
Definition empty_db : database :=
  {| employee := []; attachment := []; employee_seq := 0;
     attachment_seq := 0 |}.

Definition max_id (ids : list N) : N := fold_right N.max 0 ids.

(** The rowid an AUTOINCREMENT table gives to a new row: one more than the
    largest rowid that has ever been in the table. *)
Definition next_rowid (seq : N) (ids : list N) : N :=
  N.max seq (max_id ids) + 1.

(** [INSERT INTO employee (<fields>) VALUES (<vals>)]; also gives
    [lastrowid]. *)
Definition insert_employee (vals : list str) (db : database)
  : database * N :=
  let id := next_rowid (employee_seq db) (map emp_id (employee db)) in
  ({| employee := employee db ++ [{| emp_id := id; emp_vals := vals |}];
      attachment := attachment db;
      employee_seq := id;
      attachment_seq := attachment_seq db |}, id).

(** [UPDATE employee SET <field>=?, ... WHERE id=?]. *)
Definition update_employee (vals : list str) (id : N) (db : database)
  : database :=
  {| employee :=
       map (fun r => if emp_id r =? id
                     then {| emp_id := emp_id r; emp_vals := vals |}
                     else r)
           (employee db);
     attachment := attachment db;
     employee_seq := employee_seq db;
     attachment_seq := attachment_seq db |}.

(** [DELETE FROM employee WHERE id=?]. *)
Definition delete_employee_row (id : N) (db : database) : database :=
  {| employee := filter (fun r => negb (emp_id r =? id)) (employee db);
     attachment := attachment db;
     employee_seq := employee_seq db;
     attachment_seq := attachment_seq db |}.

(** [DELETE FROM attachment WHERE employee_id=?]. *)
Definition delete_attachments (id : N) (db : database) : database :=
  {| employee := employee db;
     attachment :=
       filter (fun a => negb (employee_id a =? id)) (attachment db);
     employee_seq := employee_seq db;
     attachment_seq := attachment_seq db |}.

(** [INSERT INTO attachment (employee_id, filename, filepath, filetype,
    upload_date, is_photo) VALUES (...)]. *)
Definition insert_attachment (eid : N) (fname fpath : str)
  (ftype udate : option str) (photo : N) (db : database) : database :=
  let id := next_rowid (attachment_seq db) (map att_id (attachment db)) in
  {| employee := employee db;
     attachment :=
       attachment db
       ++ [{| att_id := id; employee_id := eid; filename := fname;
              filepath := fpath; filetype := ftype; upload_date := udate;
              is_photo := photo |}];
     employee_seq := employee_seq db;
     attachment_seq := id |}.

End Sqlite.

Import Sqlite.

(* ================================================================= *)
(** ** The files of the operating system *)

(** What the program asks of the operating system, each call a function of
    the state of the disk: [os.path.exists(p)], [open(p, "rb").read()],
    [open(p, "wb").write(content)] and [os.makedirs(p)]; [None] where the
    call raises.  Which file a path names (the working directory, [.] and
    [..], links, the case of letters) is the operating system's affair and
    is left to it. *)
Record file_system := {
  disk : Type;
  path_exists : disk -> str -> bool;
  read_file : disk -> str -> option (list N);
  write_file : disk -> str -> list N -> option disk;
  makedirs : disk -> str -> option disk
}.

Arguments path_exists {os} _ _ : rename.
Arguments read_file {os} _ _ : rename.
Arguments write_file {os} _ _ _ : rename.
Arguments makedirs {os} _ _ : rename.

(** What can be read stays as it is, and what exists still exists. *)
Definition preserved {os : file_system} (d d' : disk os) : Prop :=
  (forall p content,
      read_file d p = Some content -> read_file d' p = Some content)
  /\ (forall p, path_exists d p = true -> path_exists d' p = true).

(** What the program relies on: a file that can be read exists; a file
    that was written holds what was written; writing a file that did not
    exist, and making directories, change no file that exists; and the
    directory that [makedirs] was asked for exists when it returns.  (In
    one case CPython's [os.makedirs] returns with no directory at [p]: a
    path ending in a dot that goes through a regular file.  [makedirs] is
    to give [None] there, as where it raises.) *)
Definition lawful (os : file_system) : Prop :=
  (forall (d : disk os) p content,
      read_file d p = Some content -> path_exists d p = true)
  /\ (forall (d d' : disk os) p content,
         write_file d p content = Some d' ->
         read_file d' p = Some content)
  /\ (forall (d d' : disk os) p content,
         path_exists d p = false ->
         write_file d p content = Some d' ->
         preserved d d')
  /\ (forall (d d' : disk os) p,
         makedirs d p = Some d' ->
         path_exists d' p = true /\ preserved d d').

(** *** A POSIX directory tree *)

(** A file system of directories and regular files, without links, for a
    program whose working directory is the root. *)
Module Posix.

Inductive node := File (content : list N) | Dir.

(** A place on the disk: the names that lead to it from the root. *)
Definition place := list str.

(** What is at each place; the root is a directory and is not recorded. *)
Definition tree := place -> option node.

Definition place_eqb (a b : place) : bool :=
  if list_eq_dec (list_eq_dec N.eq_dec) a b then true else false.

Definition node_at (d : tree) (here : place) : option node :=
  match here with
  | [] => Some Dir
  | _ :: _ => d here
  end.

Definition is_dir (d : tree) (here : place) : bool :=
  match node_at d here with
  | Some Dir => true
  | _ => false
  end.

Definition put (d : tree) (here : place) (n : node) : tree :=
  fun q => if place_eqb q here then Some n else d q.

(** The disk that holds [entries]. *)
Definition of_list (entries : list (place * node)) : tree :=
  fun q =>
    match find (fun e => place_eqb (fst e) q) entries with
    | Some e => Some (snd e)
    | None => None
    end.

(** The names between the slashes of a path. *)
Fixpoint components (p : str) : list str :=
  match p with
  | [] => [[]]
  | c :: p' =>
      if c =? Py.sep then [] :: components p'
      else
        match components p' with
        | name :: names => (c :: name) :: names
        | [] => [[c]]
        end
  end.

(** Following [names] from the directory [cur]: every step is taken in a
    directory; an empty name and [.] stay there, [..] goes up, and any
    other name goes to the entry of that name, which need not exist. *)
Fixpoint walk (d : tree) (cur : place) (names : list str) : option place :=
  match names with
  | [] => Some cur
  | name :: names' =>
      if is_dir d cur then
        if str_eqb name [] || str_eqb name (u ".") then walk d cur names'
        else if str_eqb name (u "..") then walk d (removelast cur) names'
        else walk d (cur ++ [name]) names'
      else None
  end.

Definition resolve (d : tree) (p : str) : option place :=
  match p with
  | [] => None
  | _ :: _ => walk d [] (components p)
  end.

Definition path_exists (d : tree) (p : str) : bool :=
  match resolve d p with
  | Some here => match node_at d here with Some _ => true | None => false end
  | None => false
  end.

Definition read_file (d : tree) (p : str) : option (list N) :=
  match resolve d p with
  | Some here =>
      match node_at d here with
      | Some (File content) => Some content
      | _ => None
      end
  | None => None
  end.

(** The file is made if it is missing, in a directory that exists. *)
Definition write_file (d : tree) (p : str) (content : list N)
  : option tree :=
  match resolve d p with
  | Some here =>
      match node_at d here with
      | Some Dir => None
      | _ => Some (put d here (File content))
      end
  | None => None
  end.

Fixpoint drop_empty (names : list str) : list str :=
  match names with
  | [] :: names' => drop_empty names'
  | _ => names
  end.

(** [os.mkdir(p)], which takes slashes at the end of [p]: the directory is
    made, or it is there already ([FileExistsError]), or another error is
    raised. *)
Inductive made := Made (d : tree) | There | Refused.

Definition mkdir (d : tree) (p : str) : made :=
  match p with
  | [] => Refused
  | _ :: _ =>
      match walk d [] (rev (drop_empty (rev (components p)))) with
      | Some here =>
          match node_at d here with
          | None => Made (put d here Dir)
          | Some _ => There
          end
      | None => Refused
      end
  end.

(** [os.makedirs(name)] returns, or raises [FileExistsError], or raises
    another error; directories made before an error stay. *)
Inductive outcome := Done (d : tree) | FileExists (d : tree) | Raised.

Definition mkdir_outcome (d : tree) (name : str) : outcome :=
  match mkdir d name with
  | Made d' => Done d'
  | There => FileExists d
  | Refused => Raised
  end.

(** The body of [os.makedirs], which calls itself on a shorter path;
    [fuel] bounds the depth of the calls. *)
Fixpoint makedirs_from (fuel : nat) (d : tree) (name : str) : outcome :=
  match fuel with
  | O => Raised
  | S fuel' =>
      let (head0, tail0) := Py.split name in
      let (head, tail) :=
        match tail0 with
        | [] => Py.split head0
        | _ :: _ => (head0, tail0)
        end in
      match head, tail with
      | _ :: _, _ :: _ =>
          if negb (path_exists d head) then
            match makedirs_from fuel' d head with
            | Raised => Raised
            | Done d1 | FileExists d1 =>
                if str_eqb tail (u ".") then Done d1
                else mkdir_outcome d1 name
            end
          else mkdir_outcome d name
      | _, _ => mkdir_outcome d name
      end
  end.

(** [os.makedirs(p)] as the program sees it: the disk when it returns with
    [p] in place, [None] when it raises, and also in the one case where it
    returns with nothing at [p] (see [lawful]).  The length of [p] is fuel
    enough: each call is on a shorter path. *)
Definition makedirs (d : tree) (p : str) : option tree :=
  match makedirs_from (S (List.length p)) d p with
  | Done d' => if path_exists d' p then Some d' else None
  | _ => None
  end.

End Posix.

Definition posix : file_system :=
  {| disk := Posix.tree;
     path_exists := Posix.path_exists;
     read_file := Posix.read_file;
     write_file := Posix.write_file;
     makedirs := Posix.makedirs |}.

(* ================================================================= *)
(** ** masar.py *)

Definition DB_FILE : str := u "masar.db".
Definition ATTACHMENTS_DIR : str := u "attachments".

(** The keys of [EMPLOYEE_FIELDS], which are also the column names of the
    [employee] table and the keys of [form_fields]. *)
Module Field.

Inductive t :=
| name | grade | grade_date | hire_date | file_no | qualification
| functional_group | type_group | job_title | department | current_work
| birth_date | insurance_no | national_id | address | phone | notes.

(** Position of a key in [EMPLOYEE_FIELDS], that is, of its column in a
    row. *)
Definition index (f : t) : nat :=
  match f with
  | name => 0 | grade => 1 | grade_date => 2 | hire_date => 3
  | file_no => 4 | qualification => 5 | functional_group => 6
  | type_group => 7 | job_title => 8 | department => 9
  | current_work => 10 | birth_date => 11 | insurance_no => 12
  | national_id => 13 | address => 14 | phone => 15 | notes => 16
  end%nat.

End Field.

Definition EMPLOYEE_FIELDS : list Field.t :=
  [ Field.name; Field.grade; Field.grade_date; Field.hire_date;
    Field.file_no; Field.qualification; Field.functional_group;
    Field.type_group; Field.job_title; Field.department;
    Field.current_work; Field.birth_date; Field.insurance_no;
    Field.national_id; Field.address; Field.phone; Field.notes ].

(** [AR_LABELS] on the employee fields (its two other keys label widgets
    only). *)
Definition AR_LABELS (f : Field.t) : str :=
  match f with
  | Field.name => u "الاسم"
  | Field.grade => u "الدرجة"
  | Field.grade_date => u "تاريخ الحصول عليها"
  | Field.hire_date => u "تاريخ التعيين"
  | Field.file_no => u "رقم الملف"
  | Field.qualification => u "المؤهل"
  | Field.functional_group => u "مجموعة وظيفية"
  | Field.type_group => u "مجموعة نوعية"
  | Field.job_title => u "المسمى الوظيفي"
  | Field.department => u "القسم"
  | Field.current_work => u "العمل القائم به"
  | Field.birth_date => u "تاريخ الميلاد"
  | Field.insurance_no => u "رقم تأميني"
  | Field.national_id => u "رقم قومي"
  | Field.address => u "عنوان حالي"
  | Field.phone => u "رقم التليفون"
  | Field.notes => u "ملاحظات"
  end.

(** The value of a column in a row. *)
Definition column (f : Field.t) (r : employee_row) : str :=
  nth (Field.index f) (emp_vals r) [].

(** *** normalize_arabic *)

Definition tatweel : str := u "ـ".

(** The dictionary [replacements], in insertion order. *)
Definition replacements : list (str * str) :=
  [ (u "أ", u "ا"); (u "إ", u "ا"); (u "آ", u "ا"); (u "ة", u "ه");
    (u "ى", u "ي") ].

Definition normalize_arabic (text : str) : str :=
  match text with
  | [] => text
  | _ :: _ =>
      let text := Py.replace text tatweel [] in
      let text :=
        fold_left (fun text st => Py.replace text (fst st) (snd st))
                  replacements text in
      Py.strip text
  end.

(** *** The attachment folder *)

(** [None] where [os.makedirs] raises. *)
Definition get_employee_folder {os : file_system} (d : disk os)
  (file_no : str) : option (disk os * str) :=
  let folder := Py.join ATTACHMENTS_DIR file_no in
  if path_exists d folder then Some (d, folder)
  else
    match makedirs d folder with
    | Some d' => Some (d', folder)
    | None => None
    end.

(** *** EmployeeTab *)

(** The state of the tab: the shared connection, the text of each line
    edit, the selected employee, the pending attachment list
    [(filename, filepath)], the photo path and the rows the table shows. *)
Record EmployeeTab := {
  conn : database;
  form_fields : Field.t -> str;
  selected_emp_id : option N;
  attachments : list (str * str);
  photo_path : option str;
  table : list employee_row
}.

(** The second component of what [validate_employee_form] returns with
    [False]. *)
Inductive validation_msg :=
| msg_name_required            (* "يرجى إدخال الاسم" *)
| msg_file_no_required         (* "يرجى إدخال رقم الملف" *)
| msg_file_no_taken            (* "رقم الملف مسجل بالفعل" *)
| msg_national_id_required     (* "يرجى إدخال الرقم القومي" *)
| msg_national_id_format       (* "الرقم القومي يجب أن يكون 14 رقمًا" *)
| msg_national_id_taken        (* "هذا الرقم القومي مسجل بالفعل." *)
| msg_phone_digits             (* "رقم التليفون يجب أن يحتوي على أرقام فقط" *)
| msg_date_future (f : Field.t)   (* "<label> لا يمكن أن يكون في المستقبل" *)
| msg_date_format (f : Field.t).  (* "صيغة التاريخ غير صحيحة في <label> ..." *)

(** [(True, "")] or [(False, msg)]. *)
Inductive verdict := Valid | Invalid (msg : validation_msg).

(** The message boxes of the tabs. *)
Inductive popup :=
| critical_invalid (msg : validation_msg)
| critical_file_no_first       (* "يرجى إدخال رقم الملف أولاً" *)
| critical_select_to_edit      (* "يرجى اختيار موظف للتعديل" *)
| critical_select_to_delete    (* "يرجى اختيار موظف للحذف" *)
| critical_export_failed
| info_updated                 (* "تم تحديث بيانات الموظف بنجاح" *)
| info_added                   (* "تم إضافة الموظف بنجاح" *)
| info_edited                  (* "تم تعديل بيانات الموظف" *)
| info_deleted                 (* "تم حذف الموظف" *)
| info_exported.

Definition set_conn (db : database) (t : EmployeeTab) : EmployeeTab :=
  {| conn := db; form_fields := form_fields t;
     selected_emp_id := selected_emp_id t; attachments := attachments t;
     photo_path := photo_path t; table := table t |}.

Definition set_table (rows : list employee_row) (t : EmployeeTab)
  : EmployeeTab :=
  {| conn := conn t; form_fields := form_fields t;
     selected_emp_id := selected_emp_id t; attachments := attachments t;
     photo_path := photo_path t; table := rows |}.

Definition set_attachments (l : list (str * str)) (t : EmployeeTab)
  : EmployeeTab :=
  {| conn := conn t; form_fields := form_fields t;
     selected_emp_id := selected_emp_id t; attachments := l;
     photo_path := photo_path t; table := table t |}.

Definition set_photo_path (p : option str) (t : EmployeeTab) : EmployeeTab :=
  {| conn := conn t; form_fields := form_fields t;
     selected_emp_id := selected_emp_id t; attachments := attachments t;
     photo_path := p; table := table t |}.

(** [SELECT id, <fields> FROM employee], shown in the table. *)
Definition load_employees (t : EmployeeTab) : EmployeeTab :=
  set_table (employee (conn t)) t.

Definition clear_form (t : EmployeeTab) : EmployeeTab :=
  {| conn := conn t; form_fields := fun _ => [];
     selected_emp_id := None; attachments := [];
     photo_path := None; table := table t |}.

(** [SELECT filename, filepath, is_photo FROM attachment WHERE
    employee_id=?]: the pending list becomes the stored one and the photo
    path that of the last row flagged as photo. *)
Definition load_attachments (emp : N) (t : EmployeeTab) : EmployeeTab :=
  let rows := filter (fun a => employee_id a =? emp) (attachment (conn t)) in
  {| conn := conn t; form_fields := form_fields t;
     selected_emp_id := selected_emp_id t;
     attachments := map (fun a => (filename a, filepath a)) rows;
     photo_path :=
       fold_left
         (fun p a => if is_photo a =? 0 then p else Some (filepath a))
         rows None;
     table := table t |}.

(** A click on row [row] of the table; [None] when the indexing of a
    missing row raises. *)
Definition on_row_select (row : nat) (t : EmployeeTab) : option EmployeeTab :=
  match nth_error (table t) row with
  | None => None
  | Some shown =>
      let emp := emp_id shown in
      match find (fun r => emp_id r =? emp) (employee (conn t)) with
      | None => None
      | Some row_data =>
          Some (load_attachments emp
                  {| conn := conn t;
                     form_fields := fun f => column f row_data;
                     selected_emp_id := Some emp;
                     attachments := attachments t;
                     photo_path := photo_path t; table := table t |})
      end
  end.

(** [SELECT id FROM employee WHERE <f>=? AND id!=?] (with [skip_id]) or
    [... WHERE <f>=?] (without), then [fetchone()]: is there such a row? *)
Definition fetch_same (f : Field.t) (value : str) (skip_id : option N)
  (db : database) : bool :=
  existsb
    (fun r =>
       str_eqb (column f r) value
       && match skip_id with
          | Some id => negb (emp_id r =? id)
          | None => true
          end)
    (employee db).

Definition date_fields : list Field.t :=
  [Field.grade_date; Field.hire_date; Field.birth_date].

(** The loop over [date_fields] that ends [validate_employee_form]. *)
Fixpoint validate_dates (today : Py.date) (form : Field.t -> str)
  (fields : list Field.t) : verdict :=
  match fields with
  | [] => Valid
  | field :: rest =>
      let date_str := Py.strip (form field) in
      match date_str with
      | [] => validate_dates today form rest
      | _ :: _ =>
          match Py.strptime_ymd date_str with
          | Some date_val =>
              if Py.date_gt date_val today
              then Invalid (msg_date_future field)
              else validate_dates today form rest
          | None => Invalid (msg_date_format field)
          end
      end
  end.

Definition nonempty (s : str) : bool :=
  match s with [] => false | _ :: _ => true end.

Definition validate_employee_form (today : Py.date) (skip_id : option N)
  (t : EmployeeTab) : verdict :=
  let name := Py.strip (form_fields t Field.name) in
  let file_no := Py.strip (form_fields t Field.file_no) in
  let national_id := Py.strip (form_fields t Field.national_id) in
  let phone := Py.strip (form_fields t Field.phone) in
  if negb (nonempty name) then Invalid msg_name_required
  else if negb (nonempty file_no) then Invalid msg_file_no_required
  else if fetch_same Field.file_no file_no skip_id (conn t)
  then Invalid msg_file_no_taken
  else if negb (nonempty national_id) then Invalid msg_national_id_required
  else if negb (Py.isdigit national_id
                && (N.of_nat (List.length national_id) =? 14))
  then Invalid msg_national_id_format
  else if fetch_same Field.national_id national_id skip_id (conn t)
  then Invalid msg_national_id_taken
  else if nonempty phone && negb (Py.isdigit phone)
  then Invalid msg_phone_digits
  else validate_dates today (form_fields t) date_fields.

(** The values written to the row: every line edit, normalized. *)
Definition form_vals (t : EmployeeTab) : list str :=
  map (fun f => normalize_arabic (form_fields t f)) EMPLOYEE_FIELDS.

Definition is_photo_flag (photo : option str) (fpath : str) : N :=
  match photo with
  | Some p => if str_eqb fpath p then 1 else 0
  | None => 0
  end.

(** [INSERT INTO attachment (employee_id, filename, filepath, is_photo)]
    for every pending attachment. *)
Definition insert_pending (emp : N) (t : EmployeeTab) (db : database)
  : database :=
  fold_left
    (fun db a =>
       insert_attachment emp (fst a) (snd a) None None
                         (is_photo_flag (photo_path t) (snd a)) db)
    (attachments t) db.

(** The row is rewritten and its attachment rows replaced by the pending
    list (the body shared by [add_employee] on a selected employee and
    [edit_employee]). *)
Definition rewrite_employee (emp : N) (t : EmployeeTab) : database :=
  insert_pending emp t
    (delete_attachments emp (update_employee (form_vals t) emp (conn t))).

Definition add_employee (today : Py.date) (t : EmployeeTab)
  : EmployeeTab * popup :=
  let vals := form_vals t in
  match validate_employee_form today (selected_emp_id t) t with
  | Invalid msg => (t, critical_invalid msg)
  | Valid =>
      match selected_emp_id t with
      | Some emp =>
          (clear_form (load_employees (set_conn (rewrite_employee emp t) t)),
           info_updated)
      | None =>
          let (db, emp) := insert_employee vals (conn t) in
          (clear_form (load_employees (set_conn (insert_pending emp t db) t)),
           info_added)
      end
  end.

Definition edit_employee (today : Py.date) (t : EmployeeTab)
  : EmployeeTab * popup :=
  match selected_emp_id t with
  | None => (t, critical_select_to_edit)
  | Some emp =>
      match validate_employee_form today (Some emp) t with
      | Invalid msg => (t, critical_invalid msg)
      | Valid =>
          (clear_form (load_employees (set_conn (rewrite_employee emp t) t)),
           info_edited)
      end
  end.

(** [reply_yes]: the answer to the confirmation box. *)
Definition delete_employee (reply_yes : bool) (t : EmployeeTab)
  : EmployeeTab * option popup :=
  match selected_emp_id t with
  | None => (t, Some critical_select_to_delete)
  | Some emp =>
      if reply_yes then
        (clear_form
           (load_employees
              (set_conn
                 (delete_attachments emp (delete_employee_row emp (conn t)))
                 t)),
         Some info_deleted)
      else (t, None)
  end.

(** The WHERE clause of [search_employees]. *)
Definition search_where (like_text : str) (r : employee_row) : bool :=
  like like_text (column Field.name r)
  || like like_text (column Field.department r)
  || like like_text (column Field.file_no r)
  || like like_text (column Field.national_id r).

Inductive exn := OperationalError.

(** The table is emptied, then filled with the rows the query returns.  The
    engine evaluates the WHERE clause row by row, the first LIKE first,
    and refuses a pattern above its limit when it evaluates it: with a row
    in the employee table the exception leaves the table of the tab
    empty, without one nothing is raised. *)
Definition search_employees (search_text : str) (t : EmployeeTab)
  : EmployeeTab * option exn :=
  let norm_search := normalize_arabic search_text in
  let like_text := u "%" ++ norm_search ++ u "%" in
  if (utf8_len like_text <=? like_pattern_limit)
     || match employee (conn t) with [] => true | _ :: _ => false end
  then (set_table (filter (search_where like_text) (employee (conn t))) t,
        None)
  else (set_table [] t, Some OperationalError).

(** One turn of the loop of [upload_files] on the file [f], [now] being the
    clock at that turn: the copy is skipped when [dest] exists; a copy
    that raises skips the file. *)
Definition upload_file {os : file_system} (guess_type : str -> option str)
  (now : str) (emp_folder : str) (st : disk os * EmployeeTab) (f : str)
  : disk os * EmployeeTab :=
  let (d, t) := st in
  let fname := Py.basename f in
  let dest := Py.join emp_folder fname in
  let copied :=
    if negb (path_exists d dest) then
      match read_file d f with
      | Some content => write_file d dest content
      | None => None
      end
    else Some d in
  match copied with
  | None => st
  | Some d' =>
      let t' := set_attachments (attachments t ++ [(fname, dest)]) t in
      match selected_emp_id t with
      | Some emp =>
          let filetype :=
            match guess_type dest with Some ty => ty | None => [] end in
          (d',
           set_conn
             (insert_attachment emp fname dest (Some filetype) (Some now) 0
                                (conn t'))
             t')
      | None => (d', t')
      end
  end.

(** The loop of [upload_files] from its turn [i] on; [now i] is what the
    clock shows at turn [i]. *)
Fixpoint upload_loop {os : file_system} (guess_type : str -> option str)
  (now : nat -> str) (emp_folder : str) (i : nat) (files : list str)
  (st : disk os * EmployeeTab) : disk os * EmployeeTab :=
  match files with
  | [] => st
  | f :: files' =>
      upload_loop guess_type now emp_folder (S i) files'
        (upload_file guess_type (now i) emp_folder st f)
  end.

(** [files]: the answer of the file dialog.  [None] where
    [get_employee_folder] raises. *)
Definition upload_files {os : file_system} (files : list str)
  (guess_type : str -> option str) (now : nat -> str)
  (d : disk os) (t : EmployeeTab)
  : option (disk os * EmployeeTab * option popup) :=
  let file_no := form_fields t Field.file_no in
  match file_no with
  | [] => Some (d, t, Some critical_file_no_first)
  | _ :: _ =>
      match get_employee_folder d file_no with
      | None => None
      | Some (d1, emp_folder) =>
          let (d2, t2) :=
            upload_loop guess_type now emp_folder 0 files (d1, t) in
          Some (d2, t2, None)
      end
  end.

(** [f]: the answer of the file dialog.  The copy is unconditional and
    unguarded; [None] where [get_employee_folder] or the copy raises.  The
    picture is read, then written: it and [photo_<name>] are taken to be
    two files. *)
Definition upload_photo {os : file_system} (f : str)
  (guess_type : str -> option str) (now : str)
  (d : disk os) (t : EmployeeTab)
  : option (disk os * EmployeeTab * option popup) :=
  match f with
  | [] => Some (d, t, None)
  | _ :: _ =>
      let file_no := form_fields t Field.file_no in
      match file_no with
      | [] => Some (d, t, Some critical_file_no_first)
      | _ :: _ =>
          match get_employee_folder d file_no with
          | None => None
          | Some (d1, emp_folder) =>
              let fname := u "photo_" ++ Py.basename f in
              let dest := Py.join emp_folder fname in
              match read_file d1 f with
              | None => None
              | Some content =>
                  match write_file d1 dest content with
                  | None => None
                  | Some d2 =>
                      let t' := set_photo_path (Some dest) t in
                      match selected_emp_id t with
                      | Some emp =>
                          let filetype :=
                            match guess_type dest with
                            | Some ty => ty
                            | None => []
                            end in
                          Some (d2,
                                set_conn
                                  (insert_attachment emp fname dest
                                     (Some filetype) (Some now) 1 (conn t'))
                                  t',
                                None)
                      | None => Some (d2, t', None)
                      end
                  end
              end
          end
      end
  end.

(** *** ReportTab *)

Record ReportTab := {
  report_conn : database;
  report_text : str
}.

(** The text of the document before the header cells, between the header
    row and the data rows, and after the data rows. *)
Definition html_head : str :=
    u "
        <html lang=" ++ dq ++
    u "ar" ++ dq ++
    u ">
        <head>
            <meta charset=" ++ dq ++
    u "utf-8" ++ dq ++
    u ">
            <style>
                @font-face {
                    font-family: 'Amiri';
                    src: url('Amiri-Regular.ttf');
                }
                body {
                    direction: rtl;
                    font-family: 'Amiri', 'Cairo', 'Tahoma', sans-serif;
                    font-size: 10px;
                }
                table {
                    border-collapse: collapse;
                    width: 100%;
                    table-layout: fixed;
                }
                th, td {
                    border: 1px solid #888;
                    padding: 6px 4px;
                    word-break: break-word;
                    vertical-align: top;
                    text-align: right;
                }
                th {
                    background: #b3d1f7;
                }
            </style>
        </head>
        <body>
            <h2 style=" ++ dq ++
    u "text-align:center;" ++ dq ++
    u ">تقرير الموظفين</h2>
            <table dir=" ++ dq ++
    u "ltr" ++ dq ++
    u ">
                <thead>
                    <tr>
                        ".

Definition html_mid : str :=
    u "
                    </tr>
                </thead>
                <tbody>
        ".

Definition html_tail : str :=
    u "
                </tbody>
            </table>
        </body>
        </html>
        ".

Definition headers : list str := map AR_LABELS EMPLOYEE_FIELDS.

Definition th (h : str) : str := u "<th>" ++ h ++ u "</th>".

(** [<td>{cell if cell else ''}</td>]. *)
Definition td (cell : str) : str :=
  u "<td>" ++ (if nonempty cell then cell else []) ++ u "</td>".

(** The cells of a row, last column first, between [<tr>] and [</tr>]. *)
Definition tr (row : list str) : str :=
  u "<tr>" ++ List.concat (map td (rev row)) ++ u "</tr>".

(** The HTML document built from the rows of
    [SELECT <fields> FROM employee]. *)
Definition export_html (rows : list (list str)) : str :=
  html_head ++ List.concat (map th (rev headers)) ++ html_mid
  ++ List.concat (map tr rows) ++ html_tail.

(** [file_path]: the answer of the save dialog (empty when cancelled);
    [rendered]: whether WeasyPrint wrote the PDF without raising.  Gives
    the tab, the document handed to WeasyPrint with its destination, and
    the message box. *)
Definition export_pdf (file_path : str) (rendered : bool) (t : ReportTab)
  : ReportTab * option (str * str) * option popup :=
  let rows := map emp_vals (employee (report_conn t)) in
  match file_path with
  | [] => (t, None, None)
  | _ :: _ =>
      let html := export_html rows in
      (t, Some (html, file_path),
       Some (if rendered then info_exported else critical_export_failed))
  end.

(** [full_report]: the header line of labels, a rule of 120 dashes, and a
    line per row, each cell as [str(r) if r else ""]. *)
Fixpoint str_join (sep : str) (l : list str) : str :=
  match l with
  | [] => []
  | x :: rest =>
      match rest with
      | [] => x
      | _ :: _ => x ++ sep ++ str_join sep rest
      end
  end.

Definition newline : str := [10].

Definition report_line (row : list str) : str :=
  str_join (u " | ") (map (fun r => if nonempty r then r else []) row)
  ++ newline.

Definition full_report (t : ReportTab) : ReportTab :=
  let rows := map emp_vals (employee (report_conn t)) in
  let report :=
    str_join (u " | ") (map AR_LABELS EMPLOYEE_FIELDS) ++ newline
    ++ repeat 45 120 ++ newline
    ++ List.concat (map report_line rows) in
  {| report_conn := report_conn t; report_text := report |}.

(** *** DashboardTab *)

(** [COUNT(DISTINCT x)] over the values of a column. *)
Definition count_distinct (values : list str) : nat :=
  List.length (nodup (list_eq_dec N.eq_dec) values).

(** [refresh_counts]: the three numbers the labels show, employees,
    departments and attachments. *)
Definition refresh_counts (db : database) : nat * nat * nat :=
  (List.length (employee db),
   count_distinct (map (column Field.department) (employee db)),
   List.length (attachment db)).

(* ================================================================= *)
(** ** What the specification words, for comparison with the code *)

(** *** Normalization *)

(** The characters [normalize_arabic] rewrites or drops. *)
Definition variant_chars : list N :=
  List.concat (tatweel :: map fst replacements).

(** *** Validation *)

Definition all_digits (s : str) : Prop :=
  Forall (fun c => Py.isdigit_char c = true) s.

(** Exactly 14 digit characters. *)
Definition national_id_format (national_id : str) : bool :=
  (N.of_nat (List.length national_id) =? 14)
  && forallb Py.isdigit_char national_id.

(** A date field, if not empty, parses as YYYY-MM-DD and does not exceed
    today's date. *)
Definition check_date (today : Py.date) (f : Field.t) (t : EmployeeTab)
  : option validation_msg :=
  let date_str := Py.strip (form_fields t f) in
  if nonempty date_str then
    match Py.strptime_ymd date_str with
    | None => Some (msg_date_format f)
    | Some d => if Py.date_gt d today then Some (msg_date_future f) else None
    end
  else None.

(** The checks of validation in the order the specification lists them;
    each gives its failure, if any. *)
Definition validation_checks (today : Py.date) (excluding_id : option N)
  (t : EmployeeTab) : list (option validation_msg) :=
  let text f := Py.strip (form_fields t f) in
  [ if nonempty (text Field.name) then None else Some msg_name_required;
    if nonempty (text Field.file_no) then None
    else Some msg_file_no_required;
    if fetch_same Field.file_no (text Field.file_no) excluding_id (conn t)
    then Some msg_file_no_taken else None;
    if nonempty (text Field.national_id) then None
    else Some msg_national_id_required;
    if national_id_format (text Field.national_id) then None
    else Some msg_national_id_format;
    if fetch_same Field.national_id (text Field.national_id) excluding_id
                  (conn t)
    then Some msg_national_id_taken else None;
    if nonempty (text Field.phone)
       && negb (forallb Py.isdigit_char (text Field.phone))
    then Some msg_phone_digits else None;
    check_date today Field.grade_date t;
    check_date today Field.hire_date t;
    check_date today Field.birth_date t ].

(** The first failure stops the checks and is the result. *)
Fixpoint first_failure (checks : list (option validation_msg)) : verdict :=
  match checks with
  | [] => Valid
  | Some msg :: _ => Invalid msg
  | None :: rest => first_failure rest
  end.

(** No row other than [id] holds [value] in column [f]. *)
Definition free_for (f : Field.t) (value : str) (id : N) (db : database)
  : Prop :=
  forall r, In r (employee db) -> emp_id r <> id -> column f r <> value.

(** [date.isoformat()]: the text YYYY-MM-DD of a date, zero-padded. *)
Definition digit_char (k : N) : N := 48 + k.

Definition isoformat (d : Py.date) : str :=
  let '(y, m, dd) := d in
  [ digit_char (y / 1000); digit_char (y / 100 mod 10);
    digit_char (y / 10 mod 10); digit_char (y mod 10); 45;
    digit_char (m / 10); digit_char (m mod 10); 45;
    digit_char (dd / 10); digit_char (dd mod 10) ].

(** *** Search *)

Fixpoint prefix_by (eq : N -> N -> bool) (p s : str) : bool :=
  match p, s with
  | [], _ => true
  | _ :: _, [] => false
  | a :: p', b :: s' => eq a b && prefix_by eq p' s'
  end.

(** [needle] occurs in [hay], characters compared by [eq]. *)
Fixpoint contains_by (eq : N -> N -> bool) (needle hay : str) : bool :=
  prefix_by eq needle hay
  || match hay with
     | [] => false
     | _ :: hay' => contains_by eq needle hay'
     end.

(** Case-sensitive substring. *)
Definition contains : str -> str -> bool := contains_by N.eqb.

(** Substring up to the case of ASCII letters. *)
Definition contains_nocase : str -> str -> bool := contains_by like_char_eq.

(** One of name, department, file_no, national_id contains the text. *)
Definition some_field (has : str -> str -> bool) (text : str)
  (r : employee_row) : bool :=
  has text (column Field.name r)
  || has text (column Field.department r)
  || has text (column Field.file_no r)
  || has text (column Field.national_id r).

Definition is_wildcard (c : N) : bool :=
  (c =? percent) || (c =? underscore).

(** *** Files and documents *)

(** Number of places of [hay] where [needle] starts. *)
Fixpoint occurrences (needle hay : str) : nat :=
  match hay with
  | [] => O
  | _ :: hay' =>
      ((if starts_with needle hay then 1 else 0) + occurrences needle hay')%nat
  end.

(** The table of a document that has the header row only: its cells are
    the Arabic labels of the seventeen fields, from the last field (notes)
    to the first (name), and the body is empty. *)
Definition header_only_table : str :=
    u "<table dir=" ++ dq ++
    u "ltr" ++ dq ++
    u ">
                <thead>
                    <tr>
                        <th>ملاحظات</th><th>رقم التليفون</th><th>عنوان حالي</th><th>رقم قومي</th><th>رقم تأميني</th><th>تاريخ الميلاد</th><th>العمل القائم به</th><th>القسم</th><th>المسمى الوظيفي</th><th>مجموعة نوعية</th><th>مجموعة وظيفية</th><th>المؤهل</th><th>رقم الملف</th><th>تاريخ التعيين</th><th>تاريخ الحصول عليها</th><th>الدرجة</th><th>الاسم</th>
                    </tr>
                </thead>
                <tbody>
        
                </tbody>
            </table>".

(** ** Auxiliary definitions of the proofs *)

(** Replacing a one-character [old]: each character on its own. *)
Definition sub (a : N) (new : str) (c : N) : str :=
  if a =? c then new else [c].

(** The body of [normalize_arabic] before the final [strip]. *)
Definition rewritten (text : str) : str :=
  fold_left (fun text st => Py.replace text (fst st) (snd st))
            replacements (Py.replace text tatweel []).

(** Nothing that is on the disk goes away or changes. *)
Definition grows (d d' : Posix.tree) : Prop :=
  forall q n, Posix.node_at d q = Some n -> Posix.node_at d' q = Some n.

(** ** Sample states *)

(** A form with everything blank, on a new database. *)
Definition blank_tab : EmployeeTab :=
  {| conn := empty_db; form_fields := fun _ => [];
     selected_emp_id := None; attachments := []; photo_path := None;
     table := [] |}.

(** Typing [form] into the line edits. *)
Definition set_form (form : Field.t -> str) (t : EmployeeTab) : EmployeeTab :=
  {| conn := conn t; form_fields := form;
     selected_emp_id := selected_emp_id t; attachments := attachments t;
     photo_path := photo_path t; table := table t |}.

(** A form with a name, a file number, the given national identifier and
    the given hire date, everything else blank. *)
Definition sample_form (nid hire : str) (f : Field.t) : str :=
  match f with
  | Field.name => u "Ali"
  | Field.file_no => u "7"
  | Field.national_id => nid
  | Field.hire_date => hire
  | _ => []
  end.

(** A form whose file number holds a letter that normalization rewrites
    (alef with hamza above). *)
Definition hamza_form (nid : str) (f : Field.t) : str :=
  match f with
  | Field.name => u "Ali"
  | Field.file_no => u "أ1"
  | Field.national_id => nid
  | _ => []
  end.

(** The state after one employee was added to a new database, *)
Definition ali_tab : EmployeeTab :=
  fst (add_employee (2025, 6, 1)
         (set_form (sample_form (u "12345678901234") (u "2000-01-01"))
                   blank_tab)).

(** the row stored for that employee, *)
Definition ali_row : employee_row :=
  {| emp_id := 1;
     emp_vals :=
       form_vals
         (set_form (sample_form (u "12345678901234") (u "2000-01-01"))
                   blank_tab) |}.

(** and the state after a click on that row of the table. *)
Definition ali_selected : EmployeeTab :=
  match on_row_select 0 ali_tab with
  | Some t => t
  | None => ali_tab
  end.

(** A disk with two documents to upload, both called [cv.pdf], and two
    pictures. *)
Definition two_sources : Posix.tree :=
  Posix.of_list
    [ ([u "home"], Posix.Dir);
      ([u "home"; u "a"], Posix.Dir);
      ([u "home"; u "a"; u "cv.pdf"], Posix.File [1; 2; 3]);
      ([u "home"; u "a"; u "ali.png"], Posix.File [6]);
      ([u "home"; u "b"], Posix.Dir);
      ([u "home"; u "b"; u "cv.pdf"], Posix.File [4; 5]);
      ([u "home"; u "b"; u "new.png"], Posix.File [7; 8]) ].

(** The same disk once the folder of file number 7 was made, *)
Definition with_folder : Posix.tree :=
  match Posix.makedirs two_sources (u "attachments/7") with
  | Some d => d
  | None => two_sources
  end.

(** once the first [cv.pdf] was copied there, *)
Definition with_copy : Posix.tree :=
  match Posix.write_file with_folder (u "attachments/7/cv.pdf") [1; 2; 3] with
  | Some d => d
  | None => with_folder
  end.

(** and with a photo in the folder instead. *)
Definition with_photo : Posix.tree :=
  match
    Posix.write_file with_folder (u "attachments/7/photo_cv.pdf") [9]
  with
  | Some d => d
  | None => with_folder
  end.

(** The disk after a picture was written over that photo, *)
Definition new_photo : Posix.tree :=
  match
    Posix.write_file with_photo (u "attachments/7/photo_cv.pdf") [1; 2; 3]
  with
  | Some d => d
  | None => with_photo
  end.

(** and the disk with a document and a picture in the folder. *)
Definition with_two : Posix.tree :=
  match Posix.write_file with_copy (u "attachments/7/new.png") [7; 8] with
  | Some d => d
  | None => with_copy
  end.

(** A clock that shows another second at every reading. *)
Definition ticking (i : nat) : str :=
  u "2025-06-01 10:00:0" ++ [48 + N.of_nat i].

(** The state after two employees were added with the file number "أ1"
    and two national identifiers, *)
Definition twin_tab : EmployeeTab :=
  fst (add_employee (2025, 6, 1)
         (set_form (hamza_form (u "12345678901235"))
            (fst (add_employee (2025, 6, 1)
                    (set_form (hamza_form (u "12345678901234"))
                              blank_tab))))).

(** and after a click on the first of the two rows. *)
Definition twin_selected : EmployeeTab :=
  match on_row_select 0 twin_tab with
  | Some t => t
  | None => twin_tab
  end.

(** A MIME table that knows no type. *)
Definition no_mime (_ : str) : option str := None.

(** A report tab on a database without employees. *)
Definition empty_report : ReportTab :=
  {| report_conn := empty_db; report_text := [] |}.

(** The selected employee after two pictures were uploaded as photo, one
    after the other. *)
Definition two_photos : EmployeeTab :=
  match
    upload_photo (os := posix) (u "/home/a/ali.png") no_mime (ticking 0)
                 with_folder ali_selected
  with
  | Some (d1, t1, _) =>
      match
        upload_photo (os := posix) (u "/home/b/new.png") no_mime (ticking 1)
                     d1 t1
      with
      | Some (_, t2, _) => t2
      | None => t1
      end
  | None => ali_selected
  end.

(** ** Invariants of the store *)

(** A row as the program writes it: seventeen columns, each a fixed point
    of [normalize_arabic]. *)
Definition normalized_row (r : employee_row) : Prop :=
  List.length (emp_vals r) = 17%nat
  /\ Forall (fun v => normalize_arabic v = v) (emp_vals r).

(** The employee table as the program keeps it: no identifier twice, none
    above the AUTOINCREMENT sequence, every row normalized. *)
Definition well_kept (db : database) : Prop :=
  NoDup (map emp_id (employee db))
  /\ (forall r, In r (employee db) -> emp_id r <= employee_seq db)
  /\ (forall r, In r (employee db) -> normalized_row r).

(** No national identifier twice. *)
Definition unique_national_ids (db : database) : Prop :=
  NoDup (map (column Field.national_id) (employee db)).

(** What an INSERT of [add_employee] or [edit_employee] puts in a row of
    [attachment], the rowid apart. *)
Definition attachment_values (a : attachment_row)
  : N * str * str * option str * option str * N :=
  (employee_id a, filename a, filepath a, filetype a, upload_date a,
   is_photo a).

(** The values stored for the pending attachments of [t] under [emp]. *)
Definition pending_values (emp : N) (t : EmployeeTab)
  : list (N * str * str * option str * option str * N) :=
  map (fun a => (emp, fst a, snd a, @None str, @None str,
                 is_photo_flag (photo_path t) (snd a)))
      (attachments t).

(** The fields validation reads. *)
Definition validated_fields : list Field.t :=
  [ Field.name; Field.file_no; Field.national_id; Field.phone;
    Field.grade_date; Field.hire_date; Field.birth_date ].

(** A valid form with one pending attachment, nothing selected, *)
Definition pending_tab : EmployeeTab :=
  set_attachments [(u "cv.pdf", u "attachments/7/cv.pdf")]
    (set_form (sample_form (u "12345678901234") []) blank_tab).

(** and the selected employee with one pending attachment. *)
Definition ali_pending : EmployeeTab :=
  set_attachments [(u "cv.pdf", u "attachments/7/cv.pdf")] ali_selected.

(** The pending entry [upload_files] makes for the file [f]. *)
Definition upload_entry (folder f : str) : str * str :=
  (Py.basename f, Py.join folder (Py.basename f)).

(** The values [upload_files] stores for a pending entry when an employee
    is selected. *)
Definition uploaded_values (guess_type : str -> option str) (now : str)
  (emp : N) (e : str * str)
  : N * str * str * option str * option str * N :=
  (emp, fst e, snd e,
   Some (match guess_type (snd e) with Some ty => ty | None => [] end),
   Some now, 0).

(** The sample form with an address typed in. *)
Definition sample_with_address (f : Field.t) : str :=
  match f with
  | Field.address => u "12 شارع النيل"
  | _ => sample_form (u "12345678901234") (u "2000-01-01") f
  end.

(** The report tab on the database of that employee. *)
Definition ali_report : ReportTab :=
  {| report_conn := conn ali_tab; report_text := [] |}.

(** A valid form whose name is spelled with a hamza. *)
Definition ahmed_form (f : Field.t) : str :=
  match f with
  | Field.name => u "أحمد"
  | Field.file_no => u "7"
  | Field.national_id => u "12345678901234"
  | _ => []
  end.

(** The last row flagged as photo among the attachments of [emp]. *)
Definition last_photo (emp : N) (db : database) : option attachment_row :=
  match
    rev (filter (fun a => negb (is_photo a =? 0))
           (filter (fun a => employee_id a =? emp) (attachment db)))
  with
  | a :: _ => Some a
  | [] => None
  end.

(* ================================================================= *)
(** * Properties *)

(** ** Strings *)

Lemma str_eqb_eq (a b : str) : str_eqb a b = true <-> a = b.
Proof.
  unfold str_eqb. destruct (list_eq_dec N.eq_dec a b); split; congruence.
Qed.

Lemma str_eqb_refl (a : str) : str_eqb a a = true.
Proof. now apply str_eqb_eq. Qed.

Lemma str_eqb_neq (a b : str) : str_eqb a b = false <-> a <> b.
Proof.
  unfold str_eqb. destruct (list_eq_dec N.eq_dec a b); split; congruence.
Qed.

Section Strip.

Import Py.

Lemma lstrip_head (s : str) (c : N) (t : str) :
  lstrip s = c :: t -> isspace_char c = false.
Proof.
  induction s as [|a s IH]; simpl; [discriminate|].
  destruct (isspace_char a) eqn:E; [assumption|].
  intros H. injection H as -> _. exact E.
Qed.

Lemma rstrip_cons (c : N) (s : str) :
  isspace_char c = false -> rstrip (c :: s) = c :: rstrip s.
Proof.
  intros H. simpl. rewrite H. now destruct (rstrip s).
Qed.

Lemma rstrip_idem (s : str) : rstrip (rstrip s) = rstrip s.
Proof.
  induction s as [|c s IH]; simpl; [reflexivity|].
  destruct (rstrip s) as [|d r] eqn:E.
  - destruct (isspace_char c) eqn:Ec; simpl; [reflexivity|].
    now rewrite Ec.
  - change (rstrip (c :: d :: r)) with
      (match rstrip (d :: r) with
       | [] => if isspace_char c then [] else [c]
       | x :: l => c :: x :: l
       end).
    now rewrite IH.
Qed.

Lemma rstrip_last (s t : str) (c : N) :
  rstrip s = t ++ [c] -> isspace_char c = false.
Proof.
  revert t. induction s as [|a s IH]; intros t; simpl.
  - now destruct t.
  - destruct (rstrip s) as [|d r] eqn:E.
    + destruct (isspace_char a) eqn:Ea; [now destruct t|].
      destruct t as [|x [|y t]]; simpl; intros H; try discriminate.
      now injection H as <-.
    + destruct t as [|x t]; simpl; intros H; [discriminate|].
      injection H as _ H. now apply (IH t).
Qed.

Lemma lstrip_Forall (P : N -> Prop) (s : str) :
  Forall P s -> Forall P (lstrip s).
Proof.
  induction 1 as [|c s Hc Hs IH]; simpl; [constructor|].
  destruct (isspace_char c); [assumption | now constructor].
Qed.

Lemma rstrip_Forall (P : N -> Prop) (s : str) :
  Forall P s -> Forall P (rstrip s).
Proof.
  induction 1 as [|c s Hc Hs IH]; simpl; [constructor|].
  destruct (rstrip s).
  - destruct (isspace_char c); now repeat constructor.
  - now constructor.
Qed.

Lemma strip_Forall (P : N -> Prop) (s : str) :
  Forall P s -> Forall P (strip s).
Proof. intros H. now apply rstrip_Forall, lstrip_Forall. Qed.

Lemma lstrip_nonspace (s : str) :
  (forall c t, s = c :: t -> isspace_char c = false) -> lstrip s = s.
Proof.
  destruct s as [|c s]; simpl; [reflexivity|].
  intros H. now rewrite (H c s eq_refl).
Qed.

Lemma strip_head (s : str) (c : N) (t : str) :
  strip s = c :: t -> isspace_char c = false.
Proof.
  unfold strip. destruct (lstrip s) as [|a l] eqn:E; simpl; [discriminate|].
  assert (Ha := lstrip_head _ _ _ E).
  change (rstrip (a :: l) = c :: t -> isspace_char c = false).
  rewrite (rstrip_cons _ _ Ha). now intros [= <- _].
Qed.

Lemma strip_last (s t : str) (c : N) :
  strip s = t ++ [c] -> isspace_char c = false.
Proof. apply rstrip_last. Qed.

Lemma strip_idem (s : str) : strip (strip s) = strip s.
Proof.
  unfold strip at 1.
  rewrite (lstrip_nonspace (strip s)) by apply strip_head.
  apply rstrip_idem.
Qed.

(** A string of digits has nothing to strip. *)
Lemma strip_fixed (s : str) :
  (forall c t, s = c :: t -> isspace_char c = false) ->
  (forall t c, s = t ++ [c] -> isspace_char c = false) ->
  strip s = s.
Proof.
  intros Hh Hl. unfold strip. rewrite (lstrip_nonspace s Hh).
  clear Hh. induction s as [|a s IH]; [reflexivity|].
  simpl. rewrite IH.
  - destruct s as [|b s]; [|reflexivity].
    now rewrite (Hl [] a eq_refl).
  - intros t c E. apply (Hl (a :: t) c). now rewrite E.
Qed.

End Strip.

(** ** normalize_arabic *)

Lemma replace_single (a : N) (new s : str) :
  Py.replace s [a] new = flat_map (sub a new) s.
Proof.
  unfold Py.replace. induction s as [|c s IH]; simpl; [reflexivity|].
  unfold sub at 1. rewrite andb_true_r.
  destruct (a =? c); simpl; now rewrite IH.
Qed.

Lemma sub_Forall (P Q : N -> Prop) (a : N) (new s : str) :
  Forall P s -> Forall Q new -> (forall c, P c -> c <> a -> Q c) ->
  Forall Q (flat_map (sub a new) s).
Proof.
  intros Hs Hn HPQ. induction Hs as [|c s Hc Hs IH]; simpl; [constructor|].
  apply Forall_app. split; [|assumption].
  unfold sub. destruct (N.eqb_spec a c); [assumption|].
  constructor; [|constructor]. apply HPQ; congruence.
Qed.

Lemma sub_absent (a : N) (new s : str) :
  ~ In a s -> flat_map (sub a new) s = s.
Proof.
  induction s as [|c s IH]; simpl; [reflexivity|].
  intros H. unfold sub at 1. destruct (N.eqb_spec a c) as [->|_].
  - exfalso. apply H. now left.
  - simpl. rewrite IH; [reflexivity|]. intros Hin. apply H. now right.
Qed.

Lemma normalize_arabic_eq (text : str) :
  normalize_arabic text = Py.strip (rewritten text).
Proof. destruct text; reflexivity. Qed.

Lemma variant_chars_eq :
  variant_chars = [0x640; 0x623; 0x625; 0x622; 0x629; 0x649].
Proof. reflexivity. Qed.

Lemma rewritten_eq (text : str) :
  rewritten text =
  flat_map (sub 0x649 [0x64A])
    (flat_map (sub 0x629 [0x647])
       (flat_map (sub 0x622 [0x627])
          (flat_map (sub 0x625 [0x627])
             (flat_map (sub 0x623 [0x627])
                (flat_map (sub 0x640 []) text))))).
Proof.
  unfold rewritten.
  change tatweel with [0x640].
  change replacements with
    [([0x623], [0x627]); ([0x625], [0x627]); ([0x622], [0x627]);
     ([0x629], [0x647]); ([0x649], [0x64A])].
  cbn [fold_left fst snd]. now rewrite !replace_single.
Qed.

Lemma rewritten_clean (text : str) :
  Forall (fun c => ~ In c variant_chars) (rewritten text).
Proof.
  rewrite rewritten_eq, variant_chars_eq.
  eapply sub_Forall with
    (P := fun c => c <> 0x640 /\ c <> 0x623 /\ c <> 0x625 /\ c <> 0x622
                   /\ c <> 0x629).
  2: { repeat constructor. simpl. lia. }
  2: { intros c H1 H2. simpl. lia. }
  eapply sub_Forall with
    (P := fun c => c <> 0x640 /\ c <> 0x623 /\ c <> 0x625 /\ c <> 0x622).
  2: { repeat constructor; lia. }
  2: { intros c H1 H2. lia. }
  eapply sub_Forall with
    (P := fun c => c <> 0x640 /\ c <> 0x623 /\ c <> 0x625).
  2: { repeat constructor; lia. }
  2: { intros c H1 H2. lia. }
  eapply sub_Forall with (P := fun c => c <> 0x640 /\ c <> 0x623).
  2: { repeat constructor; lia. }
  2: { intros c H1 H2. lia. }
  eapply sub_Forall with (P := fun c => c <> 0x640).
  2: { repeat constructor; lia. }
  2: { intros c H1 H2. lia. }
  eapply sub_Forall with (P := fun _ => True).
  - now apply Forall_forall.
  - constructor.
  - intros c _ H. exact H.
Qed.

Lemma rewritten_fixed (text : str) :
  Forall (fun c => ~ In c variant_chars) text -> rewritten text = text.
Proof.
  rewrite variant_chars_eq, rewritten_eq. intros H.
  assert (A : forall a, In a [0x640; 0x623; 0x625; 0x622; 0x629; 0x649] ->
                        ~ In a text).
  { intros a Ha Hin. rewrite Forall_forall in H. exact (H a Hin Ha). }
  rewrite (sub_absent 0x640) by (apply A; simpl; tauto).
  rewrite (sub_absent 0x623) by (apply A; simpl; tauto).
  rewrite (sub_absent 0x625) by (apply A; simpl; tauto).
  rewrite (sub_absent 0x622) by (apply A; simpl; tauto).
  rewrite (sub_absent 0x629) by (apply A; simpl; tauto).
  apply sub_absent, A. simpl. tauto.
Qed.

Lemma normalize_arabic_clean (text : str) :
  Forall (fun c => ~ In c variant_chars) (normalize_arabic text).
Proof.
  rewrite normalize_arabic_eq. apply strip_Forall, rewritten_clean.
Qed.

Lemma normalize_arabic_idem (text : str) :
  normalize_arabic (normalize_arabic text) = normalize_arabic text.
Proof.
  rewrite (normalize_arabic_eq (normalize_arabic text)).
  rewrite rewritten_fixed by apply normalize_arabic_clean.
  rewrite normalize_arabic_eq. apply strip_idem.
Qed.

(** C3.  For every string [x], [normalize_arabic x] holds no tatweel
    (U+0640), no alef with hamza above (U+0623), no alef with hamza below
    (U+0625), no alef with madda (U+0622), no ta marbuta (U+0629) and no
    alef maksura (U+0649); it neither starts nor ends with a whitespace
    character; and a second normalization leaves it unchanged. *)
Theorem normalize_arabic_canonical (x : str) :
  let y := normalize_arabic x in
  (forall c, In c [0x640; 0x623; 0x625; 0x622; 0x629; 0x649] -> ~ In c y)
  /\ (forall c t, y = c :: t -> Py.isspace_char c = false)
  /\ (forall t c, y = t ++ [c] -> Py.isspace_char c = false)
  /\ normalize_arabic y = y.
Proof.
  intros y. subst y. repeat split.
  - intros c Hc Hin. rewrite <- variant_chars_eq in Hc.
    pose proof (normalize_arabic_clean x) as H.
    rewrite Forall_forall in H. exact (H c Hin Hc).
  - intros c t. rewrite normalize_arabic_eq. apply strip_head.
  - intros t c. rewrite normalize_arabic_eq. apply strip_last.
  - apply normalize_arabic_idem.
Qed.

(** ** Dates *)

Lemma decimal_value_ascii (k : N) :
  k < 10 -> Py.decimal_value (digit_char k) = Some k.
Proof.
  intros H. unfold Py.decimal_value, Py.decimal_zeros, digit_char.
  cbn [find].
  replace ((48 <=? 48 + k) && (48 + k <? 48 + 10)) with true.
  - f_equal. lia.
  - symmetry. apply andb_true_iff. split; [apply N.leb_le | apply N.ltb_lt];
      lia.
Qed.

Lemma int_of_digits_year (y : N) :
  y <= 9999 ->
  Py.int_of_digits
    [ digit_char (y / 1000); digit_char (y / 100 mod 10);
      digit_char (y / 10 mod 10); digit_char (y mod 10) ]
  = Some y.
Proof.
  intros H. unfold Py.int_of_digits. cbn [fold_left].
  assert (A : y / 1000 < 10) by (apply N.Div0.div_lt_upper_bound; lia).
  rewrite !decimal_value_ascii
    by (assumption || (apply N.mod_lt; discriminate)).
  f_equal.
  pose proof (N.div_mod y 10). pose proof (N.div_mod (y / 10) 10).
  pose proof (N.div_mod (y / 100) 10).
  assert (y / 10 / 10 = y / 100) by (rewrite N.Div0.div_div; reflexivity).
  assert (y / 100 / 10 = y / 1000) by (rewrite N.Div0.div_div; reflexivity).
  lia.
Qed.

Lemma below_cases (P : N -> Prop) (n : nat) :
  Forall P (map N.of_nat (seq 0 n)) -> forall k, k < N.of_nat n -> P k.
Proof.
  intros H k Hk. rewrite Forall_forall in H. apply H.
  apply in_map_iff. exists (N.to_nat k). split; [lia|].
  apply in_seq. lia.
Qed.

Lemma match_month_isoformat (m : N) (rest : str) :
  1 <= m -> m <= 12 ->
  Py.match_month_dash
    (digit_char (m / 10) :: digit_char (m mod 10) :: 45 :: rest)
  = Some ([digit_char (m / 10); digit_char (m mod 10)], rest)
  /\ Py.int_of_digits [digit_char (m / 10); digit_char (m mod 10)] = Some m.
Proof.
  intros H1 H2. revert H1.
  apply (below_cases
           (fun m => 1 <= m ->
              Py.match_month_dash
                (digit_char (m / 10) :: digit_char (m mod 10) :: 45 :: rest)
              = Some ([digit_char (m / 10); digit_char (m mod 10)], rest)
              /\ Py.int_of_digits
                   [digit_char (m / 10); digit_char (m mod 10)] = Some m)
           13); [|lia].
  cbn [seq map].
  repeat (constructor; [intros H; first [now contradiction H
                                        | split; reflexivity]|]).
  constructor.
Qed.

Lemma match_day_isoformat (d : N) :
  1 <= d -> d <= 31 ->
  Py.match_day [digit_char (d / 10); digit_char (d mod 10)]
  = Some ([digit_char (d / 10); digit_char (d mod 10)], [])
  /\ Py.int_of_digits
       (Py.lstrip [digit_char (d / 10); digit_char (d mod 10)]) = Some d.
Proof.
  intros H1 H2. revert H1.
  apply (below_cases
           (fun d => 1 <= d ->
              Py.match_day [digit_char (d / 10); digit_char (d mod 10)]
              = Some ([digit_char (d / 10); digit_char (d mod 10)], [])
              /\ Py.int_of_digits
                   (Py.lstrip [digit_char (d / 10); digit_char (d mod 10)])
                 = Some d)
           32); [|lia].
  cbn [seq map].
  repeat (constructor; [intros H; first [now contradiction H
                                        | split; reflexivity]|]).
  constructor.
Qed.

Lemma valid_date_bounds (y m d : N) :
  Py.valid_date (y, m, d) = true ->
  y <= 9999 /\ 1 <= m /\ m <= 12 /\ 1 <= d /\ d <= 31.
Proof.
  unfold Py.valid_date, Py.days_in_month. rewrite !andb_true_iff, !N.leb_le.
  intros (((((_ & Hy) & Hm1) & Hm2) & Hd1) & Hd2).
  repeat split; try assumption.
  destruct (m =? 2); [destruct (Py.is_leap y); lia|].
  destruct (_ || _); lia.
Qed.

(** Every date, written YYYY-MM-DD, is parsed to itself. *)
Lemma strptime_isoformat (d : Py.date) :
  Py.valid_date d = true -> Py.strptime_ymd (isoformat d) = Some d.
Proof.
  destruct d as [[y m] dd]. intros H.
  destruct (valid_date_bounds _ _ _ H) as (Hy & Hm1 & Hm2 & Hd1 & Hd2).
  unfold isoformat, Py.strptime_ymd.
  rewrite (int_of_digits_year y Hy).
  destruct (match_month_isoformat m
              [digit_char (dd / 10); digit_char (dd mod 10)] Hm1 Hm2)
    as [E1 E2].
  destruct (match_day_isoformat dd Hd1 Hd2) as [E3 E4].
  cbn [N.eqb Pos.eqb]. rewrite E1, E2, E3, E4, H. reflexivity.
Qed.

(** What is parsed is a date of the calendar. *)
Lemma strptime_valid (s : str) (d : Py.date) :
  Py.strptime_ymd s = Some d -> Py.valid_date d = true.
Proof.
  unfold Py.strptime_ymd.
  repeat match goal with
         | |- context [match ?x with _ => _ end] => destruct x eqn:?
         end; try discriminate.
  now intros [= <-].
Qed.

Lemma isspace_digit_char (k : N) :
  k < 10 -> Py.isspace_char (digit_char k) = false.
Proof.
  apply (below_cases (fun k => Py.isspace_char (digit_char k) = false) 10).
  cbn [seq map]. repeat (constructor; [reflexivity|]). constructor.
Qed.

Lemma strip_isoformat (d : Py.date) :
  Py.valid_date d = true -> Py.strip (isoformat d) = isoformat d.
Proof.
  destruct d as [[y m] dd]. intros H.
  destruct (valid_date_bounds _ _ _ H) as (Hy & _).
  apply strip_fixed.
  - intros c t [= <- _]. apply isspace_digit_char.
    apply N.Div0.div_lt_upper_bound. lia.
  - intros t c E.
    assert (L : last (isoformat (y, m, dd)) 0 = c)
      by (rewrite E; apply last_last).
    cbn in L. subst c. apply isspace_digit_char.
    apply N.mod_lt. discriminate.
Qed.

(** ** Validation *)

Lemma isdigit_forallb (s : str) :
  Py.isdigit s = nonempty s && forallb Py.isdigit_char s.
Proof. now destruct s. Qed.

Lemma national_id_format_eq (s : str) :
  Py.isdigit s && (N.of_nat (List.length s) =? 14) = national_id_format s.
Proof.
  unfold national_id_format. rewrite andb_comm. destruct s; reflexivity.
Qed.

Lemma validate_dates_checks (today : Py.date) (t : EmployeeTab)
  (fields : list Field.t) :
  validate_dates today (form_fields t) fields
  = first_failure (map (fun f => check_date today f t) fields).
Proof.
  induction fields as [|f fields IH]; [reflexivity|].
  cbn [validate_dates map first_failure]. unfold check_date.
  destruct (Py.strip (form_fields t f)) as [|c s]; cbn [nonempty];
    [exact IH|].
  destruct (Py.strptime_ymd (c :: s)) as [d|]; [|reflexivity].
  destruct (Py.date_gt d today); [reflexivity | exact IH].
Qed.

(** The code is the first failure of the checks, in the order of the
    specification. *)
Lemma validate_first_failure (today : Py.date) (skip_id : option N)
  (t : EmployeeTab) :
  validate_employee_form today skip_id t
  = first_failure (validation_checks today skip_id t).
Proof.
  unfold validate_employee_form, validation_checks.
  rewrite validate_dates_checks, national_id_format_eq.
  cbn [first_failure].
  destruct (nonempty (Py.strip (form_fields t Field.name)));
    cbn [negb]; [|reflexivity].
  destruct (nonempty (Py.strip (form_fields t Field.file_no)));
    cbn [negb]; [|reflexivity].
  destruct (fetch_same Field.file_no _ skip_id (conn t)); [reflexivity|].
  destruct (nonempty (Py.strip (form_fields t Field.national_id)));
    cbn [negb]; [|reflexivity].
  destruct (national_id_format _); cbn [negb]; [|reflexivity].
  destruct (fetch_same Field.national_id _ skip_id (conn t)); [reflexivity|].
  rewrite isdigit_forallb.
  destruct (nonempty (Py.strip (form_fields t Field.phone)));
    cbn [andb negb]; [|reflexivity].
  destruct (forallb _ _); reflexivity.
Qed.

Lemma add_employee_invalid (today : Py.date) (t : EmployeeTab)
  (msg : validation_msg) :
  validate_employee_form today (selected_emp_id t) t = Invalid msg ->
  add_employee today t = (t, critical_invalid msg).
Proof. unfold add_employee. now intros ->. Qed.

Lemma edit_employee_invalid (today : Py.date) (t : EmployeeTab)
  (msg : validation_msg) :
  validate_employee_form today (selected_emp_id t) t = Invalid msg ->
  fst (edit_employee today t) = t.
Proof.
  unfold edit_employee. destruct (selected_emp_id t); [|reflexivity].
  now intros ->.
Qed.

(** C2.  Validation is the first failure of the checks taken in the order
    name presence, file_no presence, file_no uniqueness, national_id
    presence, national_id format, national_id uniqueness, phone format,
    grade_date, hire_date, birth_date: the checks after the first failing
    one play no part in the result.  When it fails, [add_employee] and
    [edit_employee] return with the state they were given, so neither the
    employee table nor the attachment table is modified. *)
Theorem validation_order_no_partial_write (today : Py.date)
  (t : EmployeeTab) :
  (forall excluding_id,
      validate_employee_form today excluding_id t
      = first_failure (validation_checks today excluding_id t))
  /\ (forall msg,
         validate_employee_form today (selected_emp_id t) t = Invalid msg ->
         add_employee today t = (t, critical_invalid msg)
         /\ fst (edit_employee today t) = t
         /\ employee (conn (fst (add_employee today t))) = employee (conn t)
         /\ attachment (conn (fst (add_employee today t)))
            = attachment (conn t)
         /\ employee (conn (fst (edit_employee today t)))
            = employee (conn t)
         /\ attachment (conn (fst (edit_employee today t)))
            = attachment (conn t)).
Proof.
  split.
  - intros excluding_id. apply validate_first_failure.
  - intros msg H.
    rewrite (add_employee_invalid _ _ _ H), (edit_employee_invalid _ _ _ H).
    repeat split.
Qed.

Lemma validation_order_no_partial_write_witness :
  validate_employee_form (2025, 6, 1) (selected_emp_id blank_tab) blank_tab
  = Invalid msg_name_required
  /\ add_employee (2025, 6, 1) blank_tab
     = (blank_tab, critical_invalid msg_name_required).
Proof.
  split; [reflexivity|].
  apply (proj2 (validation_order_no_partial_write (2025, 6, 1) blank_tab)
               msg_name_required).
  reflexivity.
Defined.

Lemma first_failure_valid (checks : list (option validation_msg)) :
  first_failure checks = Valid <-> Forall (fun c => c = None) checks.
Proof.
  induction checks as [|[msg|] checks IH]; simpl.
  - split; [constructor | reflexivity].
  - split; [discriminate | intros H; inversion H; discriminate].
  - rewrite IH. split; [now constructor | now inversion 1].
Qed.

Lemma forallb_all_digits (s : str) :
  forallb Py.isdigit_char s = true <-> all_digits s.
Proof.
  unfold all_digits. rewrite forallb_forall, Forall_forall. reflexivity.
Qed.

Lemma nonempty_false (s : str) : nonempty s = false <-> s = [].
Proof. destruct s; simpl; split; congruence. Qed.

Lemma national_id_format_spec (s : str) :
  national_id_format s = true <-> List.length s = 14%nat /\ all_digits s.
Proof.
  unfold national_id_format.
  rewrite andb_true_iff, forallb_all_digits, N.eqb_eq. intuition lia.
Qed.

Lemma check_date_none (today : Py.date) (f : Field.t) (t : EmployeeTab) :
  check_date today f t = None <->
  Py.strip (form_fields t f) = []
  \/ exists d, Py.strptime_ymd (Py.strip (form_fields t f)) = Some d
               /\ Py.date_gt d today = false.
Proof.
  unfold check_date.
  destruct (Py.strip (form_fields t f)) as [|c s] eqn:E; cbn [nonempty].
  - split; [now left | reflexivity].
  - destruct (Py.strptime_ymd (c :: s)) as [d|].
    + destruct (Py.date_gt d today) eqn:G.
      * split; [discriminate|]. intros [H|[d' [H1 H2]]]; [discriminate|].
        injection H1 as <-. congruence.
      * split; [|reflexivity]. intros _. right. now exists d.
    + split; [discriminate|]. intros [H|[d' [H1 _]]]; discriminate.
Qed.

(** What validation accepts. *)
Lemma validate_valid_iff (today : Py.date) (excluding_id : option N)
  (t : EmployeeTab) :
  let text f := Py.strip (form_fields t f) in
  validate_employee_form today excluding_id t = Valid <->
  (text Field.name <> [] /\ text Field.file_no <> []
   /\ text Field.national_id <> [])
  /\ (fetch_same Field.file_no (text Field.file_no) excluding_id (conn t)
      = false
      /\ fetch_same Field.national_id (text Field.national_id) excluding_id
                    (conn t) = false)
  /\ (List.length (text Field.national_id) = 14%nat
      /\ all_digits (text Field.national_id))
  /\ (text Field.phone = [] \/ all_digits (text Field.phone))
  /\ (forall f, In f date_fields ->
        text f = []
        \/ exists d, Py.strptime_ymd (text f) = Some d
                     /\ Py.date_gt d today = false).
Proof.
  intros text. rewrite validate_first_failure, first_failure_valid.
  unfold validation_checks. fold text.
  rewrite <- national_id_format_spec.
  assert (P : text Field.phone = [] \/ all_digits (text Field.phone) <->
              nonempty (text Field.phone)
              && negb (forallb Py.isdigit_char (text Field.phone)) = false).
  { rewrite <- forallb_all_digits.
    destruct (text Field.phone) as [|c s]; simpl.
    - intuition.
    - destruct (Py.isdigit_char c && forallb Py.isdigit_char s); simpl;
        intuition congruence. }
  rewrite P. clear P.
  assert (D : (forall f, In f date_fields ->
                 text f = []
                 \/ exists d, Py.strptime_ymd (text f) = Some d
                              /\ Py.date_gt d today = false) <->
              check_date today Field.grade_date t = None
              /\ check_date today Field.hire_date t = None
              /\ check_date today Field.birth_date t = None).
  { rewrite !check_date_none. fold text. unfold date_fields. split.
    - intros H. repeat split; apply H; simpl; tauto.
    - intros (H1 & H2 & H3) f [<-|[<-|[<-|[]]]]; assumption. }
  rewrite D. clear D.
  rewrite <- !nonempty_false.
  split.
  - intros H.
    repeat match goal with
           | H : Forall _ (_ :: _) |- _ => inversion H; subst; clear H
           end.
    repeat match goal with
           | H : (if ?b then _ else _) = None |- _ =>
               destruct b eqn:?; [|try discriminate]; try discriminate
           end.
    unfold text. repeat split; congruence.
  - unfold text.
    intros ((N1 & N2 & N3) & (U1 & U2) & F & Ph & D1 & D2 & D3).
    rewrite U1, U2, F, Ph.
    destruct (nonempty (Py.strip (form_fields t Field.name)));
      [|congruence].
    destruct (nonempty (Py.strip (form_fields t Field.file_no)));
      [|congruence].
    destruct (nonempty (Py.strip (form_fields t Field.national_id)));
      [|congruence].
    repeat constructor; assumption.
Qed.

Lemma check_date_isoformat (today : Py.date) (f : Field.t) (t : EmployeeTab)
  (d : Py.date) :
  form_fields t f = isoformat d ->
  Py.valid_date d = true ->
  check_date today f t
  = if Py.date_gt d today then Some (msg_date_future f) else None.
Proof.
  intros E H. unfold check_date.
  rewrite E, (strip_isoformat d H), (strptime_isoformat d H).
  now destruct d as [[y m] dd].
Qed.

(** On the sample form validation is decided by the hire date. *)
Lemma validate_sample (today : Py.date) (hire : str) :
  let t := set_form (sample_form (u "12345678901234") hire) blank_tab in
  validate_employee_form today None t
  = match check_date today Field.hire_date t with
    | Some msg => Invalid msg
    | None => Valid
    end.
Proof.
  intros t. rewrite validate_first_failure. unfold validation_checks.
  change (check_date today Field.grade_date t) with (@None validation_msg).
  change (check_date today Field.birth_date t) with (@None validation_msg).
  change (Py.strip (form_fields t Field.name)) with (u "Ali").
  change (Py.strip (form_fields t Field.file_no)) with (u "7").
  change (Py.strip (form_fields t Field.national_id))
    with (u "12345678901234").
  change (Py.strip (form_fields t Field.phone)) with (@nil N).
  change (conn t) with empty_db.
  destruct (check_date today Field.hire_date t); reflexivity.
Qed.

(** C6.  Validation accepts a form exactly when, on the trimmed text of its
    fields: name, file_no and national_id are present and file_no and
    national_id are not taken; the national_id is exactly 14 digit
    characters; the phone is empty or all digits; and each date field is
    empty or parses as YYYY-MM-DD to a date that does not exceed today.
    On an otherwise valid form, the national_id "12345" is rejected and
    "12345678901234" accepted; the date "2999-01-01" is rejected while it
    lies in the future, and "2000-01-01" is accepted once it does not; so
    it is for every date of the calendar written YYYY-MM-DD. *)
Theorem validation_field_formats (today : Py.date)
  (excluding_id : option N) (t : EmployeeTab) :
  let text f := Py.strip (form_fields t f) in
  let sample nid hire := set_form (sample_form nid hire) blank_tab in
  (validate_employee_form today excluding_id t = Valid <->
   (text Field.name <> [] /\ text Field.file_no <> []
    /\ text Field.national_id <> [])
   /\ (fetch_same Field.file_no (text Field.file_no) excluding_id (conn t)
       = false
       /\ fetch_same Field.national_id (text Field.national_id)
                     excluding_id (conn t) = false)
   /\ (List.length (text Field.national_id) = 14%nat
       /\ all_digits (text Field.national_id))
   /\ (text Field.phone = [] \/ all_digits (text Field.phone))
   /\ (forall f, In f date_fields ->
         text f = []
         \/ exists d, Py.strptime_ymd (text f) = Some d
                      /\ Py.date_gt d today = false))
  /\ validate_employee_form today None (sample (u "12345") [])
     = Invalid msg_national_id_format
  /\ validate_employee_form today None (sample (u "12345678901234") [])
     = Valid
  /\ (Py.date_gt (2999, 1, 1) today = true ->
      validate_employee_form today None
        (sample (u "12345678901234") (u "2999-01-01"))
      = Invalid (msg_date_future Field.hire_date))
  /\ (Py.date_gt (2000, 1, 1) today = false ->
      validate_employee_form today None
        (sample (u "12345678901234") (u "2000-01-01"))
      = Valid)
  /\ (forall d,
         Py.valid_date d = true ->
         validate_employee_form today None
           (sample (u "12345678901234") (isoformat d))
         = if Py.date_gt d today
           then Invalid (msg_date_future Field.hire_date)
           else Valid).
Proof.
  intros text sample.
  assert (D : forall d,
             Py.valid_date d = true ->
             validate_employee_form today None
               (sample (u "12345678901234") (isoformat d))
             = if Py.date_gt d today
               then Invalid (msg_date_future Field.hire_date)
               else Valid).
  { intros d Hd. subst sample. cbv beta. rewrite validate_sample.
    rewrite (check_date_isoformat today Field.hire_date
               (set_form (sample_form (u "12345678901234") (isoformat d))
                         blank_tab)
               d eq_refl Hd).
    now destruct (Py.date_gt d today). }
  split; [apply validate_valid_iff|].
  split; [vm_compute; reflexivity|].
  split; [vm_compute; reflexivity|].
  split; [|split; [|exact D]].
  - intros H. change (u "2999-01-01") with (isoformat (2999, 1, 1)).
    rewrite D by reflexivity. now rewrite H.
  - intros H. change (u "2000-01-01") with (isoformat (2000, 1, 1)).
    rewrite D by reflexivity. now rewrite H.
Qed.

Lemma validation_field_formats_witness :
  validate_employee_form (2025, 6, 1) None
    (set_form (sample_form (u "12345678901234") (u "2999-01-01")) blank_tab)
  = Invalid (msg_date_future Field.hire_date)
  /\ validate_employee_form (2025, 6, 1) None
       (set_form (sample_form (u "12345678901234") (u "2000-01-01"))
                 blank_tab)
     = Valid.
Proof.
  pose proof (validation_field_formats (2025, 6, 1) None blank_tab) as H.
  cbv zeta in H. destruct H as (_ & _ & _ & H1 & H2 & _).
  split; [apply H1 | apply H2]; reflexivity.
Defined.

(** ** Uniqueness *)

Lemma fetch_same_true (f : Field.t) (value : str) (skip_id : option N)
  (db : database) :
  fetch_same f value skip_id db = true <->
  exists r, In r (employee db) /\ column f r = value
            /\ match skip_id with
               | Some id => emp_id r <> id
               | None => True
               end.
Proof.
  unfold fetch_same. rewrite existsb_exists. split.
  - intros (r & Hin & H). apply andb_true_iff in H. destruct H as [H1 H2].
    exists r. repeat split; [assumption | now apply str_eqb_eq |].
    destruct skip_id; [|exact I].
    now apply negb_true_iff, N.eqb_neq in H2.
  - intros (r & Hin & H1 & H2). exists r. split; [assumption|].
    apply andb_true_iff. split; [now apply str_eqb_eq|].
    destruct skip_id; [|reflexivity].
    now apply negb_true_iff, N.eqb_neq.
Qed.

Lemma fetch_same_free (f : Field.t) (value : str) (id : N) (db : database) :
  free_for f value id db -> fetch_same f value (Some id) db = false.
Proof.
  intros H. destruct (fetch_same f value (Some id) db) eqn:E; [|reflexivity].
  apply fetch_same_true in E. destruct E as (r & Hin & Hv & Hid).
  exfalso. exact (H r Hin Hid Hv).
Qed.

(** Leaving a row out of the query is querying the table without it. *)
Lemma fetch_same_skip (f : Field.t) (value : str) (id : N) (db : database) :
  fetch_same f value (Some id) db
  = fetch_same f value None (delete_employee_row id db).
Proof.
  unfold fetch_same, delete_employee_row. cbn [employee].
  induction (employee db) as [|r rows IH]; [reflexivity|].
  cbn [existsb filter]. destruct (emp_id r =? id); cbn [negb existsb].
  - now rewrite andb_false_r.
  - now rewrite IH.
Qed.

Lemma validate_skip (today : Py.date) (id : N) (t : EmployeeTab) :
  validate_employee_form today (Some id) t
  = validate_employee_form today None
      (set_conn (delete_employee_row id (conn t)) t).
Proof.
  unfold validate_employee_form. cbn [set_conn form_fields conn].
  now rewrite !fetch_same_skip.
Qed.

Lemma validate_dates_msg (today : Py.date) (form : Field.t -> str)
  (fields : list Field.t) (msg : validation_msg) :
  validate_dates today form fields = Invalid msg ->
  exists f, msg = msg_date_future f \/ msg = msg_date_format f.
Proof.
  induction fields as [|f fields IH]; cbn [validate_dates];
    [discriminate|].
  destruct (Py.strip (form f)); [exact IH|].
  destruct (Py.strptime_ymd _) as [d|].
  - destruct (Py.date_gt d today); [|exact IH].
    intros [= <-]. exists f. now left.
  - intros [= <-]. exists f. now right.
Qed.

(** When validation reports a value as taken. *)
Lemma validate_file_no_taken (today : Py.date) (skip_id : option N)
  (t : EmployeeTab) :
  validate_employee_form today skip_id t = Invalid msg_file_no_taken <->
  Py.strip (form_fields t Field.name) <> []
  /\ Py.strip (form_fields t Field.file_no) <> []
  /\ fetch_same Field.file_no (Py.strip (form_fields t Field.file_no))
                skip_id (conn t) = true.
Proof.
  unfold validate_employee_form.
  destruct (Py.strip (form_fields t Field.name)); cbn [nonempty negb].
  { split; [discriminate | intros [H _]; congruence]. }
  destruct (Py.strip (form_fields t Field.file_no)) eqn:E;
    cbn [nonempty negb].
  { split; [discriminate | intros (_ & H & _); congruence]. }
  destruct (fetch_same Field.file_no _ skip_id (conn t)).
  { split; [|reflexivity]. intros _. repeat split; discriminate. }
  split; [|intros (_ & _ & H); discriminate].
  repeat match goal with
         | |- context [if ?b then _ else _] => destruct b
         end; try discriminate.
  intros H. apply validate_dates_msg in H. destruct H as [f [H|H]];
    discriminate.
Qed.

Lemma validate_national_id_taken (today : Py.date) (skip_id : option N)
  (t : EmployeeTab) :
  validate_employee_form today skip_id t = Invalid msg_national_id_taken ->
  fetch_same Field.national_id (Py.strip (form_fields t Field.national_id))
             skip_id (conn t) = true.
Proof.
  unfold validate_employee_form.
  repeat match goal with
         | |- context [if ?b then _ else _] => destruct b eqn:?
         end; try discriminate; try reflexivity.
  intros H. apply validate_dates_msg in H. destruct H as [f [H|H]];
    discriminate.
Qed.

(** ** Adding and editing *)

Lemma insert_pending_employee (emp : N) (t : EmployeeTab) (db : database) :
  employee (insert_pending emp t db) = employee db
  /\ employee_seq (insert_pending emp t db) = employee_seq db.
Proof.
  unfold insert_pending. revert db.
  induction (attachments t) as [|a l IH]; intros db; [now split|].
  cbn [fold_left]. now rewrite !(proj1 (IH _)), !(proj2 (IH _)).
Qed.

(** The employee table after the row [emp] was rewritten from the form. *)
Lemma rewrite_employee_rows (emp : N) (t : EmployeeTab) :
  employee (rewrite_employee emp t)
  = map (fun r => if emp_id r =? emp
                  then {| emp_id := emp_id r; emp_vals := form_vals t |}
                  else r)
        (employee (conn t)).
Proof.
  unfold rewrite_employee. now rewrite (proj1 (insert_pending_employee _ _ _)).
Qed.

(** The row of the selected employee is left out of the two uniqueness
    queries.  Let [r] be the stored row of the selected employee [id], let
    the form hold, as validation reads it, the file_no and the national_id
    of [r], and let no other row hold either of them.  Then validation of
    the edit does not report file_no or national_id as taken: it is the
    validation of a new record against the table without the row [id].
    When it passes, [edit_employee] succeeds and writes the normalized text
    of every field of the form into the row [id], the other rows being left
    as they are. *)
Theorem edit_employee_own_values (today : Py.date) (t : EmployeeTab)
  (id : N) (r : employee_row) :
  selected_emp_id t = Some id ->
  In r (employee (conn t)) ->
  emp_id r = id ->
  Py.strip (form_fields t Field.file_no) = column Field.file_no r ->
  Py.strip (form_fields t Field.national_id) = column Field.national_id r ->
  free_for Field.file_no (column Field.file_no r) id (conn t) ->
  free_for Field.national_id (column Field.national_id r) id (conn t) ->
  validate_employee_form today (Some id) t <> Invalid msg_file_no_taken
  /\ validate_employee_form today (Some id) t
     <> Invalid msg_national_id_taken
  /\ validate_employee_form today (Some id) t
     = validate_employee_form today None
         (set_conn (delete_employee_row id (conn t)) t)
  /\ (validate_employee_form today (Some id) t = Valid ->
      snd (edit_employee today t) = info_edited
      /\ employee (conn (fst (edit_employee today t)))
         = map (fun r' =>
                  if emp_id r' =? id
                  then {| emp_id := id; emp_vals := form_vals t |}
                  else r')
               (employee (conn t))
      /\ In {| emp_id := id; emp_vals := form_vals t |}
            (employee (conn (fst (edit_employee today t))))).
Proof.
  intros Hsel Hin Hid Hf Hn Ff Fn.
  split; [|split; [|split]].
  - intros H. apply validate_file_no_taken in H. destruct H as (_ & _ & H).
    rewrite Hf, (fetch_same_free _ _ _ _ Ff) in H. discriminate.
  - intros H. apply validate_national_id_taken in H.
    rewrite Hn, (fetch_same_free _ _ _ _ Fn) in H. discriminate.
  - apply validate_skip.
  - intros Hv. unfold edit_employee. rewrite Hsel, Hv.
    cbn [fst snd clear_form load_employees set_conn set_table conn].
    rewrite rewrite_employee_rows.
    assert (E : map (fun r0 =>
                       if emp_id r0 =? id
                       then {| emp_id := emp_id r0; emp_vals := form_vals t |}
                       else r0) (employee (conn t))
                = map (fun r' =>
                         if emp_id r' =? id
                         then {| emp_id := id; emp_vals := form_vals t |}
                         else r') (employee (conn t))).
    { apply map_ext. intros r'. destruct (N.eqb_spec (emp_id r') id);
        congruence. }
    rewrite E. split; [reflexivity|]. split; [reflexivity|].
    apply in_map_iff. exists r. split; [|assumption].
    now rewrite Hid, N.eqb_refl.
Qed.

Lemma ali_selected_rows : employee (conn ali_selected) = [ali_row].
Proof. vm_compute. reflexivity. Qed.

Lemma edit_employee_own_values_witness :
  validate_employee_form (2025, 6, 1) (Some 1) ali_selected = Valid
  /\ snd (edit_employee (2025, 6, 1) ali_selected) = info_edited.
Proof.
  assert (V : validate_employee_form (2025, 6, 1) (Some 1) ali_selected
              = Valid) by (vm_compute; reflexivity).
  split; [exact V|].
  assert (F : forall f v, free_for f v 1 (conn ali_selected)).
  { intros f v r. rewrite ali_selected_rows. intros [<-|[]] H.
    now contradiction H. }
  assert (I : In ali_row (employee (conn ali_selected))).
  { rewrite ali_selected_rows. now left. }
  assert (S : selected_emp_id ali_selected = Some 1)
    by (vm_compute; reflexivity).
  assert (E1 : Py.strip (form_fields ali_selected Field.file_no)
               = column Field.file_no ali_row) by (vm_compute; reflexivity).
  assert (E2 : Py.strip (form_fields ali_selected Field.national_id)
               = column Field.national_id ali_row)
    by (vm_compute; reflexivity).
  exact (proj1 (proj2 (proj2 (proj2
           (edit_employee_own_values (2025, 6, 1) ali_selected 1 ali_row
              S I eq_refl E1 E2 (F _ _) (F _ _)))) V)).
Defined.

Lemma max_id_ge (ids : list N) (id : N) : In id ids -> id <= max_id ids.
Proof.
  induction ids as [|a ids IH]; cbn [In max_id fold_right]; [contradiction|].
  fold (max_id ids). intros [->|H]; [lia|]. apply IH in H. lia.
Qed.

(** AUTOINCREMENT gives a rowid that is not in the table. *)
Lemma next_rowid_fresh (seq : N) (ids : list N) :
  ~ In (next_rowid seq ids) ids.
Proof.
  intros H. apply max_id_ge in H. unfold next_rowid in H. lia.
Qed.

(** What [add_employee] does with a valid form and no employee selected. *)
Lemma add_employee_inserts (today : Py.date) (t : EmployeeTab) :
  selected_emp_id t = None ->
  validate_employee_form today None t = Valid ->
  let id :=
    next_rowid (employee_seq (conn t)) (map emp_id (employee (conn t))) in
  let t' := fst (add_employee today t) in
  snd (add_employee today t) = info_added
  /\ employee (conn t')
     = employee (conn t) ++ [{| emp_id := id; emp_vals := form_vals t |}]
  /\ table t' = employee (conn t')
  /\ (forall r, In r (employee (conn t)) -> emp_id r <> id).
Proof.
  intros Hsel Hv id t'. subst t'. unfold add_employee.
  rewrite Hsel, Hv. unfold insert_employee. fold id.
  cbn [fst snd clear_form load_employees set_conn set_table conn table].
  rewrite (proj1 (insert_pending_employee _ _ _)). cbn [employee].
  repeat split.
  intros r Hr E. apply (next_rowid_fresh (employee_seq (conn t))
                          (map emp_id (employee (conn t)))).
  fold id. rewrite <- E. now apply in_map.
Qed.

Lemma lstrip_In (s : str) (c : N) :
  In c s -> Py.isspace_char c = true \/ In c (Py.lstrip s).
Proof.
  induction s as [|a s IH]; cbn [In Py.lstrip]; [contradiction|].
  destruct (Py.isspace_char a) eqn:E.
  - intros [<-|H]; [now left | now apply IH].
  - intros H. now right.
Qed.

Lemma rstrip_In (s : str) (c : N) :
  In c s -> Py.isspace_char c = true \/ In c (Py.rstrip s).
Proof.
  induction s as [|a s IH]; cbn [In Py.rstrip]; [contradiction|].
  intros [<-|H].
  - destruct (Py.rstrip s); [|right; now left].
    destruct (Py.isspace_char a) eqn:E; [now left | right; now left].
  - destruct (IH H) as [Hs|Hin]; [now left|]. right.
    destruct (Py.rstrip s); [contradiction | now right].
Qed.

Lemma strip_In (s : str) (c : N) :
  In c s -> Py.isspace_char c = true \/ In c (Py.strip s).
Proof.
  intros H. destruct (lstrip_In s c H) as [Hs|Hl]; [now left|].
  now apply rstrip_In.
Qed.

Lemma variant_not_space_digit (c : N) :
  In c variant_chars ->
  Py.isspace_char c = false /\ Py.isdigit_char c = false.
Proof.
  rewrite variant_chars_eq. cbn [In].
  intros [<-|[<-|[<-|[<-|[<-|[<-|[]]]]]]]; split; reflexivity.
Qed.

(** A text that is digits between blanks is only trimmed by
    normalization: validation and the stored row agree on a national
    identifier. *)
Lemma normalize_arabic_digits (s : str) :
  all_digits (Py.strip s) -> normalize_arabic s = Py.strip s.
Proof.
  intros Hd. rewrite normalize_arabic_eq, rewritten_fixed; [reflexivity|].
  apply Forall_forall. intros c Hc Hv.
  destruct (variant_not_space_digit c Hv) as [Hs Hg].
  destruct (strip_In s c Hc) as [H|H]; [congruence|].
  unfold all_digits in Hd. rewrite Forall_forall in Hd.
  specialize (Hd c H). congruence.
Qed.

Lemma column_form_vals (f : Field.t) (id : N) (t : EmployeeTab) :
  column f {| emp_id := id; emp_vals := form_vals t |}
  = normalize_arabic (form_fields t f).
Proof. destruct f; reflexivity. Qed.

(** A valid form equals no row of the table in its normalized values: the
    row that is added is the only one with these values. *)
Lemma valid_form_is_new (today : Py.date) (t : EmployeeTab)
  (r : employee_row) :
  validate_employee_form today None t = Valid ->
  In r (employee (conn t)) ->
  emp_vals r <> form_vals t.
Proof.
  intros Hv Hin E. apply validate_valid_iff in Hv.
  destruct Hv as (_ & (_ & Hu) & (_ & Hd) & _).
  apply not_true_iff_false in Hu. apply Hu. apply fetch_same_true.
  exists r. repeat split; [assumption|].
  rewrite <- (normalize_arabic_digits _ Hd).
  rewrite <- (column_form_vals Field.national_id (emp_id r) t).
  unfold column. cbn [emp_vals]. now rewrite E.
Qed.

(** After a record was added, a form with the same national identifier
    is refused, whatever the rest of it, and nothing is written. *)
Lemma add_employee_same_national_id (today : Py.date) (t t2 : EmployeeTab) :
  selected_emp_id t = None ->
  validate_employee_form today None t = Valid ->
  conn t2 = conn (fst (add_employee today t)) ->
  selected_emp_id t2 = None ->
  Py.strip (form_fields t2 Field.national_id)
  = Py.strip (form_fields t Field.national_id) ->
  exists msg, add_employee today t2 = (t2, critical_invalid msg).
Proof.
  intros Hsel Hv Hc Hsel2 Hn.
  destruct (validate_employee_form today None t2) as [|msg] eqn:V.
  - exfalso. apply validate_valid_iff in V.
    destruct V as (_ & (_ & Hu) & _).
    apply not_true_iff_false in Hu. apply Hu. apply fetch_same_true.
    destruct (add_employee_inserts today t Hsel Hv) as (_ & Hrows & _).
    rewrite Hc, Hrows.
    eexists. split; [apply in_or_app; right; now left|].
    split; [|exact I]. rewrite column_form_vals, Hn.
    apply normalize_arabic_digits.
    apply validate_valid_iff in Hv. now destruct Hv as (_ & _ & (_ & Hd) & _).
  - exists msg. apply add_employee_invalid. now rewrite Hsel2.
Qed.

(** The same holds for the file number when normalization leaves it as
    validation reads it. *)
Lemma add_employee_same_file_no (today : Py.date) (t t2 : EmployeeTab) :
  selected_emp_id t = None ->
  validate_employee_form today None t = Valid ->
  conn t2 = conn (fst (add_employee today t)) ->
  selected_emp_id t2 = None ->
  Py.strip (form_fields t2 Field.file_no)
  = normalize_arabic (form_fields t Field.file_no) ->
  exists msg, add_employee today t2 = (t2, critical_invalid msg).
Proof.
  intros Hsel Hv Hc Hsel2 Hn.
  destruct (validate_employee_form today None t2) as [|msg] eqn:V.
  - exfalso. apply validate_valid_iff in V.
    destruct V as (_ & (Hu & _) & _).
    apply not_true_iff_false in Hu. apply Hu. apply fetch_same_true.
    destruct (add_employee_inserts today t Hsel Hv) as (_ & Hrows & _).
    rewrite Hc, Hrows.
    eexists. split; [apply in_or_app; right; now left|].
    split; [|exact I]. now rewrite column_form_vals, Hn.
  - exists msg. apply add_employee_invalid. now rewrite Hsel2.
Qed.

(** C1, on the code.  On a new database a record with file number "أ1" is
    added; a second form with the same file number and another national
    identifier is then accepted too, and the table holds two rows with the
    file number "ا1": validation looked for "أ1", which no row holds. *)
Theorem add_employee_duplicate_file_no (today : Py.date) :
  let first :=
    add_employee today
      (set_form (hamza_form (u "12345678901234")) blank_tab) in
  let second :=
    add_employee today
      (set_form (hamza_form (u "12345678901235")) (fst first)) in
  snd first = info_added
  /\ snd second = info_added
  /\ map (column Field.file_no) (employee (conn (fst second)))
     = [u "ا1"; u "ا1"].
Proof. vm_compute. repeat split. Qed.

(** C5, on the code.  The two employees added with the file number "أ1"
    are stored with the file number "ا1" both.  The first is selected, so
    the form holds its own stored values, and nothing is changed:
    [edit_employee] answers that the file number is taken and writes
    nothing.  The row of the selected employee is left out of the
    uniqueness query, but the other row holds the same file number. *)
Theorem edit_employee_own_file_no_refused :
  map (fun r => (emp_id r, column Field.file_no r,
                 column Field.national_id r))
      (employee (conn twin_selected))
  = [(1, u "ا1", u "12345678901234"); (2, u "ا1", u "12345678901235")]
  /\ selected_emp_id twin_selected = Some 1
  /\ form_fields twin_selected Field.file_no = u "ا1"
  /\ form_fields twin_selected Field.national_id = u "12345678901234"
  /\ snd (edit_employee (2025, 6, 1) twin_selected)
     = critical_invalid msg_file_no_taken
  /\ conn (fst (edit_employee (2025, 6, 1) twin_selected))
     = conn twin_selected.
Proof. vm_compute. repeat split. Qed.

Lemma validate_dates_ext (today : Py.date) (form form' : Field.t -> str)
  (fields : list Field.t) :
  (forall f, Py.strip (form' f) = Py.strip (form f)) ->
  validate_dates today form' fields = validate_dates today form fields.
Proof.
  intros H. induction fields as [|f fields IH]; [reflexivity|].
  cbn [validate_dates]. now rewrite H, IH.
Qed.

Lemma validate_trimmed (today : Py.date) (skip_id : option N)
  (t t' : EmployeeTab) :
  conn t' = conn t ->
  (forall f, Py.strip (form_fields t' f) = Py.strip (form_fields t f)) ->
  validate_employee_form today skip_id t'
  = validate_employee_form today skip_id t.
Proof.
  intros Hc H. unfold validate_employee_form.
  now rewrite Hc, !H, (validate_dates_ext today _ _ date_fields H).
Qed.

(** C10.  Validation reads the form through [strip] only, and its two
    uniqueness queries look in the table for the trimmed text of file_no
    and of national_id as typed; what [add_employee] and [edit_employee]
    store is [normalize_arabic] of the text of each field.  The queries
    therefore compare text that was not normalized with stored text that
    was: a file number is accepted although its normalized form is a file
    number of the table. *)
Theorem uniqueness_reads_trimmed_text (today : Py.date) (t : EmployeeTab) :
  (forall skip_id t',
      conn t' = conn t ->
      (forall f, Py.strip (form_fields t' f) = Py.strip (form_fields t f)) ->
      validate_employee_form today skip_id t'
      = validate_employee_form today skip_id t)
  /\ (forall skip_id,
         validate_employee_form today skip_id t = Invalid msg_file_no_taken
         <-> Py.strip (form_fields t Field.name) <> []
             /\ Py.strip (form_fields t Field.file_no) <> []
             /\ exists r,
                 In r (employee (conn t))
                 /\ column Field.file_no r
                    = Py.strip (form_fields t Field.file_no)
                 /\ match skip_id with
                    | Some id => emp_id r <> id
                    | None => True
                    end)
  /\ (forall skip_id,
         validate_employee_form today skip_id t
         = Invalid msg_national_id_taken ->
         exists r,
           In r (employee (conn t))
           /\ column Field.national_id r
              = Py.strip (form_fields t Field.national_id)
           /\ match skip_id with
              | Some id => emp_id r <> id
              | None => True
              end)
  /\ (selected_emp_id t = None ->
      validate_employee_form today None t = Valid ->
      exists id,
        employee (conn (fst (add_employee today t)))
        = employee (conn t)
          ++ [{| emp_id := id;
                 emp_vals :=
                   map (fun f => normalize_arabic (form_fields t f))
                       EMPLOYEE_FIELDS |}])
  /\ (forall id,
         selected_emp_id t = Some id ->
         validate_employee_form today (Some id) t = Valid ->
         employee (conn (fst (edit_employee today t)))
         = map (fun r =>
                  if emp_id r =? id
                  then {| emp_id := emp_id r;
                          emp_vals :=
                            map (fun f => normalize_arabic (form_fields t f))
                                EMPLOYEE_FIELDS |}
                  else r)
               (employee (conn t)))
  /\ (exists t0,
         fetch_same Field.file_no
           (normalize_arabic (form_fields t0 Field.file_no)) None (conn t0)
         = true
         /\ validate_employee_form today None t0 = Valid).
Proof.
  split; [|split; [|split; [|split; [|split]]]].
  - intros skip_id t'. apply validate_trimmed.
  - intros skip_id. rewrite validate_file_no_taken, fetch_same_true.
    reflexivity.
  - intros skip_id H. apply validate_national_id_taken in H.
    now apply fetch_same_true in H.
  - intros Hsel Hv.
    destruct (add_employee_inserts today t Hsel Hv) as (_ & H & _).
    eexists. exact H.
  - intros id Hsel Hv. unfold edit_employee. rewrite Hsel, Hv.
    cbn [fst clear_form load_employees set_conn set_table conn].
    apply rewrite_employee_rows.
  - exists (set_form (hamza_form (u "12345678901235"))
              (fst (add_employee today
                      (set_form (hamza_form (u "12345678901234"))
                                blank_tab)))).
    split; vm_compute; reflexivity.
Qed.

Lemma uniqueness_reads_trimmed_text_witness :
  let t :=
    set_form (sample_form (u "12345678901234") (u "2000-01-01")) blank_tab in
  validate_employee_form (2025, 6, 1) None t = Valid
  /\ exists id,
      employee (conn (fst (add_employee (2025, 6, 1) t)))
      = [{| emp_id := id;
            emp_vals :=
              map (fun f => normalize_arabic (form_fields t f))
                  EMPLOYEE_FIELDS |}].
Proof.
  intros t.
  assert (V : validate_employee_form (2025, 6, 1) None t = Valid)
    by (vm_compute; reflexivity).
  split; [exact V|].
  destruct (uniqueness_reads_trimmed_text (2025, 6, 1) t)
    as (_ & _ & _ & H & _).
  exact (H eq_refl V).
Defined.

(** ** Deleting *)

(** C7.  With employee [id] selected and the confirmation answered yes,
    [delete_employee] leaves the employee table without the row [id] and
    the attachment table without the rows whose [employee_id] is [id], all
    other rows being kept in order; whatever is searched for afterwards on
    the resulting store, no row shown has identifier [id]. *)
Theorem delete_employee_cascades (t : EmployeeTab) (id : N) :
  selected_emp_id t = Some id ->
  let t' := fst (delete_employee true t) in
  employee (conn t')
  = filter (fun r => negb (emp_id r =? id)) (employee (conn t))
  /\ attachment (conn t')
     = filter (fun a => negb (employee_id a =? id)) (attachment (conn t))
  /\ (forall r, In r (employee (conn t')) -> emp_id r <> id)
  /\ (forall a, In a (attachment (conn t')) -> employee_id a <> id)
  /\ (forall query r,
         In r (table (fst (search_employees query t'))) -> emp_id r <> id).
Proof.
  intros Hsel t'. subst t'. unfold delete_employee. rewrite Hsel.
  cbn [fst clear_form load_employees set_conn set_table conn
       delete_attachments delete_employee_row employee attachment].
  assert (E : forall r,
             In r (filter (fun r => negb (emp_id r =? id)) (employee (conn t)))
             -> emp_id r <> id).
  { intros r Hr. apply filter_In in Hr. destruct Hr as [_ Hr].
    apply negb_true_iff, N.eqb_neq in Hr. exact Hr. }
  repeat split; try reflexivity.
  - exact E.
  - intros a Ha. apply filter_In in Ha. destruct Ha as [_ Ha].
    now apply negb_true_iff, N.eqb_neq in Ha.
  - intros query r. unfold search_employees.
    destruct ((utf8_len _ <=? like_pattern_limit) || _);
      cbn [fst set_table table conn employee]; [|contradiction].
    intros Hr. apply filter_In in Hr. apply E, Hr.
Qed.

Lemma delete_employee_cascades_witness :
  selected_emp_id ali_selected = Some 1
  /\ employee (conn (fst (delete_employee true ali_selected))) = [].
Proof.
  split; [reflexivity|].
  rewrite (proj1 (delete_employee_cascades ali_selected 1 eq_refl)).
  reflexivity.
Defined.

(** ** Searching *)

Lemma like_percent (p s : str) :
  like (percent :: p) s
  = like p s
    || match s with
       | [] => false
       | _ :: s' => like (percent :: p) s'
       end.
Proof. destruct s; reflexivity. Qed.

Lemma like_only_percent (s : str) : like [percent] s = true.
Proof.
  induction s as [|c s IH]; [reflexivity|].
  rewrite like_percent. rewrite IH. apply orb_true_r.
Qed.

(** A pattern without wildcard followed by [%] matches the strings that
    start with it, up to the case of ASCII letters. *)
Lemma like_prefix (q s : str) :
  existsb is_wildcard q = false ->
  like (q ++ [percent]) s = prefix_by like_char_eq q s.
Proof.
  revert s. induction q as [|c q IH]; intros s Hw.
  - apply like_only_percent.
  - cbn [existsb] in Hw. apply orb_false_iff in Hw. destruct Hw as [Hc Hq].
    unfold is_wildcard in Hc. apply orb_false_iff in Hc.
    destruct Hc as [Hp Hu].
    cbn [app like prefix_by]. rewrite Hp, Hu.
    destruct s as [|d s]; [reflexivity|].
    cbn [orb]. now rewrite IH.
Qed.

(** [%q%] matches the strings that contain [q]. *)
Lemma like_contains (q s : str) :
  existsb is_wildcard q = false ->
  like (percent :: q ++ [percent]) s = contains_nocase q s.
Proof.
  intros Hw. unfold contains_nocase.
  induction s as [|d s IH]; rewrite like_percent;
    cbn [contains_by]; rewrite like_prefix by assumption.
  - reflexivity.
  - now rewrite IH.
Qed.

Lemma prefix_by_spec (eq : N -> N -> bool) (q s : str) :
  prefix_by eq q s = true <->
  exists mid post,
    s = mid ++ post /\ Forall2 (fun a b => eq a b = true) q mid.
Proof.
  revert s. induction q as [|a q IH]; intros s.
  - split; [|reflexivity]. intros _. exists [], s. split; [reflexivity|].
    constructor.
  - destruct s as [|b s]; cbn [prefix_by].
    + split; [discriminate|]. intros (mid & post & E & F).
      inversion F; subst. discriminate.
    + rewrite andb_true_iff, IH. split.
      * intros (Hab & mid & post & -> & F).
        exists (b :: mid), post. split; [reflexivity | now constructor].
      * intros (mid & post & E & F). inversion F as [|? b' ? mid' Hab F'].
        subst. injection E as <- ->. split; [assumption|].
        now exists mid', post.
Qed.

(** [contains_by]: some part of [s] matches [q] character by character. *)
Lemma contains_by_spec (eq : N -> N -> bool) (q s : str) :
  contains_by eq q s = true <->
  exists pre mid post,
    s = pre ++ mid ++ post /\ Forall2 (fun a b => eq a b = true) q mid.
Proof.
  induction s as [|b s IH]; cbn [contains_by]; rewrite orb_true_iff.
  - rewrite prefix_by_spec. split.
    + intros [(mid & post & E & F)|H]; [|discriminate].
      now exists [], mid, post.
    + intros (pre & mid & post & E & F). left.
      destruct pre; [|discriminate]. now exists mid, post.
  - rewrite prefix_by_spec, IH. split.
    + intros [(mid & post & E & F)|(pre & mid & post & E & F)].
      * now exists [], mid, post.
      * exists (b :: pre), mid, post. now rewrite E.
    + intros ([|c pre] & mid & post & E & F).
      * left. now exists mid, post.
      * right. injection E as _ E. now exists pre, mid, post.
Qed.

Lemma utf8_len_app (a b : str) : utf8_len (a ++ b) = utf8_len a + utf8_len b.
Proof.
  unfold utf8_len. induction a as [|c a IH]; simpl; [reflexivity|].
  rewrite IH. lia.
Qed.

Lemma search_where_contains (norm : str) (r : employee_row) :
  existsb is_wildcard norm = false ->
  search_where (u "%" ++ norm ++ u "%") r
  = some_field contains_nocase norm r.
Proof.
  intros Hw. unfold search_where, some_field.
  change (u "%") with [percent]. cbn [app].
  now rewrite !like_contains.
Qed.

(** The claim of the specification, that the match is a case-sensitive
    substring test, fails: the row named "Ali" is found under "ali". *)
Lemma search_employees_folds_case :
  table (fst (search_employees (u "ali") ali_tab))
  <> filter (some_field contains (normalize_arabic (u "ali")))
            (employee (conn ali_tab)).
Proof. vm_compute. discriminate. Qed.

(** A [%] or [_] of the query is not searched for as such: no field of the
    stored row holds an underscore, and the row is found under "_". *)
Lemma search_employees_wildcard :
  table (fst (search_employees (u "_") ali_tab)) = employee (conn ali_tab)
  /\ filter (some_field contains_nocase (u "_")) (employee (conn ali_tab))
     = [].
Proof. split; vm_compute; reflexivity. Qed.

(** C4, amended.  For a query whose normalized form holds no [%] and no
    [_] and makes a pattern within the limit of the engine,
    [search_employees] shows exactly the stored rows in which one of name,
    department, file_no, national_id contains the normalized query, letters
    of ASCII compared without regard to case; two queries with the same
    normalized form, such as "احمد" and "أحمد", show the same rows. *)
Theorem search_employees_contains (query : str) (t : EmployeeTab) :
  let norm := normalize_arabic query in
  (existsb is_wildcard norm = false ->
   utf8_len norm + 2 <= like_pattern_limit ->
   search_employees query t
   = (set_table
        (filter (some_field contains_nocase norm) (employee (conn t))) t,
      None))
  /\ (forall query',
         normalize_arabic query' = norm ->
         search_employees query' t = search_employees query t)
  /\ search_employees (u "احمد") t = search_employees (u "أحمد") t.
Proof.
  intros norm. split; [|split].
  - intros Hw Hl. unfold search_employees. fold norm.
    rewrite !utf8_len_app. change (utf8_len (u "%")) with 1.
    replace (1 + (utf8_len norm + 1) <=? like_pattern_limit) with true
      by (symmetry; apply N.leb_le; lia).
    cbn [orb]. f_equal. f_equal. apply filter_ext. intros r.
    now apply search_where_contains.
  - intros query' E. unfold search_employees. now rewrite E.
  - unfold search_employees.
    now replace (normalize_arabic (u "احمد"))
      with (normalize_arabic (u "أحمد")) by (vm_compute; reflexivity).
Qed.

Lemma search_employees_contains_witness :
  table (fst (search_employees (u "ali") ali_tab)) = employee (conn ali_tab).
Proof.
  rewrite (proj1 (search_employees_contains (u "ali") ali_tab));
    vm_compute; congruence.
Defined.

(** ** The POSIX tree is a lawful file system *)

Lemma place_eqb_eq (a b : Posix.place) :
  Posix.place_eqb a b = true <-> a = b.
Proof.
  unfold Posix.place_eqb.
  destruct (list_eq_dec (list_eq_dec N.eq_dec) a b); split; congruence.
Qed.

Lemma node_at_put (d : Posix.tree) (here q : Posix.place) (n : Posix.node) :
  here <> [] ->
  Posix.node_at (Posix.put d here n) q
  = if Posix.place_eqb q here then Some n else Posix.node_at d q.
Proof.
  intros H. unfold Posix.node_at, Posix.put. destruct q as [|x q];
    [|reflexivity].
  destruct (Posix.place_eqb [] here) eqn:E; [|reflexivity].
  apply place_eqb_eq in E. congruence.
Qed.

Lemma put_grows (d : Posix.tree) (here : Posix.place) (n : Posix.node) :
  Posix.node_at d here = None -> grows d (Posix.put d here n).
Proof.
  intros H q m Hq.
  assert (N0 : here <> []) by (intros ->; discriminate).
  rewrite node_at_put by assumption.
  destruct (Posix.place_eqb q here) eqn:E; [|exact Hq].
  apply place_eqb_eq in E. subst q. congruence.
Qed.

Lemma grows_refl (d : Posix.tree) : grows d d.
Proof. now intros q n. Qed.

Lemma grows_trans (a b c : Posix.tree) : grows a b -> grows b c -> grows a c.
Proof. intros H1 H2 q n H. now apply H2, H1. Qed.

(** A file in place of a file, or where nothing was, turns no walk. *)
Lemma walk_put_file (d : Posix.tree) (here : Posix.place) (content : list N) :
  Posix.is_dir d here = false ->
  forall names cur,
    Posix.walk (Posix.put d here (Posix.File content)) cur names
    = Posix.walk d cur names.
Proof.
  intros H.
  assert (N0 : here <> []) by (intros ->; discriminate).
  assert (D : forall q, Posix.is_dir (Posix.put d here (Posix.File content)) q
                        = Posix.is_dir d q).
  { intros q. unfold Posix.is_dir. rewrite node_at_put by assumption.
    destruct (Posix.place_eqb q here) eqn:E; [|reflexivity].
    apply place_eqb_eq in E. subst q. unfold Posix.is_dir in H.
    now rewrite H. }
  induction names as [|name names IH]; intros cur; [reflexivity|].
  cbn [Posix.walk]. rewrite D.
  destruct (Posix.is_dir d cur); [|reflexivity].
  destruct (str_eqb name [] || str_eqb name (u ".")); [apply IH|].
  destruct (str_eqb name (u "..")); apply IH.
Qed.

Lemma walk_grows (d d' : Posix.tree) :
  grows d d' ->
  forall names cur here,
    Posix.walk d cur names = Some here ->
    Posix.walk d' cur names = Some here.
Proof.
  intros G. induction names as [|name names IH]; intros cur here;
    [trivial|].
  cbn [Posix.walk]. unfold Posix.is_dir.
  destruct (Posix.node_at d cur) as [[c|]|] eqn:E; try discriminate.
  rewrite (G _ _ E).
  destruct (str_eqb name [] || str_eqb name (u ".")); [apply IH|].
  destruct (str_eqb name (u "..")); apply IH.
Qed.

Lemma resolve_grows (d d' : Posix.tree) (p : str) (here : Posix.place) :
  grows d d' -> Posix.resolve d p = Some here ->
  Posix.resolve d' p = Some here.
Proof.
  intros G. unfold Posix.resolve. destruct p; [discriminate|].
  now apply walk_grows.
Qed.

Lemma grows_preserved (d d' : Posix.tree) :
  grows d d' -> @preserved posix d d'.
Proof.
  intros G. split.
  - intros p content. cbn [read_file posix]. unfold Posix.read_file.
    destruct (Posix.resolve d p) as [here|] eqn:R; [|discriminate].
    rewrite (resolve_grows _ _ _ _ G R).
    destruct (Posix.node_at d here) as [n|] eqn:E; [|discriminate].
    now rewrite (G _ _ E).
  - intros p. cbn [path_exists posix]. unfold Posix.path_exists.
    destruct (Posix.resolve d p) as [here|] eqn:R; [|discriminate].
    rewrite (resolve_grows _ _ _ _ G R).
    destruct (Posix.node_at d here) as [n|] eqn:E; [|discriminate].
    now rewrite (G _ _ E).
Qed.

Lemma mkdir_outcome_grows (d : Posix.tree) (name : str) :
  match Posix.mkdir_outcome d name with
  | Posix.Done d' | Posix.FileExists d' => grows d d'
  | Posix.Raised => True
  end.
Proof.
  unfold Posix.mkdir_outcome, Posix.mkdir. destruct name; [exact I|].
  destruct (Posix.walk d [] _) as [here|]; [|exact I].
  destruct (Posix.node_at d here) eqn:E; [apply grows_refl|].
  now apply put_grows.
Qed.

Lemma makedirs_from_grows (fuel : nat) :
  forall (d : Posix.tree) (name : str),
    match Posix.makedirs_from fuel d name with
    | Posix.Done d' | Posix.FileExists d' => grows d d'
    | Posix.Raised => True
    end.
Proof.
  induction fuel as [|fuel IH]; intros d name; [exact I|].
  cbn [Posix.makedirs_from].
  destruct (Py.split name) as [head0 tail0].
  destruct (match tail0 with
            | [] => Py.split head0
            | _ :: _ => (head0, tail0)
            end) as [head tail].
  destruct head as [|h head]; [apply mkdir_outcome_grows|].
  destruct tail as [|c tail]; [apply mkdir_outcome_grows|].
  destruct (negb (Posix.path_exists d (h :: head)));
    [|apply mkdir_outcome_grows].
  specialize (IH d (h :: head)).
  assert (K : forall d1, grows d d1 ->
              match
                (if str_eqb (c :: tail) (u ".") then Posix.Done d1
                 else Posix.mkdir_outcome d1 name)
              with
              | Posix.Done d' | Posix.FileExists d' => grows d d'
              | Posix.Raised => True
              end).
  { intros d1 G. destruct (str_eqb (c :: tail) (u ".")); [exact G|].
    pose proof (mkdir_outcome_grows d1 name) as M.
    destruct (Posix.mkdir_outcome d1 name); try exact I;
      exact (grows_trans _ _ _ G M). }
  destruct (Posix.makedirs_from fuel d (h :: head)); try exact I;
    now apply K.
Qed.

Lemma posix_lawful : lawful posix.
Proof.
  split; [|split; [|split]].
  - intros d p content. cbn [read_file path_exists posix].
    unfold Posix.read_file, Posix.path_exists.
    destruct (Posix.resolve d p) as [here|]; [|discriminate].
    now destruct (Posix.node_at d here).
  - intros d d' p content. cbn [read_file write_file posix].
    unfold Posix.write_file, Posix.read_file.
    destruct (Posix.resolve d p) as [here|] eqn:R; [|discriminate].
    assert (K : Posix.is_dir d here = false ->
                Posix.read_file (Posix.put d here (Posix.File content)) p
                = Some content).
    { intros H.
      assert (N0 : here <> []) by (intros ->; discriminate).
      unfold Posix.read_file, Posix.resolve in *.
      destruct p; [discriminate|]. rewrite walk_put_file, R by assumption.
      rewrite node_at_put by assumption.
      now rewrite (proj2 (place_eqb_eq here here) eq_refl). }
    unfold Posix.is_dir, Posix.read_file in K.
    destruct (Posix.node_at d here) as [[c|]|]; try discriminate;
      intros [= <-]; now apply K.
  - intros d d' p content. cbn [path_exists write_file posix].
    unfold Posix.path_exists, Posix.write_file.
    destruct (Posix.resolve d p) as [here|]; [|discriminate].
    destruct (Posix.node_at d here) eqn:E; [discriminate|].
    intros _ [= <-]. now apply grows_preserved, put_grows.
  - intros d d' p. cbn [path_exists makedirs posix]. unfold Posix.makedirs.
    pose proof (makedirs_from_grows (S (List.length p)) d p) as G.
    destruct (Posix.makedirs_from (S (List.length p)) d p) as [d1|d1|];
      try discriminate.
    destruct (Posix.path_exists d1 p) eqn:E; [|discriminate].
    intros [= <-]. split; [exact E|]. now apply grows_preserved.
Qed.

(** ** Uploading attachments *)

Section Upload.

Variable os : file_system.
Hypothesis os_lawful : lawful os.
Variable guess_type : str -> option str.

Lemma preserved_refl (d : disk os) : preserved d d.
Proof. now split. Qed.

Lemma preserved_trans (a b c : disk os) :
  preserved a b -> preserved b c -> preserved a c.
Proof.
  intros [R1 E1] [R2 E2]. split.
  - intros p content H. now apply R2, R1.
  - intros p H. now apply E2, E1.
Qed.

Lemma written_exists (d d' : disk os) (p : str) (content : list N) :
  write_file d p content = Some d' -> path_exists d' p = true.
Proof.
  intros H. destruct os_lawful as (L1 & L2 & _).
  exact (L1 _ _ _ (L2 _ _ _ _ H)).
Qed.

(** What [get_employee_folder] returns. *)
Lemma get_employee_folder_returns (d d1 : disk os) (file_no folder : str) :
  get_employee_folder d file_no = Some (d1, folder) ->
  folder = Py.join ATTACHMENTS_DIR file_no
  /\ path_exists d1 folder = true
  /\ preserved d d1.
Proof.
  unfold get_employee_folder.
  destruct (path_exists d (Py.join ATTACHMENTS_DIR file_no)) eqn:E.
  - intros [= <- <-]. split; [reflexivity|]. split; [exact E|].
    apply preserved_refl.
  - destruct (makedirs d (Py.join ATTACHMENTS_DIR file_no)) as [d'|] eqn:M;
      [|discriminate].
    intros [= <- <-]. split; [reflexivity|].
    destruct os_lawful as (_ & _ & _ & L4). exact (L4 _ _ _ M).
Qed.

Lemma get_employee_folder_again (d : disk os) (file_no : str) :
  path_exists d (Py.join ATTACHMENTS_DIR file_no) = true ->
  get_employee_folder d file_no
  = Some (d, Py.join ATTACHMENTS_DIR file_no).
Proof. intros H. unfold get_employee_folder. now rewrite H. Qed.

Lemma upload_file_preserved (now folder : str) (d : disk os)
  (t : EmployeeTab) (f : str) :
  preserved d (fst (upload_file guess_type now folder (d, t) f)).
Proof.
  unfold upload_file.
  destruct (path_exists d (Py.join folder (Py.basename f))) eqn:Ex;
    cbn [negb].
  - destruct (selected_emp_id t); apply preserved_refl.
  - destruct (read_file d f) as [content|]; [|apply preserved_refl].
    destruct (write_file d _ content) as [d'|] eqn:Ew;
      [|apply preserved_refl].
    destruct os_lawful as (_ & _ & L3 & _).
    destruct (selected_emp_id t); cbn [fst]; exact (L3 _ _ _ _ Ex Ew).
Qed.

Lemma upload_loop_preserved (now : nat -> str) (folder : str)
  (files : list str) :
  forall (i : nat) (st : disk os * EmployeeTab),
    preserved (fst st)
      (fst (upload_loop guess_type now folder i files st)).
Proof.
  induction files as [|f files IH]; intros i [d t]; cbn [upload_loop].
  - apply preserved_refl.
  - eapply preserved_trans; [apply upload_file_preserved | apply IH].
Qed.

Lemma upload_files_preserved (files : list str) (now : nat -> str)
  (d d' : disk os) (t t' : EmployeeTab) (msg : option popup) :
  upload_files files guess_type now d t = Some (d', t', msg) ->
  preserved d d'.
Proof.
  unfold upload_files.
  destruct (form_fields t Field.file_no) as [|c file_no] eqn:E.
  - intros [= <- _ _]. apply preserved_refl.
  - destruct (get_employee_folder d (c :: file_no)) as [[d1 folder]|] eqn:G;
      [|discriminate].
    pose proof (upload_loop_preserved now folder files 0%nat (d1, t)) as H2.
    destruct (upload_loop _ _ _ _ files (d1, t)) as [d2 t2].
    intros [= <- _ _].
    exact (preserved_trans _ _ _
             (proj2 (proj2 (get_employee_folder_returns _ _ _ _ G))) H2).
Qed.

(** [upload_files] writes where nothing is: every file that could be read
    before it holds the same bytes after it, so a destination that exists
    in the employee's folder is not overwritten.  When a first file is
    uploaded under a name new to the folder and its copy is made, a second
    upload of a file of the same name writes nothing at all: the disk
    stays as the first upload left it, with the bytes of the first file
    under that name, and the second file is listed all the same. *)
Theorem upload_files_no_overwrite (d : disk os) (t : EmployeeTab) :
  (forall files now d' t' msg,
      upload_files files guess_type now d t = Some (d', t', msg) ->
      preserved d d')
  /\ (forall f1 f2 content now1 now2 d0 folder d1,
         let dest := Py.join folder (Py.basename f1) in
         form_fields t Field.file_no <> [] ->
         Py.basename f2 = Py.basename f1 ->
         get_employee_folder d (form_fields t Field.file_no)
         = Some (d0, folder) ->
         path_exists d0 dest = false ->
         read_file d0 f1 = Some content ->
         write_file d0 dest content = Some d1 ->
         exists t1 t2,
           upload_files [f1] guess_type now1 d t = Some (d1, t1, None)
           /\ read_file d1 dest = Some content
           /\ upload_files [f2] guess_type now2 d1 t1 = Some (d1, t2, None)
           /\ attachments t2
              = attachments t
                ++ [(Py.basename f1, dest); (Py.basename f2, dest)]).
Proof.
  split; [intros files now d' t' msg; apply upload_files_preserved|].
  intros f1 f2 content now1 now2 d0 folder d1 dest Hno Hsame G Hd Hr Hw.
  destruct os_lawful as (L1 & L2 & L3 & _).
  destruct (get_employee_folder_returns _ _ _ _ G) as (Ef & Hx & _).
  pose proof (L2 _ _ _ _ Hw) as R1.
  assert (X1 : path_exists d1 dest = true) by exact (L1 _ _ _ R1).
  assert (F1 : path_exists d1 folder = true).
  { exact (proj2 (L3 _ _ _ _ Hd Hw) _ Hx). }
  assert (G1 : get_employee_folder d1 (form_fields t Field.file_no)
               = Some (d1, folder)).
  { rewrite Ef in *. now apply get_employee_folder_again. }
  unfold upload_files.
  destruct (form_fields t Field.file_no) as [|c file_no] eqn:E;
    [congruence|].
  rewrite G. cbn [upload_loop]. unfold upload_file at 1. fold dest.
  rewrite Hd, Hr. cbn [negb]. rewrite Hw.
  destruct (selected_emp_id t) as [emp|] eqn:S.
  - eexists. eexists. split; [reflexivity|]. split; [exact R1|].
    cbn [form_fields set_conn set_attachments]. rewrite E, G1.
    cbn [upload_loop]. unfold upload_file. rewrite Hsame. fold dest.
    rewrite X1. cbn [negb selected_emp_id set_conn set_attachments].
    rewrite S. split; [reflexivity|].
    cbn [attachments set_conn set_attachments].
    now rewrite <- app_assoc.
  - eexists. eexists. split; [reflexivity|]. split; [exact R1|].
    cbn [form_fields set_attachments]. rewrite E, G1.
    cbn [upload_loop]. unfold upload_file. rewrite Hsame. fold dest.
    rewrite X1. cbn [negb selected_emp_id set_attachments].
    rewrite S. split; [reflexivity|].
    cbn [attachments set_attachments].
    now rewrite <- app_assoc.
Qed.

End Upload.

Lemma two_sources_folder :
  get_employee_folder (os := posix) two_sources (u "7")
  = Some (with_folder, u "attachments/7").
Proof. vm_compute. reflexivity. Qed.

Lemma upload_files_no_overwrite_witness :
  let t := set_form (sample_form [] []) blank_tab in
  exists t1 t2,
    upload_files (os := posix) [u "/home/a/cv.pdf"] no_mime ticking
                 two_sources t
    = Some (with_copy, t1, None)
    /\ read_file (os := posix) with_copy (u "attachments/7/cv.pdf")
       = Some [1; 2; 3]
    /\ upload_files (os := posix) [u "/home/b/cv.pdf"] no_mime ticking
                    with_copy t1
       = Some (with_copy, t2, None)
    /\ attachments t2
       = [(u "cv.pdf", u "attachments/7/cv.pdf");
          (u "cv.pdf", u "attachments/7/cv.pdf")].
Proof.
  intros t.
  apply (proj2 (upload_files_no_overwrite posix posix_lawful no_mime
                  two_sources t)
               (u "/home/a/cv.pdf") (u "/home/b/cv.pdf") [1; 2; 3]
               ticking ticking with_folder (u "attachments/7") with_copy).
  - vm_compute. discriminate.
  - vm_compute. reflexivity.
  - exact two_sources_folder.
  - vm_compute. reflexivity.
  - vm_compute. reflexivity.
  - vm_compute. reflexivity.
Defined.

(** C8, on the code.  The photo is copied without the test [upload_files]
    makes.  The folder of file number 7 holds [photo_cv.pdf] with the
    byte 9; the picture chosen is [/home/a/cv.pdf], with the bytes 1 2 3.
    After [upload_photo] the file [photo_cv.pdf] of the folder holds
    1 2 3: the destination that existed was overwritten. *)
Theorem upload_photo_overwrites :
  let t := set_form (sample_form [] []) blank_tab in
  let dest := u "attachments/7/photo_cv.pdf" in
  read_file (os := posix) with_photo dest = Some [9]
  /\ read_file (os := posix) with_photo (u "/home/a/cv.pdf")
     = Some [1; 2; 3]
  /\ match
       upload_photo (os := posix) (u "/home/a/cv.pdf") no_mime [] with_photo t
     with
     | Some (d', t', msg) =>
         read_file (os := posix) d' dest = Some [1; 2; 3]
         /\ photo_path t' = Some dest /\ msg = None
     | None => False
     end.
Proof. vm_compute. repeat split. Qed.

(** ** The export document *)

Lemma export_pdf_reads_only (file_path : str) (rendered : bool)
  (t : ReportTab) :
  fst (fst (export_pdf file_path rendered t)) = t.
Proof. unfold export_pdf. now destruct file_path. Qed.

(** C9.  On a database without employees and with a destination chosen,
    [export_pdf] raises nothing of its own: it hands WeasyPrint a document
    and reports what WeasyPrint did with it, success when it returned.  The
    document ends with the table written out in [header_only_table]: one
    header row, whose cells are the Arabic labels of the fields from the
    last field to the first, and an empty body; in the whole document
    there are seventeen [<th>], one [<tr>] and no [<td>].  The tab, with
    its database, is returned as it was, whatever the number of records. *)
Theorem export_pdf_header_only (file_path : str) (rendered : bool)
  (t : ReportTab) :
  file_path <> [] ->
  employee (report_conn t) = [] ->
  export_pdf file_path rendered t
  = (t, Some (export_html [], file_path),
     Some (if rendered then info_exported else critical_export_failed))
  /\ (exists before after,
         export_html [] = before ++ header_only_table ++ after
         /\ occurrences (u "<t") before = 0%nat
         /\ occurrences (u "<t") after = 0%nat)
  /\ occurrences (u "<th>") (export_html []) = 17%nat
  /\ occurrences (u "<tr>") (export_html []) = 1%nat
  /\ occurrences (u "<td>") (export_html []) = 0%nat
  /\ (forall path outcome t',
         fst (fst (export_pdf path outcome t')) = t').
Proof.
  intros Hp He. split; [|split; [|split; [|split; [|split]]]].
  - unfold export_pdf. rewrite He.
    destruct file_path; [congruence | reflexivity].
  - exists (firstn (List.length html_head - 91) html_head).
    exists (skipn 46 html_tail).
    vm_compute. repeat split.
  - vm_compute. reflexivity.
  - vm_compute. reflexivity.
  - vm_compute. reflexivity.
  - intros. apply export_pdf_reads_only.
Qed.

Lemma export_pdf_header_only_witness :
  export_pdf (u "out.pdf") true empty_report
  = (empty_report, Some (export_html [], u "out.pdf"), Some info_exported)
  /\ export_pdf (u "out.pdf") false empty_report
     = (empty_report, Some (export_html [], u "out.pdf"),
        Some critical_export_failed).
Proof.
  split.
  - apply (export_pdf_header_only (u "out.pdf") true empty_report);
      [discriminate | reflexivity].
  - apply (export_pdf_header_only (u "out.pdf") false empty_report);
      [discriminate | reflexivity].
Defined.

(* ================================================================= *)
(** * Further properties of the code *)

(** ** normalize_arabic, continued *)

Lemma sub_length (a : N) (new s : str) :
  (List.length new <= 1)%nat ->
  (List.length (flat_map (sub a new) s) <= List.length s)%nat.
Proof.
  intros Hn. induction s as [|c s IH]; [reflexivity|].
  cbn [flat_map]. rewrite length_app. unfold sub at 1.
  destruct (a =? c); simpl; lia.
Qed.

Lemma lstrip_length (s : str) :
  (List.length (Py.lstrip s) <= List.length s)%nat.
Proof.
  induction s as [|c s IH]; [reflexivity|].
  cbn [Py.lstrip]. destruct (Py.isspace_char c); simpl; lia.
Qed.

Lemma rstrip_length (s : str) :
  (List.length (Py.rstrip s) <= List.length s)%nat.
Proof.
  induction s as [|c s IH]; [reflexivity|].
  cbn [Py.rstrip]. destruct (Py.rstrip s).
  - destruct (Py.isspace_char c); simpl; lia.
  - simpl in *. lia.
Qed.

Lemma normalize_arabic_length (x : str) :
  (List.length (normalize_arabic x) <= List.length x)%nat.
Proof.
  rewrite normalize_arabic_eq, rewritten_eq. unfold Py.strip.
  eapply Nat.le_trans; [apply rstrip_length|].
  eapply Nat.le_trans; [apply lstrip_length|].
  repeat (eapply Nat.le_trans; [apply sub_length; simpl; lia|]).
  reflexivity.
Qed.

(** The texts [normalize_arabic] leaves as they are: those that hold no
    tatweel (U+0640) and none of the letters it rewrites (U+0623, U+0625,
    U+0622, U+0629, U+0649) and neither start nor end with whitespace.  No
    text gets longer. *)
Theorem normalize_arabic_fixed_points (x : str) :
  (normalize_arabic x = x <->
   (forall c, In c [0x640; 0x623; 0x625; 0x622; 0x629; 0x649] -> ~ In c x)
   /\ (forall c t, x = c :: t -> Py.isspace_char c = false)
   /\ (forall t c, x = t ++ [c] -> Py.isspace_char c = false))
  /\ (List.length (normalize_arabic x) <= List.length x)%nat.
Proof.
  split; [|apply normalize_arabic_length]. split.
  - intros E. split; [|split].
    + intros c Hc Hin. rewrite <- variant_chars_eq in Hc.
      pose proof (normalize_arabic_clean x) as H.
      rewrite E, Forall_forall in H. exact (H c Hin Hc).
    + intros c t Hx. apply (strip_head (rewritten x) c t).
      now rewrite <- normalize_arabic_eq, E.
    + intros t c Hx. apply (strip_last (rewritten x) t c).
      now rewrite <- normalize_arabic_eq, E.
  - intros (Hv & Hh & Hl).
    rewrite normalize_arabic_eq, rewritten_fixed.
    + now apply strip_fixed.
    + apply Forall_forall. intros c Hin Hc. rewrite variant_chars_eq in Hc.
      exact (Hv c Hc Hin).
Qed.

(** ** Invariants of the employee table *)

Lemma NoDup_snoc {A : Type} (l : list A) (v : A) :
  NoDup l -> ~ In v l -> NoDup (l ++ [v]).
Proof.
  induction 1 as [|a l Ha Hl IH]; intros Hv; simpl.
  - constructor; [intros []|constructor].
  - constructor.
    + rewrite in_app_iff. intros [H|[H|[]]]; [contradiction|].
      apply Hv. now left.
    + apply IH. intros H. apply Hv. now right.
Qed.

(** Deleting rows keeps a key of the table free of repetitions. *)
Lemma filter_keeps_distinct {K : Type} (key : employee_row -> K)
  (keep : employee_row -> bool) (rows : list employee_row)
  (distinct : NoDup (map key rows)) :
  NoDup (map key (filter keep rows)).
Proof.
  induction rows as [|r rows IH]; cbn [filter map] in *; [constructor|].
  inversion distinct as [|? ? Hnew Hrest]; subst.
  destruct (keep r); cbn [map]; [|now apply IH].
  constructor; [|now apply IH].
  rewrite in_map_iff. intros (x & E & Hx). apply filter_In in Hx.
  apply Hnew. rewrite in_map_iff. exists x. tauto.
Qed.

Lemma form_vals_normalized (id : N) (t : EmployeeTab) :
  normalized_row {| emp_id := id; emp_vals := form_vals t |}.
Proof.
  split; [reflexivity|]. cbn [emp_vals]. unfold form_vals.
  apply Forall_forall. intros v Hv. apply in_map_iff in Hv.
  destruct Hv as (f & <- & _). apply normalize_arabic_idem.
Qed.

Lemma well_kept_empty : well_kept empty_db.
Proof.
  split; [constructor|]. split; intros r [].
Qed.

Lemma next_rowid_above (seq : N) (ids : list N) (id : N) :
  (In id ids \/ id <= seq) -> id < next_rowid seq ids.
Proof.
  unfold next_rowid. intros [H|H]; [apply max_id_ge in H|]; lia.
Qed.

Lemma insert_employee_well_kept (t : EmployeeTab) (db : database) :
  well_kept db -> well_kept (fst (insert_employee (form_vals t) db)).
Proof.
  intros (Hn & Hs & Hr). unfold insert_employee. cbn [fst].
  split; [|split]; cbn [employee employee_seq].
  - rewrite map_app. apply NoDup_snoc; [assumption|].
    apply next_rowid_fresh.
  - intros r Hin. apply in_app_iff in Hin. destruct Hin as [Hin|[<-|[]]].
    + apply N.lt_le_incl, next_rowid_above. left. now apply in_map.
    + cbn [emp_id]. lia.
  - intros r Hin. apply in_app_iff in Hin. destruct Hin as [Hin|[<-|[]]].
    + now apply Hr.
    + apply form_vals_normalized.
Qed.

Lemma update_employee_ids (vals : list str) (id : N) (db : database) :
  map emp_id (employee (update_employee vals id db))
  = map emp_id (employee db).
Proof.
  unfold update_employee. cbn [employee]. rewrite map_map.
  apply map_ext. intros r. now destruct (emp_id r =? id).
Qed.

Lemma update_employee_well_kept (t : EmployeeTab) (id : N) (db : database) :
  well_kept db -> well_kept (update_employee (form_vals t) id db).
Proof.
  intros (Hn & Hs & Hr). split; [|split].
  - now rewrite update_employee_ids.
  - unfold update_employee. cbn [employee employee_seq]. intros r Hin.
    apply in_map_iff in Hin. destruct Hin as (r0 & E & Hin).
    specialize (Hs r0 Hin). destruct (emp_id r0 =? id); now subst r.
  - unfold update_employee. cbn [employee]. intros r Hin.
    apply in_map_iff in Hin. destruct Hin as (r0 & E & Hin).
    destruct (emp_id r0 =? id); subst r;
      [apply form_vals_normalized | now apply Hr].
Qed.

Lemma delete_employee_row_well_kept (id : N) (db : database) :
  well_kept db -> well_kept (delete_employee_row id db).
Proof.
  intros (Hn & Hs & Hr). unfold delete_employee_row.
  split; [|split]; cbn [employee employee_seq].
  - now apply filter_keeps_distinct.
  - intros r Hin. apply filter_In in Hin. now apply Hs.
  - intros r Hin. apply filter_In in Hin. now apply Hr.
Qed.

(** Statements on [attachment] leave the employee table alone. *)
Lemma well_kept_same (db db' : database) :
  employee db' = employee db -> employee_seq db' = employee_seq db ->
  well_kept db -> well_kept db'.
Proof. unfold well_kept. now intros -> ->. Qed.

Lemma rewrite_employee_well_kept (emp : N) (t : EmployeeTab) :
  well_kept (conn t) -> well_kept (rewrite_employee emp t).
Proof.
  intros H. unfold rewrite_employee.
  eapply well_kept_same;
    [apply insert_pending_employee | apply insert_pending_employee |].
  apply (well_kept_same (update_employee (form_vals t) emp (conn t)));
    [reflexivity | reflexivity |].
  now apply update_employee_well_kept.
Qed.

(** Starting from the empty database of [init_db], the employee table
    never holds an identifier twice, never holds one above the
    AUTOINCREMENT sequence, and holds normalized rows of seventeen columns
    only: [add_employee], [edit_employee] and [delete_employee] keep it
    so, on every input. *)
Theorem employee_table_well_kept (today : Py.date) (t : EmployeeTab) :
  well_kept (conn t) ->
  well_kept (conn (fst (add_employee today t)))
  /\ well_kept (conn (fst (edit_employee today t)))
  /\ (forall reply_yes, well_kept (conn (fst (delete_employee reply_yes t)))).
Proof.
  intros H. split; [|split].
  - unfold add_employee.
    destruct (validate_employee_form today (selected_emp_id t) t);
      [|exact H].
    destruct (selected_emp_id t) as [emp|].
    + cbn [fst clear_form load_employees set_conn set_table conn].
      now apply rewrite_employee_well_kept.
    + pose proof (insert_employee_well_kept t (conn t) H) as H1.
      destruct (insert_employee (form_vals t) (conn t)) as [db emp].
      cbn [fst clear_form load_employees set_conn set_table conn] in *.
      eapply well_kept_same;
        [apply insert_pending_employee | apply insert_pending_employee
        | exact H1].
  - unfold edit_employee. destruct (selected_emp_id t) as [emp|]; [|exact H].
    destruct (validate_employee_form today (Some emp) t); [|exact H].
    cbn [fst clear_form load_employees set_conn set_table conn].
    now apply rewrite_employee_well_kept.
  - intros reply_yes. unfold delete_employee.
    destruct (selected_emp_id t) as [emp|]; [|exact H].
    destruct reply_yes; [|exact H].
    cbn [fst clear_form load_employees set_conn set_table conn].
    apply (well_kept_same (delete_employee_row emp (conn t)));
      [reflexivity | reflexivity |].
    now apply delete_employee_row_well_kept.
Qed.

Lemma employee_table_well_kept_witness : well_kept (conn ali_tab).
Proof.
  apply (employee_table_well_kept (2025, 6, 1)
           (set_form (sample_form (u "12345678901234") (u "2000-01-01"))
                     blank_tab)).
  split; [constructor|]. split; intros r [].
Defined.

(** An identifier is not given twice: once employee [id] is deleted, the
    employee added next gets another identifier, and [id] is not in the
    table. *)
Theorem deleted_id_not_reused (today : Py.date) (t t2 : EmployeeTab)
  (id : N) (r : employee_row) :
  well_kept (conn t) ->
  selected_emp_id t = Some id ->
  In r (employee (conn t)) -> emp_id r = id ->
  conn t2 = conn (fst (delete_employee true t)) ->
  selected_emp_id t2 = None ->
  validate_employee_form today None t2 = Valid ->
  forall r', In r' (employee (conn (fst (add_employee today t2)))) ->
             emp_id r' <> id.
Proof.
  intros (_ & Hs & _) Hsel Hin Hid Hc Hsel2 Hv r' Hr'.
  destruct (add_employee_inserts today t2 Hsel2 Hv) as (_ & Hrows & _).
  rewrite Hrows, Hc in Hr'. unfold delete_employee in Hr', Hc.
  rewrite Hsel in Hr', Hc.
  cbn [fst clear_form load_employees set_conn set_table conn
       delete_attachments delete_employee_row employee employee_seq] in *.
  apply in_app_iff in Hr'. destruct Hr' as [H|[<-|[]]].
  - apply filter_In in H. destruct H as [_ H].
    now apply negb_true_iff, N.eqb_neq in H.
  - cbn [emp_id]. specialize (Hs r Hin). rewrite Hid in Hs.
    enough (id < next_rowid (employee_seq (conn t))
                   (map emp_id
                      (filter (fun r0 => negb (emp_id r0 =? id))
                              (employee (conn t))))) by lia.
    apply next_rowid_above. now right.
Qed.

Lemma deleted_id_not_reused_witness :
  Forall (fun r' => emp_id r' <> 1)
    (employee
       (conn (fst (add_employee (2025, 6, 1)
                     (set_form (sample_form (u "12345678901234") [])
                        (fst (delete_employee true ali_selected))))))).
Proof.
  apply Forall_forall.
  apply (deleted_id_not_reused (2025, 6, 1) ali_selected
           (set_form (sample_form (u "12345678901234") [])
                     (fst (delete_employee true ali_selected)))
           1 ali_row).
  - split; [|split].
    + rewrite ali_selected_rows. repeat constructor. intros [].
    + rewrite ali_selected_rows. intros r [<-|[]]. vm_compute. discriminate.
    + rewrite ali_selected_rows. intros r [<-|[]].
      split; [reflexivity|]. vm_compute.
      repeat constructor.
  - reflexivity.
  - rewrite ali_selected_rows. now left.
  - reflexivity.
  - reflexivity.
  - reflexivity.
  - vm_compute. reflexivity.
Defined.

(** ** Uniqueness of the national identifier *)

Lemma fetch_same_false (f : Field.t) (value : str) (skip_id : option N)
  (db : database) (r : employee_row) :
  fetch_same f value skip_id db = false ->
  In r (employee db) ->
  match skip_id with Some id => emp_id r <> id | None => True end ->
  column f r <> value.
Proof.
  intros H Hin Hid E. apply not_true_iff_false in H. apply H.
  apply fetch_same_true. now exists r.
Qed.

(** A valid form: what is stored as national identifier is the trimmed
    text validation accepted. *)
Lemma valid_national_id_stored (today : Py.date) (skip_id : option N)
  (t : EmployeeTab) :
  validate_employee_form today skip_id t = Valid ->
  normalize_arabic (form_fields t Field.national_id)
  = Py.strip (form_fields t Field.national_id).
Proof.
  intros Hv. apply normalize_arabic_digits.
  apply validate_valid_iff in Hv. now destruct Hv as (_ & _ & (_ & Hd) & _).
Qed.

Lemma update_column_nodup (f : Field.t) (vals : list str) (id : N)
  (rows : list employee_row) :
  NoDup (map emp_id rows) ->
  NoDup (map (column f) rows) ->
  (forall r, In r rows -> emp_id r <> id ->
             column f r <> nth (Field.index f) vals []) ->
  NoDup (map (column f)
           (map (fun r => if emp_id r =? id
                          then {| emp_id := emp_id r; emp_vals := vals |}
                          else r) rows)).
Proof.
  set (upd := fun r => if emp_id r =? id
                       then {| emp_id := emp_id r; emp_vals := vals |}
                       else r).
  induction rows as [|r rows IH]; intros Hi Hc Hf; [constructor|].
  cbn [map] in *. inversion Hi as [|? ? Hi1 Hi2]; subst.
  inversion Hc as [|? ? Hc1 Hc2]; subst.
  assert (IH' := IH Hi2 Hc2 (fun r0 H0 => Hf r0 (or_intror H0))).
  constructor; [|exact IH'].
  intros Hin. apply in_map_iff in Hin. destruct Hin as (x & Ex & Hx).
  apply in_map_iff in Hx. destruct Hx as (r0 & <- & Hr0).
  unfold upd in Ex at 1. unfold upd in Ex.
  destruct (N.eqb_spec (emp_id r0) id) as [E0|N0];
    destruct (N.eqb_spec (emp_id r) id) as [E1|N1].
  - apply Hi1. apply in_map_iff. exists r0. split; [congruence|assumption].
  - apply (Hf r (or_introl eq_refl) N1). now rewrite <- Ex.
  - apply (Hf r0 (or_intror Hr0) N0). exact Ex.
  - apply Hc1. apply in_map_iff. now exists r0.
Qed.

Lemma rewrite_employee_unique (today : Py.date) (emp : N) (t : EmployeeTab) :
  NoDup (map emp_id (employee (conn t))) ->
  unique_national_ids (conn t) ->
  validate_employee_form today (Some emp) t = Valid ->
  unique_national_ids (rewrite_employee emp t).
Proof.
  intros Hi Hu Hv. unfold unique_national_ids.
  rewrite rewrite_employee_rows.
  apply update_column_nodup; [assumption | assumption |].
  intros r Hin Hid.
  change (nth (Field.index Field.national_id) (form_vals t) [])
    with (normalize_arabic (form_fields t Field.national_id)).
  rewrite (valid_national_id_stored today (Some emp) t Hv).
  apply validate_valid_iff in Hv. destruct Hv as (_ & (_ & Hf) & _).
  exact (fetch_same_false _ _ _ _ r Hf Hin Hid).
Qed.

(** No two rows share a national identifier: in a table without repeated
    identifiers, [add_employee], [edit_employee] and [delete_employee]
    keep the national identifiers pairwise distinct, on every input. *)
Theorem national_id_stays_unique (today : Py.date) (t : EmployeeTab) :
  NoDup (map emp_id (employee (conn t))) ->
  unique_national_ids (conn t) ->
  unique_national_ids (conn (fst (add_employee today t)))
  /\ unique_national_ids (conn (fst (edit_employee today t)))
  /\ (forall reply_yes,
         unique_national_ids (conn (fst (delete_employee reply_yes t)))).
Proof.
  intros Hi Hu. split; [|split].
  - unfold add_employee.
    destruct (validate_employee_form today (selected_emp_id t) t) eqn:Hv;
      [|exact Hu].
    destruct (selected_emp_id t) as [emp|] eqn:Hsel.
    + cbn [fst clear_form load_employees set_conn set_table conn].
      now apply (rewrite_employee_unique today).
    + unfold insert_employee.
      cbn [fst clear_form load_employees set_conn set_table conn].
      unfold unique_national_ids.
      rewrite (proj1 (insert_pending_employee _ _ _)). cbn [employee].
      rewrite map_app. apply NoDup_snoc; [exact Hu|].
      cbn [map]. rewrite column_form_vals.
      rewrite (valid_national_id_stored today None t Hv).
      intros Hin. apply in_map_iff in Hin. destruct Hin as (r & E & Hr).
      apply validate_valid_iff in Hv. destruct Hv as (_ & (_ & Hf) & _).
      exact (fetch_same_false _ _ _ _ r Hf Hr I E).
  - unfold edit_employee. destruct (selected_emp_id t) as [emp|]; [|exact Hu].
    destruct (validate_employee_form today (Some emp) t) eqn:Hv; [|exact Hu].
    cbn [fst clear_form load_employees set_conn set_table conn].
    now apply (rewrite_employee_unique today).
  - intros reply_yes. unfold delete_employee.
    destruct (selected_emp_id t) as [emp|]; [|exact Hu].
    destruct reply_yes; [|exact Hu].
    cbn [fst clear_form load_employees set_conn set_table conn
         delete_attachments delete_employee_row employee].
    now apply filter_keeps_distinct.
Qed.

Lemma national_id_stays_unique_witness : unique_national_ids (conn ali_tab).
Proof.
  apply (national_id_stays_unique (2025, 6, 1)
           (set_form (sample_form (u "12345678901234") (u "2000-01-01"))
                     blank_tab)); constructor.
Defined.

(** ** After a success the form is blank *)

Lemma clear_form_refuses (today : Py.date) (x : EmployeeTab) :
  add_employee today (clear_form x)
  = (clear_form x, critical_invalid msg_name_required)
  /\ edit_employee today (clear_form x)
     = (clear_form x, critical_select_to_edit)
  /\ (forall reply_yes,
         delete_employee reply_yes (clear_form x)
         = (clear_form x, Some critical_select_to_delete)).
Proof. repeat split. Qed.

(** When [add_employee], [edit_employee] or [delete_employee] has written
    to the database, the form is left blank with nothing selected: the same
    button pressed again, or either of the other two, is refused and
    changes nothing. *)
Theorem repeated_action_refused (today today' : Py.date) (t : EmployeeTab) :
  let refused t' :=
    add_employee today' t' = (t', critical_invalid msg_name_required)
    /\ edit_employee today' t' = (t', critical_select_to_edit)
    /\ (forall reply_yes,
           delete_employee reply_yes t'
           = (t', Some critical_select_to_delete)) in
  ((forall msg, snd (add_employee today t) <> critical_invalid msg) ->
   refused (fst (add_employee today t)))
  /\ (snd (edit_employee today t) = info_edited ->
      refused (fst (edit_employee today t)))
  /\ (snd (delete_employee true t) = Some info_deleted ->
      refused (fst (delete_employee true t))).
Proof.
  intros refused. subst refused. cbv beta. split; [|split].
  - unfold add_employee.
    destruct (validate_employee_form today (selected_emp_id t) t) as [|msg].
    + intros _. destruct (selected_emp_id t).
      * apply clear_form_refuses.
      * destruct (insert_employee (form_vals t) (conn t)).
        apply clear_form_refuses.
    + intros H. now contradiction (H msg).
  - unfold edit_employee. destruct (selected_emp_id t); [|discriminate].
    destruct (validate_employee_form today (Some n) t); [|discriminate].
    intros _. apply clear_form_refuses.
  - unfold delete_employee. destruct (selected_emp_id t); [|discriminate].
    intros _. apply clear_form_refuses.
Qed.

Lemma repeated_action_refused_witness :
  add_employee (2026, 1, 1) ali_tab
  = (ali_tab, critical_invalid msg_name_required).
Proof.
  apply (repeated_action_refused (2025, 6, 1) (2026, 1, 1)
           (set_form (sample_form (u "12345678901234") (u "2000-01-01"))
                     blank_tab)).
  intros msg. vm_compute. discriminate.
Defined.

(** ** Searching, continued *)

Lemma like_weaken (p s : str) :
  like p s = true -> like (percent :: p) s = true.
Proof. intros H. rewrite like_percent, H. reflexivity. Qed.

Lemma like_char_eq_refl (c : N) : like_char_eq c c = true.
Proof. unfold like_char_eq. now rewrite N.eqb_refl. Qed.

(** Every text matches itself followed by [%], wildcards or not. *)
Lemma like_itself_percent (p : str) : like (p ++ [percent]) p = true.
Proof.
  induction p as [|c p IH]; [reflexivity|].
  cbn [app]. destruct (N.eqb_spec c percent) as [->|Hc].
  - rewrite like_percent. rewrite (like_weaken _ _ IH). apply orb_true_r.
  - cbn [like]. apply N.eqb_neq in Hc. rewrite Hc.
    now rewrite like_char_eq_refl, orb_true_r, IH.
Qed.

Lemma like_contains_itself (p : str) :
  like (percent :: p ++ [percent]) p = true.
Proof. apply like_weaken, like_itself_percent. Qed.

(** What was added is found under every spelling: after a valid form was
    added, a search for a text with the same normalized form as the name,
    department, file number or national identifier that was typed shows
    the new row (the pattern being within the limit of the engine). *)
Theorem search_finds_added (today : Py.date) (t t2 : EmployeeTab)
  (f : Field.t) (query : str) :
  selected_emp_id t = None ->
  validate_employee_form today None t = Valid ->
  In f [Field.name; Field.department; Field.file_no; Field.national_id] ->
  normalize_arabic query = normalize_arabic (form_fields t f) ->
  utf8_len (normalize_arabic query) + 2 <= like_pattern_limit ->
  conn t2 = conn (fst (add_employee today t)) ->
  exists id,
    In {| emp_id := id; emp_vals := form_vals t |}
       (table (fst (search_employees query t2))).
Proof.
  intros Hsel Hv Hf Hq Hl Hc.
  destruct (add_employee_inserts today t Hsel Hv) as (_ & Hrows & _).
  eexists. unfold search_employees.
  rewrite !utf8_len_app. change (utf8_len (u "%")) with 1.
  replace (1 + (utf8_len (normalize_arabic query) + 1)
           <=? like_pattern_limit) with true
    by (symmetry; apply N.leb_le; lia).
  cbn [fst set_table table]. apply filter_In. split.
  - rewrite Hc, Hrows. apply in_or_app. right. now left.
  - unfold search_where. change (u "%") with [percent]. cbn [app].
    rewrite !column_form_vals, Hq.
    cbn [In] in Hf.
    destruct Hf as [<-|[<-|[<-|[<-|[]]]]];
      rewrite like_contains_itself; cbn [orb];
      rewrite ?orb_true_r; reflexivity.
Qed.

Lemma search_finds_added_witness :
  exists id,
    In {| emp_id := id;
          emp_vals := form_vals (set_form ahmed_form blank_tab) |}
       (table (fst (search_employees (u "احمد")
                      (fst (add_employee (2025, 6, 1)
                              (set_form ahmed_form blank_tab)))))).
Proof.
  apply (search_finds_added (2025, 6, 1) (set_form ahmed_form blank_tab)
           (fst (add_employee (2025, 6, 1) (set_form ahmed_form blank_tab)))
           Field.name (u "احمد")).
  - reflexivity.
  - vm_compute. reflexivity.
  - now left.
  - vm_compute. reflexivity.
  - vm_compute. discriminate.
  - reflexivity.
Defined.

Lemma lstrip_blank (q : str) :
  Forall (fun c => Py.isspace_char c = true) q -> Py.lstrip q = [].
Proof.
  induction 1 as [|c q Hc Hq IH]; [reflexivity|].
  cbn [Py.lstrip]. now rewrite Hc.
Qed.

Lemma normalize_arabic_blank (q : str) :
  Forall (fun c => Py.isspace_char c = true) q -> normalize_arabic q = [].
Proof.
  intros H. rewrite normalize_arabic_eq, rewritten_fixed.
  - unfold Py.strip. now rewrite lstrip_blank.
  - rewrite Forall_forall in *. intros c Hc Hv.
    destruct (variant_not_space_digit c Hv) as [Hs _].
    specialize (H c Hc). congruence.
Qed.

Lemma filter_all {A : Type} (p : A -> bool) (l : list A) :
  (forall x, p x = true) -> filter p l = l.
Proof.
  intros H. induction l as [|a l IH]; [reflexivity|].
  cbn [filter]. now rewrite H, IH.
Qed.

(** A query that is empty or made of whitespace shows every employee, in
    the order of the table. *)
Theorem search_blank_shows_all (query : str) (t : EmployeeTab) :
  Forall (fun c => Py.isspace_char c = true) query ->
  search_employees query t = (load_employees t, None).
Proof.
  intros H. unfold search_employees, load_employees.
  rewrite (normalize_arabic_blank query H).
  change (utf8_len (u "%" ++ [] ++ u "%") <=? like_pattern_limit) with true.
  cbn [orb]. f_equal. f_equal. apply filter_all. intros r.
  unfold search_where. change (u "%" ++ [] ++ u "%") with [percent; percent].
  now rewrite (like_weaken _ _ (like_only_percent _)).
Qed.

Lemma search_blank_shows_all_witness :
  search_employees (u "  ") ali_tab = (load_employees ali_tab, None).
Proof.
  apply (search_blank_shows_all (u "  ") ali_tab).
  repeat constructor.
Defined.

(** ** The pending attachments *)

Lemma insert_pending_rows (emp : N) (t : EmployeeTab) (db : database) :
  exists new,
    attachment (insert_pending emp t db) = attachment db ++ new
    /\ map attachment_values new = pending_values emp t.
Proof.
  unfold insert_pending, pending_values. revert db.
  induction (attachments t) as [|a l IH]; intros db.
  - exists []. split; [now rewrite app_nil_r | reflexivity].
  - cbn [fold_left].
    destruct (IH (insert_attachment emp (fst a) (snd a) None None
                    (is_photo_flag (photo_path t) (snd a)) db))
      as (new & E & M).
    eexists (_ :: new). split.
    + rewrite E. unfold insert_attachment at 1. cbn [attachment].
      rewrite <- app_assoc. reflexivity.
    + cbn [map]. now rewrite M.
Qed.

(** [edit_employee] replaces the attachments of the employee wholesale:
    after a valid edit the attachment table is its former rows of the other
    employees, in order, followed by one row per pending attachment, in
    order, with the employee's identifier, the pending name and path, no
    file type, no upload date, and the photo flag set on the paths equal to
    [photo_path]. *)
Theorem edit_employee_replaces_attachments (today : Py.date)
  (t : EmployeeTab) (emp : N) :
  selected_emp_id t = Some emp ->
  validate_employee_form today (Some emp) t = Valid ->
  exists new,
    attachment (conn (fst (edit_employee today t)))
    = filter (fun a => negb (employee_id a =? emp)) (attachment (conn t))
      ++ new
    /\ map attachment_values new = pending_values emp t.
Proof.
  intros Hsel Hv. unfold edit_employee. rewrite Hsel, Hv.
  cbn [fst clear_form load_employees set_conn set_table conn].
  unfold rewrite_employee.
  destruct (insert_pending_rows emp t
              (delete_attachments emp
                 (update_employee (form_vals t) emp (conn t))))
    as (new & E & M).
  exists new. split; [|exact M]. rewrite E. reflexivity.
Qed.

(** [add_employee] stores the pending attachments under the identifier of
    the new employee: after a valid add with nothing selected the
    attachment table is its former rows followed by one row per pending
    attachment, in order. *)
Theorem add_employee_stores_pending (today : Py.date) (t : EmployeeTab) :
  selected_emp_id t = None ->
  validate_employee_form today None t = Valid ->
  let id :=
    next_rowid (employee_seq (conn t)) (map emp_id (employee (conn t))) in
  exists new,
    attachment (conn (fst (add_employee today t)))
    = attachment (conn t) ++ new
    /\ map attachment_values new = pending_values id t
    /\ In {| emp_id := id; emp_vals := form_vals t |}
          (employee (conn (fst (add_employee today t)))).
Proof.
  intros Hsel Hv id.
  destruct (add_employee_inserts today t Hsel Hv) as (_ & Hrows & _).
  fold id in Hrows. rewrite Hrows.
  unfold add_employee. rewrite Hsel, Hv. unfold insert_employee. fold id.
  cbn [fst clear_form load_employees set_conn set_table conn].
  destruct (insert_pending_rows id t
              {| employee :=
                   employee (conn t)
                   ++ [{| emp_id := id; emp_vals := form_vals t |}];
                 attachment := attachment (conn t);
                 employee_seq := id;
                 attachment_seq := attachment_seq (conn t) |})
    as (new & E & M).
  exists new. split; [exact E|]. split; [exact M|].
  apply in_or_app. right. now left.
Qed.

Lemma edit_employee_replaces_attachments_witness :
  exists new,
    attachment (conn (fst (edit_employee (2025, 6, 1) ali_pending)))
    = filter (fun a => negb (employee_id a =? 1))
             (attachment (conn ali_pending)) ++ new
    /\ map attachment_values new = pending_values 1 ali_pending.
Proof.
  apply (edit_employee_replaces_attachments (2025, 6, 1) ali_pending 1).
  - vm_compute. reflexivity.
  - vm_compute. reflexivity.
Defined.

Lemma add_employee_stores_pending_witness :
  exists new,
    attachment (conn (fst (add_employee (2025, 6, 1) pending_tab)))
    = attachment (conn pending_tab) ++ new
    /\ map attachment_values new = pending_values 1 pending_tab
    /\ In {| emp_id := 1; emp_vals := form_vals pending_tab |}
          (employee (conn (fst (add_employee (2025, 6, 1) pending_tab)))).
Proof.
  apply (add_employee_stores_pending (2025, 6, 1) pending_tab).
  - reflexivity.
  - vm_compute. reflexivity.
Defined.

(** ** Selecting a row, then editing *)

Lemma columns_of_row (r : employee_row) :
  List.length (emp_vals r) = 17%nat ->
  map (fun f => column f r) EMPLOYEE_FIELDS = emp_vals r.
Proof.
  destruct r as [id vals]. unfold column. cbn [emp_vals]. intros H.
  do 17 (destruct vals as [|? vals]; [discriminate|]).
  destruct vals; [reflexivity | discriminate].
Qed.

Lemma map_fixed {A : Type} (g : A -> A) (l : list A) :
  Forall (fun v => g v = v) l -> map g l = l.
Proof.
  induction 1 as [|a l Ha Hl IH]; [reflexivity|].
  cbn [map]. now rewrite Ha, IH.
Qed.

Lemma same_id_same_row (rows : list employee_row) (r r' : employee_row) :
  NoDup (map emp_id rows) -> In r rows -> In r' rows ->
  emp_id r = emp_id r' -> r = r'.
Proof.
  induction rows as [|a rows IH]; [intros _ []|].
  cbn [map]. intros H. inversion H as [|? ? Hn Hd]; subst.
  intros [<-|Hr] [<-|Hr'] E; try reflexivity.
  - exfalso. apply Hn. rewrite E. now apply in_map.
  - exfalso. apply Hn. rewrite <- E. now apply in_map.
  - now apply IH.
Qed.

Lemma on_row_select_state (row : nat) (t t1 : EmployeeTab) :
  on_row_select row t = Some t1 ->
  exists row_data,
    In row_data (employee (conn t))
    /\ conn t1 = conn t
    /\ selected_emp_id t1 = Some (emp_id row_data)
    /\ form_fields t1 = (fun f => column f row_data)
    /\ attachments t1
       = map (fun a => (filename a, filepath a))
             (filter (fun a => employee_id a =? emp_id row_data)
                     (attachment (conn t))).
Proof.
  unfold on_row_select.
  destruct (nth_error (table t) row) as [shown|]; [|discriminate].
  destruct (find _ (employee (conn t))) as [row_data|] eqn:F;
    [|discriminate].
  intros [= <-]. apply find_some in F. destruct F as [Hin Hid].
  apply N.eqb_eq in Hid. exists row_data. rewrite Hid.
  repeat split. exact Hin.
Qed.

Lemma filter_out_none {A : Type} (p : A -> bool) (l : list A) :
  filter p (filter (fun a => negb (p a)) l) = [].
Proof.
  induction l as [|a l IH]; [reflexivity|].
  cbn [filter]. destruct (p a) eqn:E; cbn [negb filter]; [exact IH|].
  now rewrite E.
Qed.

Lemma pending_rows_of (emp : N) (photo : option str)
  (pending : list (str * str)) (l : list attachment_row) :
  map attachment_values l
  = map (fun a => (emp, fst a, snd a, @None str, @None str,
                   is_photo_flag photo (snd a))) pending ->
  map (fun a => (filename a, filepath a))
      (filter (fun a => employee_id a =? emp) l)
  = pending.
Proof.
  revert l. induction pending as [|p ps IH]; intros [|a l]; cbn [map];
    try discriminate; [reflexivity|].
  unfold attachment_values at 1. intros [= E1 E2 E3 _ _ _ M].
  cbn [filter]. rewrite E1, N.eqb_refl. cbn [map].
  rewrite E2, E3, (IH l M). now destruct p.
Qed.

(** The round trip of the form: when a row of a well-kept table is
    selected and [edit_employee] is pressed with nothing changed (and
    validation passes), the employee table is what it was and the employee
    keeps the names and paths of its attachments, in order. *)
Theorem select_then_edit_unchanged (today : Py.date) (row : nat)
  (t t1 : EmployeeTab) :
  well_kept (conn t) ->
  on_row_select row t = Some t1 ->
  validate_employee_form today (selected_emp_id t1) t1 = Valid ->
  let after := conn (fst (edit_employee today t1)) in
  let of_selected db :=
    match selected_emp_id t1 with
    | Some emp =>
        map (fun a => (filename a, filepath a))
            (filter (fun a => employee_id a =? emp) (attachment db))
    | None => []
    end in
  snd (edit_employee today t1) = info_edited
  /\ employee after = employee (conn t)
  /\ of_selected after = of_selected (conn t).
Proof.
  intros (Hn & _ & Hr) Hs Hv after of_selected.
  destruct (on_row_select_state row t t1 Hs)
    as (row_data & Hin & Hc & Hsel & Hform & Hatt).
  subst after of_selected. cbv beta. rewrite Hsel in *.
  destruct (edit_employee_replaces_attachments today t1 _ Hsel Hv)
    as (new & Enew & Mnew).
  rewrite Enew. unfold edit_employee. rewrite Hsel, Hv.
  cbn [fst snd clear_form load_employees set_conn set_table conn].
  split; [reflexivity|]. split.
  - rewrite rewrite_employee_rows, Hc.
    assert (V : form_vals t1 = emp_vals row_data).
    { unfold form_vals. rewrite Hform.
      rewrite <- (map_map (fun f => column f row_data) normalize_arabic).
      destruct (Hr row_data Hin) as [Hl Hf].
      now rewrite (columns_of_row row_data Hl), map_fixed. }
    rewrite V. rewrite <- (map_id (employee (conn t))) at 2.
    apply map_ext_in. intros r Hr0.
    destruct (N.eqb_spec (emp_id r) (emp_id row_data)) as [E|_];
      [|reflexivity].
    rewrite <- (same_id_same_row _ r row_data Hn Hr0 Hin E).
    now destruct r.
  - rewrite filter_app, map_app, filter_out_none. cbn [map app].
    rewrite (pending_rows_of _ _ _ new Mnew). exact Hatt.
Qed.

Lemma ali_tab_rows : employee (conn ali_tab) = [ali_row].
Proof. vm_compute. reflexivity. Qed.

Lemma select_then_edit_unchanged_witness :
  employee (conn (fst (edit_employee (2025, 6, 1) ali_selected)))
  = employee (conn ali_tab).
Proof.
  apply (select_then_edit_unchanged (2025, 6, 1) 0 ali_tab ali_selected).
  - unfold well_kept. rewrite ali_tab_rows. split; [|split].
    + repeat constructor. intros [].
    + intros r [<-|[]]. vm_compute. discriminate.
    + intros r [<-|[]]. split; [reflexivity|]. vm_compute.
      repeat constructor.
  - reflexivity.
  - vm_compute. reflexivity.
Defined.

(** ** The attachment folder and the uploads, continued *)

Section Folder.

Variable os : file_system.
Hypothesis os_lawful : lawful os.
Variable guess_type : str -> option str.


(** Unlike [upload_files], [upload_photo] replaces what the folder holds
    under the photo's name.  When the folder is there or can be made,
    the picture can be read and the file [photo_<name>] of the folder can
    be written, that file has the bytes of the picture afterwards,
    whatever was there before; the photo path is set to it, the pending
    attachment list and the form are left as they are, and with an
    employee selected one attachment row is stored, flagged as photo, with
    the guessed file type (or the empty text) and the time of the upload. *)
Theorem upload_photo_replaces (f : str) (content : list N) (now : str)
  (d d0 d1 : disk os) (folder : str) (t : EmployeeTab) :
  let fname := u "photo_" ++ Py.basename f in
  let dest := Py.join folder fname in
  f <> [] ->
  form_fields t Field.file_no <> [] ->
  get_employee_folder d (form_fields t Field.file_no) = Some (d0, folder) ->
  read_file d f = Some content ->
  write_file d0 dest content = Some d1 ->
  exists t',
    upload_photo f guess_type now d t = Some (d1, t', None)
    /\ read_file d1 dest = Some content
    /\ photo_path t' = Some dest
    /\ attachments t' = attachments t
    /\ form_fields t' = form_fields t
    /\ employee (conn t') = employee (conn t)
    /\ match selected_emp_id t with
       | None => conn t' = conn t
       | Some emp =>
           exists row,
             attachment (conn t') = attachment (conn t) ++ [row]
             /\ attachment_values row
                = (emp, fname, dest,
                   Some (match guess_type dest with
                         | Some ty => ty
                         | None => []
                         end),
                   Some now, 1)
       end.
Proof.
  intros fname dest Hf Hno G Hr Hw.
  destruct os_lawful as (_ & L2 & _).
  destruct (get_employee_folder_returns os os_lawful _ _ _ _ G)
    as (_ & _ & P).
  pose proof (proj1 P _ _ Hr) as Hr0.
  destruct f as [|c0 f0]; [congruence|].
  unfold upload_photo. cbv match.
  set (f := c0 :: f0) in *. clearbody f.
  destruct (form_fields t Field.file_no) as [|c file_no] eqn:E;
    [congruence|].
  rewrite G. fold fname. fold dest. rewrite Hr0, Hw.
  destruct (selected_emp_id t) as [emp|]; eexists;
    (split; [reflexivity|]); (split; [exact (L2 _ _ _ _ Hw)|]);
    repeat split.
  eexists. split; reflexivity.
Qed.

(** One turn of the loop either skips the file or makes its entry. *)
Lemma upload_file_step (now folder : str) (d : disk os) (t : EmployeeTab)
  (f : str) :
  let r := upload_file guess_type now folder (d, t) f in
  r = (d, t)
  \/ (path_exists (fst r) (snd (upload_entry folder f)) = true
      /\ attachments (snd r) = attachments t ++ [upload_entry folder f]
      /\ form_fields (snd r) = form_fields t
      /\ selected_emp_id (snd r) = selected_emp_id t
      /\ employee (conn (snd r)) = employee (conn t)
      /\ match selected_emp_id t with
         | None => conn (snd r) = conn t
         | Some emp =>
             exists row,
               attachment (conn (snd r)) = attachment (conn t) ++ [row]
               /\ attachment_values row
                  = uploaded_values guess_type now emp
                                    (upload_entry folder f)
         end).
Proof.
  intros r. subst r. unfold upload_file, upload_entry. cbn [fst snd].
  set (dest := Py.join folder (Py.basename f)).
  assert (K : forall d' : disk os,
             path_exists d' dest = true ->
             let r :=
               match selected_emp_id t with
               | Some emp =>
                   (d',
                    set_conn
                      (insert_attachment emp (Py.basename f) dest
                         (Some match guess_type dest with
                               | Some ty => ty
                               | None => []
                               end) (Some now) 0
                         (conn (set_attachments
                                  (attachments t ++ [(Py.basename f, dest)])
                                  t)))
                      (set_attachments
                         (attachments t ++ [(Py.basename f, dest)]) t))
               | None =>
                   (d',
                    set_attachments
                      (attachments t ++ [(Py.basename f, dest)]) t)
               end in
             path_exists (fst r) dest = true
             /\ attachments (snd r)
                = attachments t ++ [(Py.basename f, dest)]
             /\ form_fields (snd r) = form_fields t
             /\ selected_emp_id (snd r) = selected_emp_id t
             /\ employee (conn (snd r)) = employee (conn t)
             /\ match selected_emp_id t with
                | None => conn (snd r) = conn t
                | Some emp =>
                    exists row,
                      attachment (conn (snd r)) = attachment (conn t) ++ [row]
                      /\ attachment_values row
                         = uploaded_values guess_type now emp
                                           (Py.basename f, dest)
                end).
  { intros d' Hex. destruct (selected_emp_id t) as [emp|] eqn:Hsel;
      cbn [fst snd set_conn set_attachments conn attachments form_fields
           selected_emp_id insert_attachment employee attachment];
      repeat split; try assumption.
    eexists. split; reflexivity. }
  destruct (path_exists d dest) eqn:Ex; cbn [negb].
  - right. now apply K.
  - destruct (read_file d f) as [content|]; [|now left].
    destruct (write_file d dest content) as [d'|] eqn:W; [|now left].
    right. apply K. exact (written_exists os os_lawful _ _ _ _ W).
Qed.

Lemma path_exists_preserved (d d' : disk os) (p : str) :
  preserved d d' -> path_exists d p = true -> path_exists d' p = true.
Proof. intros [_ H]. apply H. Qed.

Lemma upload_loop_pending (now : nat -> str) (folder : str)
  (files : list str) :
  forall (i : nat) (d : disk os) (t : EmployeeTab),
    let r := upload_loop guess_type now folder i files (d, t) in
    exists new,
      attachments (snd r) = attachments t ++ new
      /\ Forall (fun e => path_exists (fst r) (snd e) = true
                          /\ exists f, In f files
                                       /\ e = upload_entry folder f) new
      /\ form_fields (snd r) = form_fields t
      /\ selected_emp_id (snd r) = selected_emp_id t
      /\ employee (conn (snd r)) = employee (conn t)
      /\ match selected_emp_id t with
         | None => conn (snd r) = conn t
         | Some emp =>
             exists rows,
               attachment (conn (snd r)) = attachment (conn t) ++ rows
               /\ Forall2
                    (fun row e =>
                       exists j,
                         attachment_values row
                         = uploaded_values guess_type (now j) emp e)
                    rows new
         end.
Proof.
  induction files as [|f files IH]; intros i d t r; subst r.
  - exists []. cbn [upload_loop fst snd]. rewrite app_nil_r.
    repeat split; [constructor|].
    destruct (selected_emp_id t); [|reflexivity].
    exists []. rewrite app_nil_r. split; [reflexivity | constructor].
  - cbn [upload_loop].
    assert (W : forall (l : list (str * str)) (d' : disk os),
               Forall (fun e => path_exists d' (snd e) = true
                                /\ exists f0, In f0 files
                                              /\ e = upload_entry folder f0) l
               -> Forall (fun e => path_exists d' (snd e) = true
                                   /\ exists f0, In f0 (f :: files)
                                                 /\ e = upload_entry folder f0)
                         l).
    { intros l d'. apply Forall_impl. intros e (H1 & f0 & H2 & H3).
      split; [assumption|]. exists f0. split; [now right | assumption]. }
    destruct (upload_file_step (now i) folder d t f) as [E|S].
    + rewrite E. destruct (IH (S i) d t) as (new & H1 & H2 & H3).
      exists new. split; [exact H1|]. split; [|exact H3].
      now apply W.
    + destruct (upload_file guess_type (now i) folder (d, t) f) as [d1 t1].
      cbn [fst snd] in S.
      destruct S as (Sx & Sa & Sf & Ss & Se & Sc).
      destruct (IH (S i) d1 t1) as (new & H1 & H2 & H3 & H4 & H5 & H6).
      pose proof (upload_loop_preserved os os_lawful guess_type now folder
                    files (S i) (d1, t1)) as P.
      cbn [fst] in P.
      exists (upload_entry folder f :: new).
      split; [rewrite H1, Sa, <- app_assoc; reflexivity|].
      split.
      { constructor.
        - split; [exact (path_exists_preserved _ _ _ P Sx)|].
          exists f. split; [now left | reflexivity].
        - now apply W. }
      split; [congruence|]. split; [congruence|]. split; [congruence|].
      rewrite Ss in H6. destruct (selected_emp_id t) as [emp|].
      * destruct Sc as (row & Sr & Sv). destruct H6 as (rows & Hr & Hm).
        exists (row :: rows). split.
        -- rewrite Hr, Sr, <- app_assoc. reflexivity.
        -- constructor; [now exists i | exact Hm].
      * congruence.
Qed.

(** The loop on files that are all in the folder already. *)
Lemma upload_loop_present (now : nat -> str) (folder : str) (d : disk os)
  (files : list str) :
  forall (i : nat) (t : EmployeeTab),
    (forall f, In f files ->
               path_exists d (snd (upload_entry folder f)) = true) ->
    exists t',
      upload_loop guess_type now folder i files (d, t) = (d, t')
      /\ attachments t' = attachments t ++ map (upload_entry folder) files
      /\ match selected_emp_id t with
         | None => conn t' = conn t
         | Some emp =>
             exists rows,
               attachment (conn t') = attachment (conn t) ++ rows
               /\ map attachment_values rows
                  = map (fun turn =>
                           uploaded_values guess_type (now (fst turn)) emp
                             (upload_entry folder (snd turn)))
                        (combine (seq i (List.length files)) files)
         end.
Proof.
  induction files as [|f files IH]; intros i t Hx.
  - exists t. cbn [upload_loop map]. rewrite app_nil_r.
    split; [reflexivity|]. split; [reflexivity|].
    destruct (selected_emp_id t); [|reflexivity].
    exists []. now rewrite app_nil_r.
  - cbn [upload_loop]. unfold upload_file at 1.
    pose proof (Hx f (or_introl eq_refl)) as Hf.
    unfold upload_entry in Hf. cbn [snd] in Hf. rewrite Hf. cbn [negb].
    assert (Hx' : forall f0, In f0 files ->
                    path_exists d (snd (upload_entry folder f0)) = true)
      by (intros f0 H0; apply Hx; now right).
    destruct (selected_emp_id t) as [emp|] eqn:Hs.
    + match goal with
      | |- context [upload_loop _ _ _ _ files (d, ?x)] =>
          destruct (IH (S i) x Hx') as (t' & H1 & H2 & H3)
      end.
      cbn [selected_emp_id set_conn set_attachments] in H3.
      rewrite Hs in H3. destruct H3 as (rows & Hr & Hv).
      exists t'. split; [exact H1|]. split.
      * rewrite H2. cbn [attachments set_conn set_attachments map].
        now rewrite <- app_assoc.
      * cbn [conn set_conn attachment insert_attachment] in Hr.
        eexists (_ :: rows). split.
        -- rewrite Hr, <- app_assoc. reflexivity.
        -- cbn [List.length seq combine map fst snd]. now rewrite Hv.
    + match goal with
      | |- context [upload_loop _ _ _ _ files (d, ?x)] =>
          destruct (IH (S i) x Hx') as (t' & H1 & H2 & H3)
      end.
      cbn [selected_emp_id set_attachments] in H3. rewrite Hs in H3.
      exists t'. split; [exact H1|]. split.
      * rewrite H2. cbn [attachments set_attachments map].
        now rewrite <- app_assoc.
      * exact H3.
Qed.

(** What [upload_files] leaves behind.  With a blank file number, only a
    message.  When every chosen file is in the employee's folder already,
    nothing is written, the pending list gets one entry per chosen file,
    in the order chosen, and with an employee selected one attachment row
    is stored per chosen file, in that order, with the guessed file type
    (or the empty text), the time of the file's own turn and the photo
    flag 0.  In general, every entry added to the pending list is the
    entry of a chosen file and names a path that exists when the function
    returns, the employee table is untouched, and the attachment table gets
    one such row per entry added when an employee is selected and is
    untouched otherwise. *)
Theorem upload_files_pending_exist (files : list str) (now : nat -> str)
  (d : disk os) (t : EmployeeTab) :
  let file_no := form_fields t Field.file_no in
  (file_no = [] ->
   upload_files files guess_type now d t
   = Some (d, t, Some critical_file_no_first))
  /\ (forall d0 folder,
         file_no <> [] ->
         get_employee_folder d file_no = Some (d0, folder) ->
         (forall f, In f files ->
                    path_exists d (snd (upload_entry folder f)) = true) ->
         exists t',
           upload_files files guess_type now d t = Some (d0, t', None)
           /\ attachments t'
              = attachments t ++ map (upload_entry folder) files
           /\ match selected_emp_id t with
              | None => conn t' = conn t
              | Some emp =>
                  exists rows,
                    attachment (conn t') = attachment (conn t) ++ rows
                    /\ map attachment_values rows
                       = map (fun turn =>
                                uploaded_values guess_type
                                  (now (fst turn)) emp
                                  (upload_entry folder (snd turn)))
                             (combine (seq 0 (List.length files)) files)
              end)
  /\ (forall d' t' msg,
         file_no <> [] ->
         upload_files files guess_type now d t = Some (d', t', msg) ->
         exists new,
           attachments t' = attachments t ++ new
           /\ Forall (fun e =>
                        path_exists d' (snd e) = true
                        /\ exists f,
                            In f files
                            /\ e = upload_entry
                                     (Py.join ATTACHMENTS_DIR file_no) f)
                     new
           /\ employee (conn t') = employee (conn t)
           /\ match selected_emp_id t with
              | None => conn t' = conn t
              | Some emp =>
                  exists rows,
                    attachment (conn t') = attachment (conn t) ++ rows
                    /\ Forall2
                         (fun row e =>
                            exists j,
                              attachment_values row
                              = uploaded_values guess_type (now j) emp e)
                         rows new
              end).
Proof.
  intros file_no. subst file_no. split; [|split].
  - intros E. unfold upload_files. now rewrite E.
  - intros d0 folder Hno G Hx.
    destruct (get_employee_folder_returns os os_lawful _ _ _ _ G)
      as (_ & _ & P).
    destruct (upload_loop_present now folder d0 files 0%nat t)
      as (t' & H1 & H2 & H3).
    { intros f Hf. exact (path_exists_preserved _ _ _ P (Hx f Hf)). }
    exists t'. unfold upload_files.
    destruct (form_fields t Field.file_no) as [|c file_no]; [congruence|].
    rewrite G, H1. repeat split; assumption.
  - intros d' t' msg Hno. unfold upload_files.
    destruct (form_fields t Field.file_no) as [|c file_no] eqn:E;
      [congruence|].
    destruct (get_employee_folder d (c :: file_no)) as [[d1 folder]|] eqn:G;
      [|discriminate].
    destruct (get_employee_folder_returns os os_lawful _ _ _ _ G)
      as (Ef & _ & _).
    destruct (upload_loop_pending now folder files 0%nat d1 t)
      as (new & H1 & H2 & _ & _ & H5 & H6).
    destruct (upload_loop _ _ _ _ files (d1, t)) as [d2 t2].
    cbn [fst snd] in *. intros [= <- <- _].
    exists new. rewrite <- Ef. repeat split; assumption.
Qed.

End Folder.


Lemma upload_photo_replaces_witness :
  read_file (os := posix) with_photo (u "attachments/7/photo_cv.pdf")
  = Some [9]
  /\ exists t',
      upload_photo (os := posix) (u "/home/a/cv.pdf") no_mime (ticking 0)
                   with_photo ali_selected
      = Some (new_photo, t', None)
      /\ read_file (os := posix) new_photo (u "attachments/7/photo_cv.pdf")
         = Some [1; 2; 3]
      /\ map attachment_values (attachment (conn t'))
         = [(1, u "photo_cv.pdf", u "attachments/7/photo_cv.pdf", Some [],
             Some (ticking 0), 1)].
Proof.
  split; [vm_compute; reflexivity|].
  assert (G : get_employee_folder (os := posix) with_photo
                (form_fields ali_selected Field.file_no)
              = Some (with_photo, u "attachments/7"))
    by (vm_compute; reflexivity).
  assert (R : read_file (os := posix) with_photo (u "/home/a/cv.pdf")
              = Some [1; 2; 3]) by (vm_compute; reflexivity).
  assert (W : write_file (os := posix) with_photo
                (Py.join (u "attachments/7")
                   (u "photo_" ++ Py.basename (u "/home/a/cv.pdf")))
                [1; 2; 3]
              = Some new_photo) by (vm_compute; reflexivity).
  assert (F : u "/home/a/cv.pdf" <> []) by (vm_compute; discriminate).
  assert (N0 : form_fields ali_selected Field.file_no <> [])
    by (vm_compute; discriminate).
  destruct (upload_photo_replaces posix posix_lawful no_mime
              (u "/home/a/cv.pdf") [1; 2; 3] (ticking 0)
              with_photo with_photo new_photo (u "attachments/7")
              ali_selected F N0 G R W)
    as (t' & H1 & H2 & _ & _ & _ & _ & H7).
  exists t'. split; [exact H1|]. split; [exact H2|].
  assert (S : selected_emp_id ali_selected = Some 1)
    by (vm_compute; reflexivity).
  rewrite S in H7. destruct H7 as (row & Hr & Hv).
  assert (A : attachment (conn ali_selected) = [])
    by (vm_compute; reflexivity).
  rewrite Hr, A. cbn [app map]. rewrite Hv. vm_compute. reflexivity.
Defined.

Lemma upload_files_pending_exist_witness :
  exists t',
    upload_files (os := posix) [u "/home/b/cv.pdf"; u "/home/b/new.png"]
                 no_mime ticking with_two ali_selected
    = Some (with_two, t', None)
    /\ attachments t'
       = [(u "cv.pdf", u "attachments/7/cv.pdf");
          (u "new.png", u "attachments/7/new.png")]
    /\ map attachment_values (attachment (conn t'))
       = [(1, u "cv.pdf", u "attachments/7/cv.pdf", Some [],
           Some (u "2025-06-01 10:00:00"), 0);
          (1, u "new.png", u "attachments/7/new.png", Some [],
           Some (u "2025-06-01 10:00:01"), 0)].
Proof.
  assert (N0 : form_fields ali_selected Field.file_no <> [])
    by (vm_compute; discriminate).
  assert (G : get_employee_folder (os := posix) with_two
                (form_fields ali_selected Field.file_no)
              = Some (with_two, u "attachments/7"))
    by (vm_compute; reflexivity).
  assert (X : forall f,
             In f [u "/home/b/cv.pdf"; u "/home/b/new.png"] ->
             path_exists (os := posix) with_two
               (snd (upload_entry (u "attachments/7") f)) = true).
  { intros f [<-|[<-|[]]]; vm_compute; reflexivity. }
  destruct (proj1 (proj2 (upload_files_pending_exist posix posix_lawful
                            no_mime [u "/home/b/cv.pdf"; u "/home/b/new.png"]
                            ticking with_two ali_selected))
              with_two (u "attachments/7") N0 G X)
    as (t' & H1 & H2 & H3).
  exists t'. split; [exact H1|].
  assert (A0 : attachments ali_selected = []) by (vm_compute; reflexivity).
  assert (A : attachment (conn ali_selected) = [])
    by (vm_compute; reflexivity).
  assert (S : selected_emp_id ali_selected = Some 1)
    by (vm_compute; reflexivity).
  split.
  - rewrite H2, A0. vm_compute. reflexivity.
  - rewrite S in H3. destruct H3 as (rows & Hr & Hv).
    rewrite Hr, A. cbn [app]. rewrite Hv. vm_compute. reflexivity.
Defined.

(** ** Validation, continued *)

Lemma validate_dates_same (today : Py.date) (form form' : Field.t -> str)
  (fields : list Field.t) :
  (forall f, In f fields -> form' f = form f) ->
  validate_dates today form' fields = validate_dates today form fields.
Proof.
  induction fields as [|f fields IH]; intros H; [reflexivity|].
  cbn [validate_dates]. rewrite (H f (or_introl eq_refl)).
  rewrite IH; [reflexivity|]. intros f0 H0. apply H. now right.
Qed.

(** Validation reads seven fields only -- name, file_no, national_id,
    phone and the three dates: two forms that agree on them get the same
    verdict, whatever grade, qualification, groups, job title, department,
    current work, insurance number, address and notes hold. *)
Theorem validation_reads_seven_fields (today : Py.date)
  (skip_id : option N) (t t' : EmployeeTab) :
  conn t' = conn t ->
  (forall f, In f validated_fields -> form_fields t' f = form_fields t f) ->
  validate_employee_form today skip_id t'
  = validate_employee_form today skip_id t.
Proof.
  intros Hc H. unfold validate_employee_form.
  rewrite Hc.
  rewrite (H Field.name), (H Field.file_no), (H Field.national_id),
    (H Field.phone) by (unfold validated_fields; simpl; tauto).
  rewrite (validate_dates_same today (form_fields t) (form_fields t')
             date_fields); [reflexivity|].
  intros f Hf. apply H. unfold validated_fields, date_fields in *.
  simpl in *. tauto.
Qed.

Lemma validation_reads_seven_fields_witness :
  validate_employee_form (2025, 6, 1) None
    (set_form sample_with_address blank_tab)
  = validate_employee_form (2025, 6, 1) None
      (set_form (sample_form (u "12345678901234") (u "2000-01-01"))
                blank_tab).
Proof.
  apply (validation_reads_seven_fields (2025, 6, 1) None
           (set_form (sample_form (u "12345678901234") (u "2000-01-01"))
                     blank_tab)
           (set_form sample_with_address blank_tab)).
  - reflexivity.
  - intros f [<-|[<-|[<-|[<-|[<-|[<-|[<-|[]]]]]]]]; reflexivity.
Defined.

(** ** The dashboard *)

Lemma nodup_length_le {A : Type} (dec : forall x y : A, {x = y} + {x <> y})
  (l : list A) :
  (List.length (nodup dec l) <= List.length l)%nat.
Proof.
  induction l as [|a l IH]; [reflexivity|].
  cbn [nodup]. destruct (in_dec dec a l); simpl; lia.
Qed.

Lemma count_distinct_snoc (l : list str) (v : str) :
  count_distinct (l ++ [v])
  = (count_distinct l
     + if in_dec (list_eq_dec N.eq_dec) v l then 0 else 1)%nat.
Proof.
  unfold count_distinct. induction l as [|a l IH].
  - reflexivity.
  - cbn [app nodup].
    destruct (in_dec (list_eq_dec N.eq_dec) v (a :: l)) as [Hv|Hv];
      destruct (in_dec (list_eq_dec N.eq_dec) a (l ++ [v])) as [Ha|Ha];
      destruct (in_dec (list_eq_dec N.eq_dec) a l) as [Hl|Hl];
      destruct (in_dec (list_eq_dec N.eq_dec) v l) as [Hvl|Hvl];
      cbn [List.length] in *; rewrite ?IH;
      try lia;
      exfalso;
      repeat match goal with
             | H : In _ (_ ++ _) |- _ => apply in_app_iff in H
             | H : ~ In _ (_ ++ _) |- _ => rewrite in_app_iff in H
             end;
      cbn [In] in *; intuition congruence.
Qed.

(** The numbers of the dashboard.  There are never more departments than
    employees.  After a valid add with nothing selected there is one
    employee more, one attachment more per pending attachment, and one
    department more exactly when the normalized department of the form is
    not yet a department of the table. *)
Theorem refresh_counts_after_add (today : Py.date) (t : EmployeeTab) :
  (let '(emp_count, dept_count, att_count) := refresh_counts (conn t) in
   (dept_count <= emp_count)%nat)
  /\ (selected_emp_id t = None ->
      validate_employee_form today None t = Valid ->
      let '(emp_count, dept_count, att_count) := refresh_counts (conn t) in
      refresh_counts (conn (fst (add_employee today t)))
      = (S emp_count,
         (dept_count
          + if in_dec (list_eq_dec N.eq_dec)
                 (normalize_arabic (form_fields t Field.department))
                 (map (column Field.department) (employee (conn t)))
            then 0 else 1)%nat,
         (att_count + List.length (attachments t))%nat)).
Proof.
  split.
  - unfold refresh_counts, count_distinct.
    eapply Nat.le_trans; [apply nodup_length_le|]. now rewrite length_map.
  - intros Hsel Hv. unfold refresh_counts.
    destruct (add_employee_stores_pending today t Hsel Hv)
      as (new & Ea & Ma & _).
    destruct (add_employee_inserts today t Hsel Hv) as (_ & Er & _).
    rewrite Er, Ea. rewrite !length_app, map_app. cbn [map].
    rewrite count_distinct_snoc. cbn [List.length].
    rewrite column_form_vals.
    replace (List.length new) with (List.length (attachments t)).
    + now rewrite Nat.add_1_r.
    + rewrite <- (length_map attachment_values new), Ma.
      unfold pending_values. now rewrite length_map.
Qed.

Lemma refresh_counts_after_add_witness :
  refresh_counts (conn (fst (add_employee (2025, 6, 1) pending_tab)))
  = (1, 1, 1)%nat.
Proof.
  pose proof (proj2 (refresh_counts_after_add (2025, 6, 1) pending_tab)) as H.
  assert (V : validate_employee_form (2025, 6, 1) None pending_tab = Valid)
    by (vm_compute; reflexivity).
  specialize (H eq_refl V). exact H.
Defined.

(** ** The text report *)

Lemma count_join (sep : str) (l : list str) (c : N) :
  count_occ N.eq_dec sep c = O ->
  Forall (fun x => count_occ N.eq_dec x c = O) l ->
  count_occ N.eq_dec (str_join sep l) c = O.
Proof.
  intros Hs. induction 1 as [|x l Hx Hl IH]; [reflexivity|].
  cbn [str_join]. destruct l as [|y l]; [exact Hx|].
  rewrite !count_occ_app, Hx, Hs, IH. reflexivity.
Qed.

Lemma report_line_breaks (row : list str) :
  Forall (fun cell => ~ In 10 cell) row ->
  count_occ N.eq_dec (report_line row) 10 = 1%nat.
Proof.
  intros H. unfold report_line. rewrite count_occ_app.
  rewrite count_join; [reflexivity | reflexivity |].
  apply Forall_forall. intros x Hx. apply in_map_iff in Hx.
  destruct Hx as (cell & <- & Hc). rewrite Forall_forall in H.
  destruct (nonempty cell); [|reflexivity].
  apply count_occ_not_In. now apply H.
Qed.

Lemma report_lines_breaks (rows : list (list str)) :
  Forall (Forall (fun cell => ~ In 10 cell)) rows ->
  count_occ N.eq_dec (List.concat (map report_line rows)) 10
  = List.length rows.
Proof.
  induction 1 as [|row rows Hr Hrows IH]; [reflexivity|].
  cbn [map List.concat List.length].
  now rewrite count_occ_app, report_line_breaks, IH.
Qed.

(** [full_report] writes one line per employee under a header line and a
    rule: when no stored value holds a line break, the report holds
    exactly two line breaks more than there are employees.  It reads the
    database only. *)
Theorem full_report_one_line_each (t : ReportTab) :
  Forall (fun r => Forall (fun cell => ~ In 10 cell) (emp_vals r))
         (employee (report_conn t)) ->
  count_occ N.eq_dec (report_text (full_report t)) 10
  = (2 + List.length (employee (report_conn t)))%nat
  /\ report_conn (full_report t) = report_conn t.
Proof.
  intros H. split; [|reflexivity].
  unfold full_report. cbn [report_text].
  rewrite !count_occ_app, report_lines_breaks.
  - rewrite length_map.
    change (count_occ N.eq_dec
              (str_join (u " | ") (map AR_LABELS EMPLOYEE_FIELDS)) 10)
      with O.
    change (count_occ N.eq_dec (repeat 45 120) 10) with O.
    reflexivity.
  - apply Forall_forall. intros row Hrow. apply in_map_iff in Hrow.
    destruct Hrow as (r & <- & Hr). rewrite Forall_forall in H.
    now apply H.
Qed.

Lemma full_report_one_line_each_witness :
  count_occ N.eq_dec (report_text (full_report ali_report)) 10 = 3%nat.
Proof.
  apply (full_report_one_line_each ali_report).
  change (employee (report_conn ali_report)) with (employee (conn ali_tab)).
  rewrite ali_tab_rows.
  repeat constructor; intros H; vm_compute in H;
    repeat (destruct H as [H|H]; [discriminate H|]); exact H.
Defined.

(** ** The add button on a selected employee *)

(** With an employee selected, [add_employee] does not add: it leaves the
    state [edit_employee] leaves, the table has as many rows as before,
    and only the text of the message differs. *)
Theorem add_employee_on_selection_edits (today : Py.date) (t : EmployeeTab)
  (emp : N) :
  selected_emp_id t = Some emp ->
  fst (add_employee today t) = fst (edit_employee today t)
  /\ List.length (employee (conn (fst (add_employee today t))))
     = List.length (employee (conn t))
  /\ (validate_employee_form today (Some emp) t = Valid ->
      snd (add_employee today t) = info_updated
      /\ snd (edit_employee today t) = info_edited).
Proof.
  intros Hsel. unfold add_employee, edit_employee. rewrite Hsel.
  destruct (validate_employee_form today (Some emp) t) eqn:Hv.
  - cbn [fst snd clear_form load_employees set_conn set_table conn].
    rewrite rewrite_employee_rows, length_map.
    split; [reflexivity|]. split; [reflexivity|]. intros _. now split.
  - split; [reflexivity|]. split; [reflexivity|]. discriminate.
Qed.

Lemma add_employee_on_selection_edits_witness :
  fst (add_employee (2025, 6, 1) ali_selected)
  = fst (edit_employee (2025, 6, 1) ali_selected).
Proof.
  apply (add_employee_on_selection_edits (2025, 6, 1) ali_selected 1).
  vm_compute. reflexivity.
Defined.

(** ** The photo of a selected employee *)

Lemma fold_last_flagged (rows : list attachment_row) (init : option str) :
  fold_left (fun p a => if is_photo a =? 0 then p else Some (filepath a))
            rows init
  = match rev (filter (fun a => negb (is_photo a =? 0)) rows) with
    | a :: _ => Some (filepath a)
    | [] => init
    end.
Proof.
  revert init. induction rows as [|a rows IH] using rev_ind; intros init;
    [reflexivity|].
  rewrite fold_left_app, filter_app, rev_app_distr. cbn [fold_left filter].
  destruct (is_photo a =? 0); cbn [negb rev app]; [apply IH | reflexivity].
Qed.

(** Several attachments of an employee may be flagged as photo; the one
    shown after the employee is selected is the last flagged row of the
    table, and none when no row is flagged. *)
Theorem on_row_select_last_photo (row : nat) (t t1 : EmployeeTab) :
  on_row_select row t = Some t1 ->
  exists emp,
    selected_emp_id t1 = Some emp
    /\ photo_path t1 = option_map filepath (last_photo emp (conn t)).
Proof.
  unfold on_row_select.
  destruct (nth_error (table t) row) as [shown|]; [|discriminate].
  destruct (find _ (employee (conn t))) as [row_data|]; [|discriminate].
  intros [= <-]. exists (emp_id shown). split; [reflexivity|].
  unfold load_attachments, last_photo. cbn [photo_path conn].
  rewrite fold_last_flagged.
  now destruct (rev _).
Qed.

Lemma on_row_select_last_photo_witness :
  map (fun a => (employee_id a, filepath a, is_photo a))
      (attachment (conn two_photos))
  = [(1, u "attachments/7/photo_ali.png", 1);
     (1, u "attachments/7/photo_new.png", 1)]
  /\ exists t1,
      on_row_select 0 two_photos = Some t1
      /\ photo_path t1 = Some (u "attachments/7/photo_new.png").
Proof.
  split; [vm_compute; reflexivity|].
  pose (t1 := match on_row_select 0 two_photos with
              | Some t => t
              | None => two_photos
              end).
  assert (E : on_row_select 0 two_photos = Some t1)
    by (vm_compute; reflexivity).
  exists t1. split; [exact E|].
  destruct (on_row_select_last_photo 0 two_photos t1 E) as (emp & Hs & Hp).
  assert (S : selected_emp_id t1 = Some 1) by (vm_compute; reflexivity).
  rewrite S in Hs. injection Hs as <-.
  rewrite Hp. vm_compute. reflexivity.
Defined.

(** ** The national identifier that is stored *)

(** The national identifier of a row that [add_employee] inserts is the
    trimmed text validation accepted: exactly 14 digit characters. *)
Theorem add_employee_stores_valid_national_id (today : Py.date)
  (t : EmployeeTab) :
  selected_emp_id t = None ->
  validate_employee_form today None t = Valid ->
  exists r,
    In r (employee (conn (fst (add_employee today t))))
    /\ emp_vals r = form_vals t
    /\ column Field.national_id r
       = Py.strip (form_fields t Field.national_id)
    /\ List.length (column Field.national_id r) = 14%nat
    /\ all_digits (column Field.national_id r).
Proof.
  intros Hsel Hv.
  destruct (add_employee_inserts today t Hsel Hv) as (_ & Hrows & _).
  eexists. split; [rewrite Hrows; apply in_or_app; right; now left|].
  split; [reflexivity|].
  rewrite column_form_vals, (valid_national_id_stored today None t Hv).
  split; [reflexivity|].
  apply validate_valid_iff in Hv. now destruct Hv as (_ & _ & Hd & _).
Qed.

Lemma add_employee_stores_valid_national_id_witness :
  exists r,
    In r (employee (conn ali_tab))
    /\ emp_vals r
       = form_vals
           (set_form (sample_form (u "12345678901234") (u "2000-01-01"))
                     blank_tab)
    /\ column Field.national_id r = u "12345678901234".
Proof.
  destruct (add_employee_stores_valid_national_id (2025, 6, 1)
              (set_form (sample_form (u "12345678901234") (u "2000-01-01"))
                        blank_tab))
    as (r & H1 & H2 & H3 & _).
  - reflexivity.
  - vm_compute. reflexivity.
  - exists r. split; [exact H1|]. split; [exact H2 | exact H3].
Defined.
